(** * SRAL framework: Evaluator and Generator workers

    A shallow embedding of the two stateless workers of the self-refining
    loop and the properties their specification states about them:

    - [packages/evaluator/src/index.ts]: the weighted multi-test scorer with
      per-test fault isolation;
    - [packages/evaluator/src/handlers/linter.ts] and [handlers/llm.ts]: the
      two registered test handlers;
    - [packages/generator/src/index.ts]: request validation and the deferred
      generation job with its failure report.

    JavaScript values are modelled as the code has them: strings are
    sequences of UTF-16 code units, numbers are IEEE 754 binary64 values
    (the executable specification [SpecFloat] of the Standard Library),
    objects used as maps are finite maps, exceptions are an explicit
    outcome, and the external collaborators (blob store, model endpoint,
    orchestrator stub, [JSON.parse], ESLint) are oracles that travel with the
    environment. *)

From Stdlib Require Import ZArith NArith List Bool String Ascii Lia.
From Stdlib Require Import SpecFloat.
From stdpp Require Import base gmap list.

Local Open Scope Z_scope.
Set Warnings "-register-all".

(** ** JavaScript strings *)

Module JsString.

(** A string is a sequence of UTF-16 code units; [length] is the [.length]
    property. *)
Definition jstr := list N.

(** Source literals. *)
Definition str (s : string) : jstr := map N_of_ascii (list_ascii_of_string s).

(** The double quote, for literals that contain it. *)
Definition dquote : N := 34%N.

Definition jstr_eqb (a b : jstr) : bool := bool_decide (a = b).

(** ECMAScript [WhiteSpace] and [LineTerminator] code units: what [\s]
    matches and what [String.prototype.trim] removes. *)
Definition is_line_terminator (c : N) : bool :=
  (c =? 10)%N || (c =? 13)%N || (c =? 8232)%N || (c =? 8233)%N.

Definition is_space (c : N) : bool :=
  (c =? 9)%N || (c =? 11)%N || (c =? 12)%N || (c =? 32)%N || (c =? 160)%N
  || (c =? 5760)%N || ((8192 <=? c)%N && (c <=? 8202)%N)
  || (c =? 8239)%N || (c =? 8287)%N || (c =? 12288)%N || (c =? 65279)%N
  || is_line_terminator c.

Definition is_digit (c : N) : bool := (48 <=? c)%N && (c <=? 57)%N.

Definition is_upper (c : N) : bool := (65 <=? c)%N && (c <=? 90)%N.
Definition is_lower (c : N) : bool := (97 <=? c)%N && (c <=? 122)%N.

(** [\w] is [[A-Za-z0-9_]]. *)
Definition is_word (c : N) : bool :=
  is_upper c || is_lower c || is_digit c || (c =? 95)%N.

(** Canonicalisation under the [i] flag (without [u]), as far as matching
    against ASCII letters goes: a code unit outside ASCII never folds onto
    an ASCII letter. *)
Definition fold_case (c : N) : N := if is_lower c then (c - 32)%N else c.

Fixpoint trimStart (s : jstr) : jstr :=
  match s with
  | c :: s' => if is_space c then trimStart s' else s
  | [] => []
  end.

Definition trimEnd (s : jstr) : jstr := rev (trimStart (rev s)).

Definition trim (s : jstr) : jstr := trimEnd (trimStart s).

Fixpoint startsWith (p s : jstr) : bool :=
  match p, s with
  | [], _ => true
  | a :: p', b :: s' => (a =? b)%N && startsWith p' s'
  | _ :: _, [] => false
  end.

(** [s.includes(p)] *)
Fixpoint includes (s p : jstr) : bool :=
  startsWith p s ||
  match s with
  | [] => false
  | _ :: s' => includes s' p
  end.

(** [s.indexOf(p)], [-1] when absent. *)
Fixpoint indexOf_from (i : Z) (s p : jstr) : Z :=
  if startsWith p s then i
  else match s with
       | [] => -1
       | _ :: s' => indexOf_from (i + 1) s' p
       end.

Definition indexOf (s p : jstr) : Z := indexOf_from 0 s p.

(** [s.split(sep)] for a one-unit separator: always at least one piece. *)
Fixpoint split_on (sep : N) (s : jstr) : list jstr :=
  match s with
  | [] => [[]]
  | c :: s' =>
      if (c =? sep)%N then [] :: split_on sep s'
      else match split_on sep s' with
           | l :: ls => (c :: l) :: ls
           | [] => [[c]]
           end
  end.

(** [parts.join(sep)] *)
Fixpoint join (sep : jstr) (parts : list jstr) : jstr :=
  match parts with
  | [] => []
  | [p] => p
  | p :: ps => p ++ sep ++ join sep ps
  end.

(** Number of code units satisfying [p]: the length of [s.match(/c/g)]. *)
Definition count_units (p : N -> bool) (s : jstr) : Z :=
  Z.of_nat (length (filter (fun c => p c = true) s)).

(** Value of a run of decimal digits, as [parseInt(s, 10)] reads it. *)
Definition digit_value (c : N) : Z := Z.of_N (c - 48).

Definition decimal_value (ds : jstr) : Z :=
  fold_left (fun acc c => 10 * acc + digit_value c) ds 0.

End JsString.
Export JsString.

(** ** JavaScript numbers *)

Module JsNumber.

(** Every number is a binary64 value. *)
Definition number := spec_float.
Definition prec : Z := 53.
Definition emax : Z := 1024.

Definition num_add : number -> number -> number := SFadd prec emax.
Definition num_mul : number -> number -> number := SFmul prec emax.
Definition num_div : number -> number -> number := SFdiv prec emax.

(** [a < b] and [a > b]; both are false when an operand is NaN. *)
Definition num_lt (a b : number) : bool := SFltb a b.
Definition num_gt (a b : number) : bool := SFltb b a.
Definition num_le (a b : number) : bool := SFleb a b.

(** The number an integer literal or an integer-valued computation denotes
    (round to nearest even beyond 2^53). *)
Definition num_of_Z (z : Z) : number := binary_normalize prec emax z 0 false.

Definition is_nan (x : number) : bool :=
  match x with S754_nan => true | _ => false end.

(** A number a JSON text or a literal can denote: not NaN, mantissa and
    exponent in range. *)
Definition num_valid (x : number) : bool :=
  negb (is_nan x) && valid_binary prec emax x.

(** [Math.max(a, b)]: NaN if either is, and [+0] above [-0]. *)
Definition js_max (a b : number) : number :=
  if is_nan a || is_nan b then S754_nan
  else match SFcompare a b with
       | Some Lt => b
       | Some Gt => a
       | _ => match a with S754_zero true => b | _ => a end
       end.

(** [Math.min(a, b)]: NaN if either is, and [-0] below [+0]. *)
Definition js_min (a b : number) : number :=
  if is_nan a || is_nan b then S754_nan
  else match SFcompare a b with
       | Some Lt => a
       | Some Gt => b
       | _ => match a with S754_zero false => b | _ => a end
       end.

(** [parseInt(ds, 10)] on a non-empty run of decimal digits. *)
Definition parseInt_digits (ds : jstr) : number := num_of_Z (decimal_value ds).

End JsNumber.
Export JsNumber.

(** ** JavaScript values, exceptions and property access *)

Module JsValue.

Inductive JsValue : Type :=
| JUndefined
| JNull
| JBool (b : bool)
| JNum (x : number)
| JStr (s : jstr)
| JArr (xs : list JsValue)
| JObj (props : list (jstr * JsValue)).

(** What a [catch] clause can receive: an [Error] instance with its message,
    or any other thrown value. *)
Inductive JsThrown : Type :=
| ThrownError (message : jstr)
| ThrownValue (v : JsValue).

(** The result of evaluating code that may throw (or of awaiting a promise
    that may reject). *)
Inductive Outcome (A : Type) : Type :=
| Returned (a : A)
| Thrown (e : JsThrown).
Arguments Returned {A} & a.
Arguments Thrown {A} e.

(** Sequencing: a throw skips the rest of the block. Written
    [x ← m; k] below. *)
#[global] Instance outcome_ret : MRet Outcome := fun A a => Returned a.
#[global] Instance outcome_bind : MBind Outcome := fun A B f m =>
  match m with
  | Returned a => f a
  | Thrown e => Thrown e
  end.

(** [try { body } catch (e) { handler(e) }] *)
Definition try_catch {A} (body : Outcome A) (handler : JsThrown -> Outcome A)
  : Outcome A :=
  match body with
  | Returned a => Returned a
  | Thrown e => handler e
  end.

(** [error instanceof Error ? error.message : fallback] *)
Definition message_or (e : JsThrown) (fallback : jstr) : jstr :=
  match e with
  | ThrownError m => m
  | ThrownValue _ => fallback
  end.

(** Own properties of an object; the first binding of a key is the live
    one. *)
Fixpoint assoc_get (k : jstr) (props : list (jstr * JsValue)) : option JsValue :=
  match props with
  | [] => None
  | (k', v) :: rest => if jstr_eqb k k' then Some v else assoc_get k rest
  end.

(** [v.k] for the property names the workers read ([score], [response],
    [usage], [rules], the four request fields, ...): none of them is a
    built-in property of a primitive, an array or [Object.prototype], so
    only own properties of objects are found; reading a property of [null]
    or [undefined] throws a [TypeError]. *)
Definition get_prop (v : JsValue) (k : jstr) : Outcome JsValue :=
  match v with
  | JUndefined =>
      Thrown (ThrownError (str "Cannot read properties of undefined (reading '" ++ k ++ str "')"))
  | JNull =>
      Thrown (ThrownError (str "Cannot read properties of null (reading '" ++ k ++ str "')"))
  | JObj props =>
      Returned (match assoc_get k props with Some x => x | None => JUndefined end)
  | _ => Returned JUndefined
  end.

(** [v.length] where only the attempt matters (the value goes into a log
    record): it throws for [null] and [undefined]. *)
Definition touch_length (v : JsValue) : Outcome unit :=
  match v with
  | JUndefined =>
      Thrown (ThrownError (str "Cannot read properties of undefined (reading 'length')"))
  | JNull =>
      Thrown (ThrownError (str "Cannot read properties of null (reading 'length')"))
  | _ => Returned tt
  end.

(** ToBoolean *)
Definition truthy (v : JsValue) : bool :=
  match v with
  | JUndefined | JNull => false
  | JBool b => b
  | JNum (S754_zero _) | JNum S754_nan => false
  | JNum _ => true
  | JStr [] => false
  | JStr _ => true
  | JArr _ | JObj _ => true
  end.

(** [a || b] *)
Definition js_or (a b : JsValue) : JsValue := if truthy a then a else b.

Definition jnum_Z (z : Z) : JsValue := JNum (num_of_Z z).

End JsValue.
Export JsValue.

(** ** Regular expressions

    The fragment of ECMAScript regular expressions the handlers use, with
    the backtracking semantics of the language: quantifiers are greedy and
    give back one unit at a time, alternatives are tried left to right. *)

Module Regex.

Inductive regex : Type :=
| RUnit (p : N -> bool)        (* one code unit of a class *)
| RStar (p : N -> bool)        (* [c*] over a class *)
| RSeq (r1 r2 : regex)
| RAlt (r1 r2 : regex)
| ROpt (r : regex)             (* [r?] *)
| RGroup (r : regex)           (* capturing group *)
| REnd                         (* [$] without the [m] flag *)
| REps.

Definition RPlus (p : N -> bool) : regex := RSeq (RUnit p) (RStar p).

Definition is_unit (c : N) : N -> bool := fun x => (x =? c)%N.
Definition is_unit_ci (c : N) : N -> bool := fun x => (fold_case x =? fold_case c)%N.

(** A literal, and a literal under the [i] flag. *)
Definition RLit (s : jstr) : regex := fold_right (fun c r => RSeq (RUnit (is_unit c)) r) REps s.
Definition RLit_ci (s : jstr) : regex := fold_right (fun c r => RSeq (RUnit (is_unit_ci c)) r) REps s.

(** Character classes. *)
Definition cls_space : N -> bool := is_space.
Definition cls_digit : N -> bool := is_digit.
Definition cls_word : N -> bool := is_word.
Definition cls_dot : N -> bool := fun c => negb (is_line_terminator c).
Definition cls_none_of (cs : jstr) : N -> bool := fun c => negb (existsb (N.eqb c) cs).
Definition cls_or (p q : N -> bool) : N -> bool := fun c => p c || q c.

Section Matcher.
Context {R : Type}.

(** Greedy star over a class: the longest run first, then shorter ones. *)
Fixpoint star_units (p : N -> bool) (s : jstr) (k : jstr -> option R) : option R :=
  match s with
  | c :: s' =>
      if p c then match star_units p s' k with
                  | Some r => Some r
                  | None => k s
                  end
      else k s
  | [] => k []
  end.

(** [rmatch r s caps k]: match [r] at the head of [s], then continue with
    the rest of the input and the captures closed so far. *)
Fixpoint rmatch (r : regex) (s : jstr) (caps : list jstr)
  (k : jstr -> list jstr -> option R) : option R :=
  match r with
  | RUnit p =>
      match s with
      | c :: s' => if p c then k s' caps else None
      | [] => None
      end
  | RStar p => star_units p s (fun s' => k s' caps)
  | RSeq r1 r2 => rmatch r1 s caps (fun s' caps' => rmatch r2 s' caps' k)
  | RAlt r1 r2 =>
      match rmatch r1 s caps k with
      | Some x => Some x
      | None => rmatch r2 s caps k
      end
  | ROpt r1 =>
      match rmatch r1 s caps k with
      | Some x => Some x
      | None => k s caps
      end
  | RGroup r1 =>
      rmatch r1 s caps
        (fun s' caps' => k s' (caps' ++ [take (length s - length s') s]))
  | REnd => match s with [] => k [] caps | _ => None end
  | REps => k s caps
  end.

End Matcher.

(** The outcome of a successful match at a position: the input left after
    the match and the capture groups (group 1 first). *)
Definition match_here (r : regex) (s : jstr) : option (jstr * list jstr) :=
  rmatch r s [] (fun s' caps => Some (s', caps)).

(** [s.match(/^r/)]: only position 0 is tried. *)
Definition match_anchored (r : regex) (s : jstr) : option (list jstr) :=
  snd <$> match_here r s.

(** [s.match(/r/)]: the leftmost position where [r] matches. *)
Fixpoint match_first (r : regex) (s : jstr) : option (list jstr) :=
  match match_here r s with
  | Some (_, caps) => Some caps
  | None => match s with
            | [] => None
            | _ :: s' => match_first r s'
            end
  end.

(** [s.replace(/r/g, '')] for an [r] that never matches the empty string:
    every match, leftmost first, is deleted. [fuel] bounds the number of
    steps; [length s] always suffices. *)
Fixpoint remove_all_fuel (fuel : nat) (r : regex) (s : jstr) : jstr :=
  match fuel with
  | O => s
  | S fuel' =>
      match s with
      | [] => []
      | c :: s' =>
          match match_here r s with
          | Some (rest, _) =>
              if (length rest <? length s)%nat then remove_all_fuel fuel' r rest
              else c :: remove_all_fuel fuel' r s'
          | None => c :: remove_all_fuel fuel' r s'
          end
      end
  end.

Definition remove_all (r : regex) (s : jstr) : jstr :=
  remove_all_fuel (length s) r s.

End Regex.
Export Regex.

(** ** Evaluator: shared declarations

    [TestResult] and [Env] are declared alike in [index.ts], [linter.ts]
    and [llm.ts]; [ScorecardTest], [Scorecard], [EvaluationRequest] and
    [EvaluationResponse] come from the shared package. *)

Module EvaluatorTypes.

Record TestResult : Type := {
  score : number;
  details : JsValue;
  error : option jstr;        (* [error?: string] *)
}.

(** The bindings of the worker. [R2_BUCKET.get(path)] resolves to [null]
    ([None]) or to an object whose [text()] is itself a promise;
    [R2_BUCKET_get_undefined] is [R2_BUCKET.get(undefined)], the lookup a
    body without [artifact_path] leads to; [AI.run] takes a model name and
    the chat messages ([(role, content)]). *)
Record Env : Type := {
  R2_BUCKET_get : jstr -> Outcome (option (Outcome jstr));
  R2_BUCKET_get_undefined : Outcome (option (Outcome jstr));
  AI_run : JsValue -> list (jstr * jstr) -> Outcome JsValue;
}.

(** What [new Function(src)] can do. *)
Inductive CtorOutcome : Type :=
| CtorOk
| CtorSyntaxError (message : jstr)
| CtorOtherThrow.

(** A message of an ESLint result; [severity] is 1 or 2. *)
Record ESLintMessage : Type := {
  line : JsValue;
  column : JsValue;
  severity : Z;
  message : JsValue;
  ruleId : JsValue;
}.

Record ESLintResult : Type := {
  errorCount : nat;
  warningCount : nat;
  messages : list ESLintMessage;
}.

(** Built-ins of the runtime the handlers call and this development does
    not implement. [ESLint_lintText rules src] stands for
    [new ESLint({baseConfig: {..., rules: {<defaults>, ...rules}}})
       .lintText(src, {filePath: 'artifact.js'})]. *)
Record Globals : Type := {
  JSON_parse : jstr -> option JsValue;      (* [None]: throws SyntaxError *)
  ToString_other : JsValue -> jstr;         (* ToString of a non-string *)
  Function_ctor : jstr -> CtorOutcome;
  ESLint_lintText : JsValue -> jstr -> Outcome (list ESLintResult);
}.

(** [`${v}`] and [String(v)] *)
Definition to_string (G : Globals) (v : JsValue) : jstr :=
  match v with
  | JStr s => s
  | _ => ToString_other G v
  end.

Record ScorecardTest : Type := {
  type : jstr;
  weight : number;
  config : JsValue;
}.

Record Scorecard : Type := { tests : list ScorecardTest }.

Record EvaluationRequest : Type := {
  artifact_path : jstr;
  scorecard : Scorecard;
}.

Definition TestHandler : Type := jstr -> JsValue -> Env -> Outcome TestResult.

End EvaluatorTypes.
Export EvaluatorTypes.

(** ** [handlers/linter.ts] *)

Module Linter.

(** The [details] object of a linter result. *)
Definition lint_details (errors warnings totalIssues : Z) (msgs : list JsValue) : JsValue :=
  JObj [ (str "errors", jnum_Z errors);
         (str "warnings", jnum_Z warnings);
         (str "totalIssues", jnum_Z totalIssues);
         (str "messages", JArr msgs) ].

Definition empty_source_result : TestResult :=
  {| score := num_of_Z 100; details := lint_details 0 0 0 []; error := None |}.

Definition caught_result (e : JsThrown) : TestResult :=
  {| score := num_of_Z 0;
     details := lint_details 0 0 0 [];
     error := Some (message_or e (str "Linting failed")) |}.

(** The score of a lint run. The counts are array lengths or ESLint's
    counters, so the arithmetic is on exact integers. *)
Definition lint_score (errorCount warningCount : Z) : Z :=
  let errorPenalty := errorCount * 10 in
  let warningPenalty := warningCount * 2 in
  let totalPenalty := errorPenalty + warningPenalty in
  Z.max 0 (100 - totalPenalty).

(** [!sourceCode || sourceCode.trim() === ''] *)
Definition is_blank (sourceCode : jstr) : bool :=
  jstr_eqb sourceCode [] || jstr_eqb (trim sourceCode) [].

(** *** First version: ESLint *)
Module ESLintBased.

Definition message_to_js (msg : ESLintMessage) : JsValue :=
  JObj [ (str "line", line msg);
         (str "column", column msg);
         (str "severity", JStr (if (severity msg =? 2) then str "error" else str "warning"));
         (str "message", message msg);
         (str "ruleId", ruleId msg) ].

Definition handleLinter (G : Globals) (sourceCode : jstr) (config : JsValue) (env : Env)
  : Outcome TestResult :=
  try_catch
    (if is_blank sourceCode then Returned empty_source_result
     else
       rules ← get_prop config (str "rules");
       results ← ESLint_lintText G rules sourceCode;
       let result := head results in
       let errorCount := Z.of_nat (from_option errorCount 0%nat result) in
       let warningCount := Z.of_nat (from_option warningCount 0%nat result) in
       let totalIssues := errorCount + warningCount in
       let score := lint_score errorCount warningCount in
       Returned
         {| score := num_of_Z score;
            details := lint_details errorCount warningCount totalIssues
                         (map message_to_js (from_option messages [] result));
            error := None |})
    (fun e => Returned (caught_result e)).

End ESLintBased.

(** *** Second version: the checker that runs inside the Workers runtime *)
Module Basic.

Inductive Severity : Type := SevError | SevWarning.

Record LintIssue : Type := {
  line : Z;
  column : Z;
  severity : Severity;
  message : jstr;
  ruleId : jstr;
}.

Definition alternatives (ws : list jstr) : regex :=
  fold_right (fun w r => RAlt (RLit w) r) (RUnit (fun _ => false)) ws.

(** [/^(let|const|var|return|break|continue)\s+.*[^;{}]\s*$/] *)
Definition missing_semicolon_re : regex :=
  RSeq (RGroup (alternatives [str "let"; str "const"; str "var";
                              str "return"; str "break"; str "continue"]))
    (RSeq (RPlus cls_space)
      (RSeq (RStar cls_dot)
        (RSeq (RUnit (cls_none_of (str ";{}")))
          (RSeq (RStar cls_space) REnd)))).

(** [/^\s*(let|const|var)\s+(\w+)\s*=/] *)
Definition declaration_re : regex :=
  RSeq (RStar cls_space)
    (RSeq (RGroup (alternatives [str "let"; str "const"; str "var"]))
      (RSeq (RPlus cls_space)
        (RSeq (RGroup (RPlus cls_word))
          (RSeq (RStar cls_space) (RUnit (is_unit 61%N)))))).

Definition push {A} (xs : list A) (x : A) : list A := xs ++ [x].

(** The body of [lines.forEach((line, index) => ...)]; [rest] is
    [lines.slice(index + 1)]. *)
Definition lint_line (index : nat) (line : jstr) (rest : list jstr)
  (errors warnings : list LintIssue) : list LintIssue * list LintIssue :=
  let lineNumber := Z.of_nat index + 1 in
  let warnings :=
    if bool_decide (is_Some (match_anchored missing_semicolon_re (trim line)))
       && negb (includes line (str "//"))
    then push warnings
           {| line := lineNumber; column := Z.of_nat (length line);
              severity := SevWarning; message := str "Missing semicolon";
              ruleId := str "semi" |}
    else warnings in
  let warnings :=
    match match_anchored declaration_re line with
    | Some unusedVarMatch =>
        let varName := nth 1 unusedVarMatch [] in
        let restOfCode := join [10%N] rest in
        if negb (includes restOfCode varName)
        then push warnings
               {| line := lineNumber; column := indexOf line varName + 1;
                  severity := SevWarning;
                  message := str "'" ++ varName ++ str "' is assigned a value but never used";
                  ruleId := str "no-unused-vars" |}
        else warnings
    | None => warnings
    end in
  let errors :=
    if includes line (str "function") && negb (includes line (str "("))
       && negb (includes line (str "=>"))
    then push errors
           {| line := lineNumber; column := indexOf line (str "function") + 1;
              severity := SevError; message := str "Invalid function declaration";
              ruleId := str "syntax-error" |}
    else errors in
  let openBrackets := count_units (is_unit 123%N) line in
  let closeBrackets := count_units (is_unit 125%N) line in
  let warnings :=
    if negb (openBrackets =? closeBrackets) && negb (jstr_eqb (trim line) [])
       && negb (includes line (str "//"))
    then
      let diff := openBrackets - closeBrackets in
      if 0 <? Z.abs diff
      then push warnings
             {| line := lineNumber; column := 1; severity := SevWarning;
                message := str "Potential bracket mismatch";
                ruleId := str "bracket-match" |}
      else warnings
    else warnings in
  (errors, warnings).

Fixpoint lint_lines (index : nat) (lines : list jstr)
  (errors warnings : list LintIssue) : list LintIssue * list LintIssue :=
  match lines with
  | [] => (errors, warnings)
  | line :: rest =>
      let '(errors, warnings) := lint_line index line rest errors warnings in
      lint_lines (S index) rest errors warnings
  end.

Definition performBasicLinting (G : Globals) (sourceCode : jstr)
  : list LintIssue * list LintIssue :=
  let lines := split_on 10%N sourceCode in
  let '(errors, warnings) := lint_lines 0 lines [] [] in
  let errors :=
    match Function_ctor G sourceCode with
    | CtorSyntaxError msg =>
        push errors
          {| line := 1; column := 1; severity := SevError; message := msg;
             ruleId := str "syntax-error" |}
    | CtorOk | CtorOtherThrow => errors
    end in
  (errors, warnings).

Definition issue_to_js (i : LintIssue) : JsValue :=
  JObj [ (str "line", jnum_Z (line i));
         (str "column", jnum_Z (column i));
         (str "severity", JStr (match severity i with
                                | SevError => str "error"
                                | SevWarning => str "warning"
                                end));
         (str "message", JStr (message i));
         (str "ruleId", JStr (ruleId i)) ].

Definition handleLinter (G : Globals) (sourceCode : jstr) (config : JsValue) (env : Env)
  : Outcome TestResult :=
  try_catch
    (if is_blank sourceCode then Returned empty_source_result
     else
       let '(errors, warnings) := performBasicLinting G sourceCode in
       let errorCount := Z.of_nat (length errors) in
       let warningCount := Z.of_nat (length warnings) in
       let totalIssues := errorCount + warningCount in
       let score := lint_score errorCount warningCount in
       Returned
         {| score := num_of_Z score;
            details := lint_details errorCount warningCount totalIssues
                         (map issue_to_js (errors ++ warnings));
            error := None |})
    (fun e => Returned (caught_result e)).

End Basic.

End Linter.

(** ** [handlers/llm.ts] *)

Module LLM.

(** A literal written with ['] where the source has the double quote. *)
Definition strq (s : string) : jstr :=
  map (fun c => if (c =? 39)%N then dquote else c) (str s).

Definition default_prompt : jstr :=
  str "Evaluate this code for quality, readability, and best practices. Provide a score from 0-100.".

Definition default_model : jstr := str "@cf/meta/llama-3-8b-instruct".

Definition format_instructions : jstr :=
  strq "

IMPORTANT: You must provide your response in the following JSON format:
{
  'score': <number between 0 and 100>,
  'reasoning': '<detailed explanation of your evaluation>',
  'strengths': ['<list of positive aspects>'],
  'improvements': ['<list of areas for improvement>']
}

Only return valid JSON. Do not include any other text.".

(** [/```json\n?/g] and [/```\n?/g] *)
Definition fence_json_re : regex := RSeq (RLit (str "```json")) (ROpt (RUnit (is_unit 10%N))).
Definition fence_re : regex := RSeq (RLit (str "```")) (ROpt (RUnit (is_unit 10%N))).

Definition cleanResponse (responseText : jstr) : jstr :=
  trim (remove_all fence_re (remove_all fence_json_re responseText)).

(** [/score[Q\s]*:?\s*(\d+)/i], with the double quote for Q *)
Definition score_re : regex :=
  RSeq (RLit_ci (str "score"))
    (RSeq (RStar (cls_or (is_unit dquote) cls_space))
      (RSeq (ROpt (RUnit (is_unit 58%N)))
        (RSeq (RStar cls_space) (RGroup (RPlus cls_digit))))).

(** [Math.min(100, Math.max(0, x))] *)
Definition clamp_score (x : number) : number :=
  js_min (num_of_Z 100) (js_max (num_of_Z 0) x).

(** The [catch (parseError)] block: the score is read off the raw text. *)
Definition fallback_result (responseText : jstr) : TestResult :=
  let scoreMatch := match_first score_re responseText in
  let score :=
    match scoreMatch with
    | Some groups => parseInt_digits (nth 0 groups [])
    | None => num_of_Z 50
    end in
  {| score := clamp_score score;
     details := JObj [ (str "reasoning", JStr responseText);
                       (str "parseError", JStr (str "Failed to parse JSON response"));
                       (str "rawResponse", JStr responseText) ];
     error := None |}.

(** The code after the inner [try]: the parsed reply is validated. *)
Definition parsed_result (parsedResponse : JsValue) (responseText : jstr)
  : Outcome TestResult :=
  sc ← get_prop parsedResponse (str "score");
  let score :=
    match sc with
    | JNum x => clamp_score x
    | _ => num_of_Z 50
    end in
  reasoning ← get_prop parsedResponse (str "reasoning");
  strengths ← get_prop parsedResponse (str "strengths");
  improvements ← get_prop parsedResponse (str "improvements");
  Returned
    {| score := score;
       details := JObj [ (str "reasoning", js_or reasoning (JStr (str "No reasoning provided")));
                         (str "strengths", js_or strengths (JArr []));
                         (str "improvements", js_or improvements (JArr []));
                         (str "rawResponse", JStr responseText) ];
       error := None |}.

(** ['response' in response] on an object. *)
Definition has_own (k : jstr) (props : list (jstr * JsValue)) : bool :=
  bool_decide (is_Some (assoc_get k props)).

(** [responseText]: the reply itself when it is a string, its [response]
    property when it is an object that has one. *)
Definition extract_text (response : JsValue) : Outcome JsValue :=
  match response with
  | JStr s => Returned (JStr s)
  | JObj props =>
      if has_own (str "response") props
      then get_prop response (str "response")
      else Thrown (ThrownError (str "Unexpected response format from AI model"))
  | _ => Thrown (ThrownError (str "Unexpected response format from AI model"))
  end.

Definition handleLLMEvaluation (G : Globals) (sourceCode : jstr) (config : JsValue) (env : Env)
  : Outcome TestResult :=
  try_catch
    (p ← get_prop config (str "prompt");
     let prompt := js_or p (JStr default_prompt) in
     m ← get_prop config (str "model");
     let model := js_or m (JStr default_model) in
     response ← AI_run env model
                  [ (str "system", to_string G prompt ++ format_instructions);
                    (str "user", sourceCode) ];
     responseText ← extract_text response;
     match responseText with
     | JStr text =>
         match JSON_parse G (cleanResponse text) with
         | None => Returned (fallback_result text)
         | Some parsedResponse => parsed_result parsedResponse text
         end
     | JUndefined =>
         (* [responseText.replace] throws inside the inner [try]; so does
            [responseText.match] inside its [catch] *)
         Thrown (ThrownError (str "Cannot read properties of undefined (reading 'match')"))
     | JNull =>
         Thrown (ThrownError (str "Cannot read properties of null (reading 'match')"))
     | _ => Thrown (ThrownError (str "responseText.match is not a function"))
     end)
    (fun e =>
       Returned {| score := num_of_Z 0;
                   details := JObj [];
                   error := Some (message_or e (str "LLM evaluation failed")) |}).

End LLM.

(** ** [evaluator/src/index.ts] *)

Module Evaluator.

(** [scorecard.tests] as the worker finds it in a body that parsed. *)
Inductive TestsField : Type :=
| TestsArray (elements : list (option ScorecardTest))   (* [None]: a [null] element *)
| TestsUndefined                                        (* no such property *)
| TestsNull
| TestsNotArray.                (* a boolean, number, string or object: no [map] *)

(** [scorecard]: a value with its [tests], or one of the two values no
    property can be read of. A scorecard that is a boolean, a number, a
    string or an array is a value whose [tests] is [undefined]. *)
Inductive ScorecardField : Type :=
| ScorecardValue (tests_field : TestsField)
| ScorecardUndefined
| ScorecardNull.

(** What [await request.json()] resolves to. The declared type of the body
    is [EvaluationRequest], which nothing checks at run time: the body is
    any JSON value. [JsonFields path sc] is a value other than [null]
    whose [artifact_path] is the string [path] or is missing ([None]) and
    whose [scorecard] is [sc]. Bodies whose [artifact_path] is there
    without being a string, and arrays of tests with an element that is
    neither [null] nor of the declared type, are not covered. *)
Inductive JsonBody : Type :=
| JsonFields (path : option jstr) (scorecard_field : ScorecardField)
| JsonNull.

(** A body of the declared type. *)
Definition typed_body (req : EvaluationRequest) : JsonBody :=
  JsonFields (Some (artifact_path req))
             (ScorecardValue (TestsArray (Some <$> tests (scorecard req)))).

Coercion typed_body : EvaluationRequest >-> JsonBody.

(** A request: its method and what [await request.json()] gives, a body or
    an exception. *)
Record Request : Type := {
  method : jstr;
  json : Outcome JsonBody;
}.

Record EvaluationResponse : Type := {
  quality_score : number;
  response_details : gmap jstr TestResult;   (* [details] *)
}.

Inductive Body : Type :=
| BodyText (text : jstr)
| BodyNotFound (error : jstr)                       (* [{error}] *)
| BodyFailure (error : jstr) (details : jstr)       (* [{error, details}] *)
| BodyEvaluation (response : EvaluationResponse).

Record Response : Type := {
  status : Z;
  content_type : option jstr;
  body : Body;
}.

(** The registry: [new Map([['linter', handleLinter],
    ['llm_evaluation', handleLLMEvaluation]])]. *)
Definition testHandlers (G : Globals) : gmap jstr TestHandler :=
  list_to_map [ (str "linter", Linter.ESLintBased.handleLinter G);
                (str "llm_evaluation", LLM.handleLLMEvaluation G) ].

(** One element of [testResults]. *)
Record RanTest : Type := {
  ran_type : jstr;
  ran_weight : number;
  ran_result : TestResult;
}.

(** The callback of [scorecard.tests.map(async (test) => ...)]. *)
Definition run_test (handlers : gmap jstr TestHandler) (sourceCode : jstr) (env : Env)
  (test : ScorecardTest) : RanTest :=
  match handlers !! type test with
  | None =>
      {| ran_type := type test;
         ran_weight := weight test;
         ran_result := {| score := num_of_Z 0;
                          details := JObj [];
                          error := Some (str "Unknown test type: " ++ type test) |} |}
  | Some handler =>
      match handler sourceCode (config test) env with
      | Returned result =>
          {| ran_type := type test; ran_weight := weight test; ran_result := result |}
      | Thrown e =>
          {| ran_type := type test;
             ran_weight := weight test;
             ran_result := {| score := num_of_Z 0;
                              details := JObj [];
                              error := Some (message_or e (str "Unknown error")) |} |}
      end
  end.

(** The three variables of the scoring loop; [details_obj] is the object
    [details], a finite map from property names to per-test results. *)
Record Totals : Type := {
  totalWeightedScore : number;
  totalWeight : number;
  details_obj : gmap jstr TestResult;
}.

Definition totals_init : Totals :=
  {| totalWeightedScore := num_of_Z 0; totalWeight := num_of_Z 0; details_obj := ∅ |}.

(** The one property name an assignment to which creates no property:
    [Object.prototype] has a setter of that name. *)
Definition proto_key : jstr := str "__proto__".

(** [details[type] = result] on the plain object [details]. Under
    [proto_key] the assignment goes to the inherited setter, which makes
    [result] the prototype of [details] and leaves its own properties, the
    ones [JSON.stringify] writes, as they were. *)
Definition assign (details : gmap jstr TestResult) (type : jstr) (result : TestResult)
  : gmap jstr TestResult :=
  if jstr_eqb type proto_key then details else <[type := result]> details.

(** The body of [for (const { type, weight, result } of testResults)]. *)
Definition totals_step (acc : Totals) (t : RanTest) : Totals :=
  {| totalWeightedScore :=
       num_add (totalWeightedScore acc) (num_mul (score (ran_result t)) (ran_weight t));
     totalWeight := num_add (totalWeight acc) (ran_weight t);
     details_obj := assign (details_obj acc) (ran_type t) (ran_result t) |}.

Definition combine (testResults : list RanTest) : EvaluationResponse :=
  let acc := fold_left totals_step testResults totals_init in
  let quality_score :=
    if num_gt (totalWeight acc) (num_of_Z 0)
    then num_div (totalWeightedScore acc) (totalWeight acc)
    else num_of_Z 0 in
  {| quality_score := quality_score; response_details := details_obj acc |}.

Definition json_header : option jstr := Some (str "application/json").

(** [const { artifact_path, scorecard } = await request.json()] *)
Definition destructure (b : JsonBody) : Outcome (option jstr * ScorecardField) :=
  match b with
  | JsonFields path sc => Returned (path, sc)
  | JsonNull =>
      Thrown (ThrownError (str "Cannot destructure property 'artifact_path' of '(intermediate value)' as it is null."))
  end.

(** [env.R2_BUCKET.get(artifact_path)] *)
Definition bucket_get (env : Env) (path : option jstr) : Outcome (option (Outcome jstr)) :=
  match path with
  | Some p => R2_BUCKET_get env p
  | None => R2_BUCKET_get_undefined env
  end.

(** [`${artifact_path}`] *)
Definition path_text (path : option jstr) : jstr :=
  match path with
  | Some p => p
  | None => str "undefined"
  end.

(** The array [scorecard.tests.map] is called on; reading [tests] and then
    [map] throws when there is no such array. *)
Definition tests_array (sc : ScorecardField) : Outcome (list (option ScorecardTest)) :=
  match sc with
  | ScorecardUndefined =>
      Thrown (ThrownError (str "Cannot read properties of undefined (reading 'tests')"))
  | ScorecardNull =>
      Thrown (ThrownError (str "Cannot read properties of null (reading 'tests')"))
  | ScorecardValue TestsUndefined =>
      Thrown (ThrownError (str "Cannot read properties of undefined (reading 'map')"))
  | ScorecardValue TestsNull =>
      Thrown (ThrownError (str "Cannot read properties of null (reading 'map')"))
  | ScorecardValue TestsNotArray =>
      Thrown (ThrownError (str "scorecard.tests.map is not a function"))
  | ScorecardValue (TestsArray elements) => Returned elements
  end.

(** [await Promise.all(tests.map(async (test) => ...))]: the callback of a
    [null] element rejects when it reads [test.type], outside its [try],
    and so does the whole. *)
Fixpoint run_tests (handlers : gmap jstr TestHandler) (sourceCode : jstr) (env : Env)
  (elements : list (option ScorecardTest)) : Outcome (list RanTest) :=
  match elements with
  | [] => Returned []
  | None :: _ =>
      Thrown (ThrownError (str "Cannot read properties of null (reading 'type')"))
  | Some test :: rest =>
      results ← run_tests handlers sourceCode env rest;
      Returned (run_test handlers sourceCode env test :: results)
  end.

Definition fetch_with (handlers : gmap jstr TestHandler) (request : Request) (env : Env)
  : Response :=
  let attempt : Outcome Response :=
    if negb (jstr_eqb (method request) (str "POST"))
    then Returned {| status := 405; content_type := None;
                     body := BodyText (str "Method not allowed") |}
    else
      b ← json request;
      fields ← destructure b;
      let '(artifact_path, scorecard) := fields in
      r2Object ← bucket_get env artifact_path;
      match r2Object with
      | None =>
          Returned {| status := 404; content_type := json_header;
                      body := BodyNotFound (str "Artifact not found: "
                                            ++ path_text artifact_path) |}
      | Some object =>
          sourceCode ← object;
          elements ← tests_array scorecard;
          testResults ← run_tests handlers sourceCode env elements;
          Returned {| status := 200; content_type := json_header;
                      body := BodyEvaluation (combine testResults) |}
      end in
  match attempt with
  | Returned response => response
  | Thrown e =>
      {| status := 500; content_type := json_header;
         body := BodyFailure (str "Evaluation failed for artifact")
                   (message_or e (str "Unknown error")) |}
  end.

(** The worker as deployed. *)
Definition fetch (G : Globals) : Request -> Env -> Response := fetch_with (testHandlers G).

End Evaluator.

(** ** [generator/src/index.ts] *)

Module Generator.

Inductive ReportStatus : Type := SUCCESS | FAILED.

Record CostMetrics : Type := {
  prompt_tokens : JsValue;
  completion_tokens : JsValue;
}.

Record ReportGenerationRequest : Type := {
  artifact_id : JsValue;
  r2_path : JsValue;                  (* [string | null] *)
  status : ReportStatus;
  cost_metrics : CostMetrics;
}.

(** The bindings of the worker. [ORCHESTRATOR_fetch id url report] is
    [env.ORCHESTRATOR.get(id).fetch(url, {method: 'POST', headers,
    body: JSON.stringify(report)})]; the response it resolves to is never
    looked at. A call that fails does so by rejecting the promise it
    returns, or by throwing before it returns one: [AI_run_in_call] and
    [ORCHESTRATOR_fetch_in_call] say which ([true]: it throws in the call).
    To code that awaits the call the two are the same; they differ in what
    has happened by the time the caller of an [async] function gets its
    promise. *)
Record Env : Type := {
  AI_run : jstr -> JsValue -> Outcome JsValue;
  R2_BUCKET_put : JsValue -> JsValue -> Outcome unit;
  ORCHESTRATOR_idFromString : JsValue -> Outcome JsValue;
  ORCHESTRATOR_fetch : JsValue -> jstr -> ReportGenerationRequest -> Outcome unit;
  String_of : JsValue -> jstr;        (* [String(v)] of a non-string *)
  AI_run_in_call : jstr -> JsValue -> bool;
  ORCHESTRATOR_fetch_in_call : JsValue -> jstr -> ReportGenerationRequest -> bool;
}.

(** What the worker does to the outside world, in order. *)
Inductive Event : Type :=
| Log (level : jstr) (message : jstr)
| WaitUntil (payload : JsValue)
| AiRun (model : jstr) (prompt : JsValue)
| R2Put (path content : JsValue)
| OrchestratorFetch (id : JsValue) (url : jstr) (report : ReportGenerationRequest).

(** Code that performs events and may throw. *)
Definition M (A : Type) : Type := list Event -> Outcome A * list Event.

Definition ret {A} (a : A) : M A := fun tr => (Returned a, tr).

Definition bind {A B} (m : M A) (f : A -> M B) : M B :=
  fun tr =>
    match m tr with
    | (Returned a, tr') => f a tr'
    | (Thrown e, tr') => (Thrown e, tr')
    end.

Definition throw {A} (e : JsThrown) : M A := fun tr => (Thrown e, tr).

Definition emit (ev : Event) : M unit := fun tr => (Returned tt, tr ++ [ev]).

(** An event whose outcome the environment decides. *)
Definition call {A} (ev : Event) (outcome : Outcome A) : M A :=
  fun tr => (outcome, tr ++ [ev]).

Definition lift {A} (o : Outcome A) : M A := fun tr => (o, tr).

(** [try { body } catch (e) { handler(e) }]: the events of [body] up to the
    throw have happened. *)
Definition try_catch_M {A} (body : M A) (handler : JsThrown -> M A) : M A :=
  fun tr =>
    match body tr with
    | (Returned a, tr') => (Returned a, tr')
    | (Thrown e, tr') => handler e tr'
    end.

Notation "'do' x <- m ; k" := (bind m (fun x => k))
  (at level 10, x name, m at level 100, k at level 200,
   format "'[v' 'do'  x  <-  m ; '/' k ']'").
Notation "m ;; k" := (bind m (fun _ => k))
  (at level 100, k at level 200, right associativity).

Definition run {A} (m : M A) : Outcome A * list Event := m [].

Definition url_report : jstr := str "https://orchestrator.internal/report/generation".
Definition model_name : jstr := str "@cf/meta/llama-3-8b-instruct".

Definition info (message : jstr) : M unit := emit (Log (str "INFO") message).
Definition log_error (message : jstr) : M unit := emit (Log (str "ERROR") message).

(** [generatedContent] and [costMetrics] out of the model's reply. *)
Definition extract_content (env : Env) (aiResponse : JsValue)
  : Outcome (JsValue * CostMetrics) :=
  let zero := {| prompt_tokens := jnum_Z 0; completion_tokens := jnum_Z 0 |} in
  match aiResponse with
  | JStr s => Returned (JStr s, zero)
  | JObj _ | JArr _ =>
      r ← get_prop aiResponse (str "response");
      let generatedContent := js_or r (JStr (String_of env aiResponse)) in
      usage ← get_prop aiResponse (str "usage");
      if truthy usage then
        pt ← get_prop usage (str "prompt_tokens");
        ct ← get_prop usage (str "completion_tokens");
        Returned (generatedContent,
                  {| prompt_tokens := js_or pt (jnum_Z 0);
                     completion_tokens := js_or ct (jnum_Z 0) |})
      else Returned (generatedContent, zero)
  | _ => Thrown (ThrownError (str "Unexpected AI response format"))
  end.

Definition failure_report (artifact_id : JsValue) : ReportGenerationRequest :=
  {| artifact_id := artifact_id;
     r2_path := JNull;
     status := FAILED;
     cost_metrics := {| prompt_tokens := jnum_Z 0; completion_tokens := jnum_Z 0 |} |}.

Definition handleGeneration (payload : JsValue) (env : Env) : M unit :=
  do orchestrator_id <- lift (get_prop payload (str "orchestrator_id"));
  do artifact_id <- lift (get_prop payload (str "artifact_id"));
  do meta_prompt <- lift (get_prop payload (str "meta_prompt"));
  do output_r2_path <- lift (get_prop payload (str "output_r2_path"));
  try_catch_M
    (do orchestratorId <- lift (ORCHESTRATOR_idFromString env orchestrator_id);
     lift (touch_length meta_prompt) ;;
     info (str "Starting generation task") ;;
     do aiResponse <- call (AiRun model_name meta_prompt) (AI_run env model_name meta_prompt);
     do extracted <- lift (extract_content env aiResponse);
     let '(generatedContent, costMetrics) := extracted in
     lift (touch_length generatedContent) ;;
     info (str "AI generation completed") ;;
     call (R2Put output_r2_path generatedContent)
          (R2_BUCKET_put env output_r2_path generatedContent) ;;
     info (str "Artifact written to R2") ;;
     let reportPayload :=
       {| artifact_id := artifact_id;
          r2_path := output_r2_path;
          status := SUCCESS;
          cost_metrics := costMetrics |} in
     call (OrchestratorFetch orchestratorId url_report reportPayload)
          (ORCHESTRATOR_fetch env orchestratorId url_report reportPayload) ;;
     info (str "Success reported to orchestrator"))
    (fun err =>
       log_error (str "Generation failed") ;;
       try_catch_M
         (do orchestratorId <- lift (ORCHESTRATOR_idFromString env orchestrator_id);
          let errorPayload := failure_report artifact_id in
          call (OrchestratorFetch orchestratorId url_report errorPayload)
               (ORCHESTRATOR_fetch env orchestratorId url_report errorPayload) ;;
          info (str "Failure reported to orchestrator"))
         (fun callbackErr =>
            log_error (str "Failed to report failure to orchestrator"))).

(** A call whose promise is awaited, as far as it goes before the [async]
    function that makes it is suspended: the call is made, and control
    passes to the [catch] block only when the binding throws in the call. *)
Definition call_then_suspend {A} (ev : Event) (outcome : Outcome A) (in_call : bool)
  : M unit :=
  fun tr =>
    (match outcome with
     | Thrown e => if in_call then Thrown e else Returned tt
     | Returned _ => Returned tt
     end, tr ++ [ev]).

(** [handleGeneration] up to its first suspension: what calling the
    function does before it returns its promise. With the stub found that
    is the first log and the call of the model; it goes on into the
    [catch] block, up to the post of the failure report, when the lookup
    of the stub or the call of the model throws. *)
Definition handleGeneration_sync (payload : JsValue) (env : Env) : M unit :=
  do orchestrator_id <- lift (get_prop payload (str "orchestrator_id"));
  do artifact_id <- lift (get_prop payload (str "artifact_id"));
  do meta_prompt <- lift (get_prop payload (str "meta_prompt"));
  do output_r2_path <- lift (get_prop payload (str "output_r2_path"));
  try_catch_M
    (do orchestratorId <- lift (ORCHESTRATOR_idFromString env orchestrator_id);
     lift (touch_length meta_prompt) ;;
     info (str "Starting generation task") ;;
     call_then_suspend (AiRun model_name meta_prompt)
                       (AI_run env model_name meta_prompt)
                       (AI_run_in_call env model_name meta_prompt))
    (fun err =>
       log_error (str "Generation failed") ;;
       try_catch_M
         (do orchestratorId <- lift (ORCHESTRATOR_idFromString env orchestrator_id);
          let errorPayload := failure_report artifact_id in
          call_then_suspend
            (OrchestratorFetch orchestratorId url_report errorPayload)
            (ORCHESTRATOR_fetch env orchestratorId url_report errorPayload)
            (ORCHESTRATOR_fetch_in_call env orchestratorId url_report errorPayload))
         (fun callbackErr =>
            log_error (str "Failed to report failure to orchestrator"))).

(** The call of an [async] function: its body runs to the first
    suspension and a promise comes back, whatever happened inside. *)
Definition async_call (body : M unit) : M unit :=
  fun tr => (Returned tt, snd (body tr)).

Record Request : Type := {
  method : jstr;
  json : Outcome JsValue;             (* [await request.json()] *)
}.

Record Response : Type := {
  response_status : Z;
  body : option jstr;                 (* [null] or a text *)
}.

(** [!payload.orchestrator_id || !payload.artifact_id || !payload.meta_prompt
    || !payload.output_r2_path], evaluated left to right. *)
Definition missing_required (payload : JsValue) : Outcome bool :=
  a ← get_prop payload (str "orchestrator_id");
  if negb (truthy a) then Returned true else
  b ← get_prop payload (str "artifact_id");
  if negb (truthy b) then Returned true else
  c ← get_prop payload (str "meta_prompt");
  if negb (truthy c) then Returned true else
  d ← get_prop payload (str "output_r2_path");
  Returned (negb (truthy d)).

Definition fetch (request : Request) (env : Env) : M Response :=
  if negb (jstr_eqb (method request) (str "POST"))
  then ret {| response_status := 405; body := Some (str "Method not allowed") |}
  else
    try_catch_M
      (do payload <- lift (json request);
       do missing <- lift (missing_required payload);
       if missing
       then ret {| response_status := 400; body := Some (str "Missing required fields") |}
       else
         (* [ctx.waitUntil(handleGeneration(payload, env))]: the argument
            is evaluated first *)
         async_call (handleGeneration_sync payload env) ;;
         emit (WaitUntil payload) ;;
         ret {| response_status := 202; body := None |})
      (fun e =>
         log_error (str "Invalid request body") ;;
         ret {| response_status := 400; body := Some (str "Invalid request body") |}).

End Generator.

(** ** The specification's vocabulary *)

Module Spec.
Import Evaluator.

(** *** Scorecard weights *)

Definition emin : Z := SpecFloat.emin prec emax.

(** A weight of the data model: a number that is greater than zero. *)
Definition positive_weight (w : number) : bool :=
  num_valid w && num_gt w (num_of_Z 0).

(** Positive numbers whose exponent is in range: what sums of such weights
    are. *)
Definition pos_ok (x : number) : Prop :=
  match x with
  | S754_infinity false => True
  | S754_finite false _ e => emin <= e
  | _ => False
  end.

(** *** The combination formula *)

(** [partial_sum term n] is the sum of [term 0 .. term (n-1)], taken in
    that order. *)
Fixpoint partial_sum (term : nat -> number) (n : nat) : number :=
  match n with
  | O => num_of_Z 0
  | S k => num_add (partial_sum term k) (term k)
  end.

Definition nth_weight (rs : list RanTest) (i : nat) : number :=
  from_option ran_weight (num_of_Z 0) (rs !! i).

Definition nth_weighted_score (rs : list RanTest) (i : nat) : number :=
  from_option (fun t => num_mul (score (ran_result t)) (ran_weight t)) (num_of_Z 0) (rs !! i).

(** The sum of [weight_i] over the tests. *)
Definition sum_weights (rs : list RanTest) : number :=
  partial_sum (nth_weight rs) (length rs).

(** The sum of [weight_i * score_i] over the tests. *)
Definition sum_weighted_scores (rs : list RanTest) : number :=
  partial_sum (nth_weighted_score rs) (length rs).

Definition weighted_average (rs : list RanTest) : number :=
  num_div (sum_weighted_scores rs) (sum_weights rs).

(** The per-test result of a test that did not produce one. *)
Definition failed_result (msg : jstr) : TestResult :=
  {| score := num_of_Z 0; details := JObj []; error := Some msg |}.

(** What calling the registered handler of a test does; [None] when no
    handler is registered for its type. *)
Definition handler_call (handlers : gmap jstr TestHandler) (sourceCode : jstr) (env : Env)
  (test : ScorecardTest) : option (Outcome TestResult) :=
  (fun handler : TestHandler => handler sourceCode (config test) env) <$> handlers !! type test.

(** The per-test result as a function of the outcome of that test's own
    handler call. *)
Definition settle (test : ScorecardTest) (call : option (Outcome TestResult)) : RanTest :=
  {| ran_type := type test;
     ran_weight := weight test;
     ran_result :=
       match call with
       | None => failed_result (str "Unknown test type: " ++ type test)
       | Some (Returned result) => result
       | Some (Thrown e) => failed_result (message_or e (str "Unknown error"))
       end |}.

(** [testResults] of a request whose artifact text is [sourceCode]. *)
Definition testResults (handlers : gmap jstr TestHandler) (sourceCode : jstr) (env : Env)
  (req : EvaluationRequest) : list RanTest :=
  map (run_test handlers sourceCode env) (tests (scorecard req)).

(** A well-formed request for an artifact that exists and can be read. *)
Definition artifact_exists (request : Request) (env : Env) (req : EvaluationRequest)
  (sourceCode : jstr) : Prop :=
  method request = str "POST"
  /\ json request = Returned req
  /\ R2_BUCKET_get env (artifact_path req) = Returned (Some (Returned sourceCode)).

(** The evaluation a response carries. *)
Definition evaluation_of (r : Response) : option EvaluationResponse :=
  match body r with
  | BodyEvaluation e => Some e
  | _ => None
  end.

(** The last element of [rs] whose type is [k]. *)
Definition last_of_type (k : jstr) (rs : list RanTest) : option RanTest :=
  last (filter (fun t => ran_type t = k) rs).

(** A handler whose result depends on the source text and the
    configuration only. *)
Definition pure_handler (h : TestHandler) : Prop :=
  forall sourceCode config env env', h sourceCode config env = h sourceCode config env'.

(** *** The linter *)

(** White space only (the empty text included). *)
Definition whitespace_only (s : jstr) : Prop := Forall (fun c => is_space c = true) s.

(** *** Objects *)

(** The value of [o.k] for an object with the properties [props]. *)
Definition field (props : list (jstr * JsValue)) (k : jstr) : JsValue :=
  match assoc_get k props with
  | Some x => x
  | None => JUndefined
  end.

(** An entry of the [details] of a per-test result. *)
Definition detail (r : TestResult) (k : jstr) : JsValue :=
  match details r with
  | JObj props => field props k
  | _ => JUndefined
  end.

(** *** The model reply *)

(** The call the model handler makes for a configuration object. *)
Definition model_call (G : Globals) (env : Env) (cprops : list (jstr * JsValue))
  (sourceCode : jstr) : Outcome JsValue :=
  AI_run env (js_or (field cprops (str "model")) (JStr LLM.default_model))
    [ (str "system",
       to_string G (js_or (field cprops (str "prompt")) (JStr LLM.default_prompt))
       ++ LLM.format_instructions);
      (str "user", sourceCode) ].


(** The expression the specification gives for the fallback,
    [/score\s*:\s*(\d+)/]. *)
Definition spec_score_re : regex :=
  RSeq (RLit (str "score"))
    (RSeq (RStar cls_space)
      (RSeq (RUnit (is_unit 58%N))
        (RSeq (RStar cls_space) (RGroup (RPlus cls_digit))))).

(** The fallback score read with an expression [re]. *)
Definition fallback_score_with (re : regex) (responseText : jstr) : number :=
  match match_first re responseText with
  | Some groups => LLM.clamp_score (parseInt_digits (nth 0 groups []))
  | None => num_of_Z 50
  end.

(** The reply of the model endpoint is the text [text]: the string itself
    or an object whose [response] is the string. *)
Definition reply_text (response : JsValue) (text : jstr) : Prop :=
  response = JStr text
  \/ exists props, response = JObj props /\ assoc_get (str "response") props = Some (JStr text).

End Spec.

Module GeneratorSpec.
Import Spec Generator.

Definition required_fields : list jstr :=
  [ str "orchestrator_id"; str "artifact_id"; str "meta_prompt"; str "output_r2_path" ].

(** The field is there and its value is truthy. *)
Definition usable (props : list (jstr * JsValue)) (k : jstr) : bool :=
  truthy (field props k).

Definition all_usable (props : list (jstr * JsValue)) : bool :=
  forallb (usable props) required_fields.

(** The same object without the property [k]. *)
Definition without (k : jstr) (props : list (jstr * JsValue)) : list (jstr * JsValue) :=
  filter (fun kv => fst kv <> k) props.

Definition post_body (payload : JsValue) : Request :=
  {| method := str "POST"; json := Returned payload |}.

Definition response_missing : Response :=
  {| response_status := 400; body := Some (str "Missing required fields") |}.
Definition response_invalid : Response :=
  {| response_status := 400; body := Some (str "Invalid request body") |}.
(** 202 with an empty body. *)
Definition response_202 : Response := {| response_status := 202; body := None |}.

(** The reports posted to the orchestrator, in order. *)
Definition orchestrator_posts (tr : list Event) : list ReportGenerationRequest :=
  omap (fun ev => match ev with
                  | OrchestratorFetch _ _ report => Some report
                  | _ => None
                  end) tr.

Definition success_report (props : list (jstr * JsValue)) (usage : CostMetrics)
  : ReportGenerationRequest :=
  {| artifact_id := field props (str "artifact_id");
     r2_path := field props (str "output_r2_path");
     status := SUCCESS;
     cost_metrics := usage |}.

(** A step of the deferred job fails: the job has found its orchestrator
    stub [stub] and then the model call fails (it throws, or its reply has
    no usable format), or the blob write, or the success callback. *)
Inductive step_fails (env : Env) (props : list (jstr * JsValue)) (stub : JsValue) : Prop :=
| model_call_throws (e : JsThrown) :
    ORCHESTRATOR_idFromString env (field props (str "orchestrator_id")) = Returned stub ->
    AI_run env model_name (field props (str "meta_prompt")) = Thrown e ->
    step_fails env props stub
| model_reply_unusable (reply : JsValue) (e : JsThrown) :
    ORCHESTRATOR_idFromString env (field props (str "orchestrator_id")) = Returned stub ->
    AI_run env model_name (field props (str "meta_prompt")) = Returned reply ->
    extract_content env reply = Thrown e ->
    step_fails env props stub
| blob_write_throws (reply content : JsValue) (usage : CostMetrics) (e : JsThrown) :
    ORCHESTRATOR_idFromString env (field props (str "orchestrator_id")) = Returned stub ->
    AI_run env model_name (field props (str "meta_prompt")) = Returned reply ->
    extract_content env reply = Returned (content, usage) ->
    R2_BUCKET_put env (field props (str "output_r2_path")) content = Thrown e ->
    step_fails env props stub
| success_callback_throws (reply content : JsValue) (usage : CostMetrics) (e : JsThrown) :
    ORCHESTRATOR_idFromString env (field props (str "orchestrator_id")) = Returned stub ->
    AI_run env model_name (field props (str "meta_prompt")) = Returned reply ->
    extract_content env reply = Returned (content, usage) ->
    R2_BUCKET_put env (field props (str "output_r2_path")) content = Returned tt ->
    ORCHESTRATOR_fetch env stub url_report (success_report props usage) = Thrown e ->
    step_fails env props stub.

(** What the [catch] block of the job does after the events [tr]: it logs,
    posts the failure report, and logs how that went. *)
Definition report_failure (env : Env) (props : list (jstr * JsValue)) (stub : JsValue)
  (tr : list Event) : Outcome unit * list Event :=
  let report := failure_report (field props (str "artifact_id")) in
  let tr' := tr ++ [ Log (str "ERROR") (str "Generation failed");
                     OrchestratorFetch stub url_report report ] in
  match ORCHESTRATOR_fetch env stub url_report report with
  | Returned _ =>
      (Returned tt, tr' ++ [ Log (str "INFO") (str "Failure reported to orchestrator") ])
  | Thrown _ =>
      (Returned tt,
       tr' ++ [ Log (str "ERROR") (str "Failed to report failure to orchestrator") ])
  end.

(** What an accepted job has done by the time it is first suspended, and
    so by the time the request is answered. With the stub found: the first
    log and the call of the model; when that call throws, the failure log
    and the post of the failure report; when that post throws as well, the
    last log. With no stub: the two failure logs. *)
Definition job_start (env : Env) (props : list (jstr * JsValue)) : list Event :=
  let meta_prompt := field props (str "meta_prompt") in
  let report := failure_report (field props (str "artifact_id")) in
  match ORCHESTRATOR_idFromString env (field props (str "orchestrator_id")) with
  | Thrown _ =>
      [ Log (str "ERROR") (str "Generation failed");
        Log (str "ERROR") (str "Failed to report failure to orchestrator") ]
  | Returned stub =>
      let tr0 := [ Log (str "INFO") (str "Starting generation task");
                   AiRun model_name meta_prompt ] in
      match AI_run env model_name meta_prompt, AI_run_in_call env model_name meta_prompt with
      | Thrown _, true =>
          tr0 ++ [ Log (str "ERROR") (str "Generation failed");
                   OrchestratorFetch stub url_report report ]
              ++ match ORCHESTRATOR_fetch env stub url_report report,
                       ORCHESTRATOR_fetch_in_call env stub url_report report with
                 | Thrown _, true =>
                     [ Log (str "ERROR") (str "Failed to report failure to orchestrator") ]
                 | _, _ => []
                 end
      | _, _ => tr0
      end
  end.

(** The events of a trace that reach outside before the request is
    answered may be the call of the model and the post of a failure report,
    never a blob write nor the post of a success report. *)
Definition early_event (ev : Event) : Prop :=
  match ev with
  | R2Put _ _ | WaitUntil _ => False
  | OrchestratorFetch _ _ report => status report = FAILED
  | Log _ _ | AiRun _ _ => True
  end.

End GeneratorSpec.

(** ** The shared logger *)

Module Logging.

(** An object as the logger sees it: its own properties by name. *)
Abbreviation JsObject := (gmap jstr JsValue).

Inductive Level : Type := INFO | WARN | ERROR.

(** The module exists in two versions, which differ in the spelling of the
    level only. *)
Inductive Spelling : Type := UpperCase | LowerCase.

Definition level_name (sp : Spelling) (lv : Level) : jstr :=
  match sp, lv with
  | UpperCase, INFO => str "INFO"
  | UpperCase, WARN => str "WARN"
  | UpperCase, ERROR => str "ERROR"
  | LowerCase, INFO => str "info"
  | LowerCase, WARN => str "warn"
  | LowerCase, ERROR => str "error"
  end.

(** The three properties the logger reads of an [Error]. *)
Record ErrorObject : Type := {
  err_name : JsValue;
  err_message : JsValue;
  err_stack : JsValue;
}.

(** [{...a, ...b}]: the properties of [b] replace those of [a]. *)
Definition spread (a b : JsObject) : JsObject := b ∪ a.

(** [...data] for an argument that may be left out. *)
Definition spread_opt (a : JsObject) (b : option JsObject) : JsObject :=
  match b with
  | Some b => spread a b
  | None => a
  end.

(** A logger is its [baseLog], built once by [createLogger]. *)
Record LoggerInstance : Type := {
  spelling : Spelling;
  baseLog : JsObject;
}.

(** [now] is [new Date().toISOString()] at the time of the call; [context]
    defaults to the empty object. *)
Definition createLogger (sp : Spelling) (now : jstr) (serviceName : jstr)
  (context : option JsObject) : LoggerInstance :=
  {| spelling := sp;
     baseLog :=
       spread (<[str "timestamp" := JStr now]> (<[str "service" := JStr serviceName]> ∅))
              (default ∅ context) |}.

(** The object a method hands to [JSON.stringify]. *)
Definition entry (logger : LoggerInstance) (lv : Level) (msg : jstr) : JsObject :=
  <[str "message" := JStr msg]>
    (<[str "level" := JStr (level_name (spelling logger) lv)]> (baseLog logger)).

Definition info (logger : LoggerInstance) (msg : jstr) (data : option JsObject) : JsObject :=
  spread_opt (entry logger INFO msg) data.

Definition warn (logger : LoggerInstance) (msg : jstr) (data : option JsObject) : JsObject :=
  spread_opt (entry logger WARN msg) data.

Definition error (logger : LoggerInstance) (msg : jstr) (err : option ErrorObject)
  (data : option JsObject) : JsObject :=
  spread_opt
    (<[str "error" := match err with
                      | Some e => JObj [ (str "name", err_name e);
                                         (str "message", err_message e);
                                         (str "stack", err_stack e) ]
                      | None => JUndefined
                      end]>
       (entry logger ERROR msg))
    data.

Definition is_undefined (v : JsValue) : bool :=
  match v with
  | JUndefined => true
  | _ => false
  end.

(** What [JSON.stringify] writes of a number: [null] for NaN and the
    infinities, [0] for the negative zero. *)
Definition json_number (x : number) : JsValue :=
  match x with
  | S754_nan | S754_infinity _ => JNull
  | S754_zero _ => JNum (S754_zero false)
  | S754_finite _ _ _ => JNum x
  end.

(** The value [JSON.stringify] writes for a value that is not [undefined]:
    at every depth a property whose value is [undefined] is left out, and
    an element of an array that is [undefined] is written [null]. *)
Fixpoint json_value (v : JsValue) : JsValue :=
  match v with
  | JNum x => json_number x
  | JArr elements =>
      JArr ((fix each (l : list JsValue) : list JsValue :=
               match l with
               | [] => []
               | x :: l' => (if is_undefined x then JNull else json_value x) :: each l'
               end) elements)
  | JObj props =>
      JObj ((fix each (l : list (jstr * JsValue)) : list (jstr * JsValue) :=
               match l with
               | [] => []
               | (k, x) :: l' =>
                   if is_undefined x then each l' else (k, json_value x) :: each l'
               end) props)
  | _ => v
  end.

(** The properties of the line [JSON.stringify] writes for an object. *)
Definition printed (o : JsObject) : JsObject :=
  omap (fun v => if is_undefined v then None else Some (json_value v)) o.

End Logging.

(** ** Further vocabulary *)

Module EvaluatorSpec.
Import Spec Evaluator.

(** A finite number. *)
Definition is_finite (x : number) : bool :=
  match x with
  | S754_zero _ | S754_finite _ _ _ => true
  | _ => false
  end.

(** The handler call of a test produced no result: there is no handler for
    its type, or the handler threw. *)
Definition call_fails (call : option (Outcome TestResult)) : Prop :=
  match call with
  | None | Some (Thrown _) => True
  | Some (Returned _) => False
  end.

(** The types a scorecard names. *)
Definition scorecard_types (sc : Scorecard) : gset jstr :=
  list_to_set (type <$> tests sc).




End EvaluatorSpec.

Module JsValueSpec.

(** [null] and [undefined], the two values no property can be read of. *)
Definition nullish (v : JsValue) : bool :=
  match v with
  | JUndefined | JNull => true
  | _ => false
  end.

Definition is_number (v : JsValue) : bool :=
  match v with
  | JNum _ => true
  | _ => false
  end.

End JsValueSpec.

Module GeneratorTrace.
Import Spec Generator GeneratorSpec.
Export JsValueSpec.

(** The prompts the model was run on, in order. *)
Definition model_calls (tr : list Event) : list JsValue :=
  omap (fun ev => match ev with
                  | AiRun _ prompt => Some prompt
                  | _ => None
                  end) tr.

(** The blobs written to the bucket: path and content. *)
Definition blob_writes (tr : list Event) : list (JsValue * JsValue) :=
  omap (fun ev => match ev with
                  | R2Put path content => Some (path, content)
                  | _ => None
                  end) tr.

(** The payloads of the jobs handed to [ctx.waitUntil]. *)
Definition deferred (tr : list Event) : list JsValue :=
  omap (fun ev => match ev with
                  | WaitUntil payload => Some payload
                  | _ => None
                  end) tr.

Definition zero_usage : CostMetrics :=
  {| prompt_tokens := jnum_Z 0; completion_tokens := jnum_Z 0 |}.

(** A token count a report can carry: a truthy value of the reply, or 0. *)
Definition count_or_zero (v : JsValue) : Prop := truthy v = true \/ v = jnum_Z 0.

(** The replies of the model the job can work with. *)
Definition reply_usable (reply : JsValue) : bool :=
  match reply with
  | JStr _ | JObj _ | JArr _ => true
  | _ => false
  end.

End GeneratorTrace.

Module LLMSpec.
Import Spec LLM.
Export JsValueSpec.

(** A score a per-test result may carry. *)
Definition in_range (x : number) : Prop :=
  num_le (num_of_Z 0) x = true /\ num_le x (num_of_Z 100) = true.

(** [JSON.parse] never yields NaN: JSON has no notation for it. *)
Definition parses_no_nan (G : Globals) : Prop :=
  forall text parsed x,
    JSON_parse G text = Some parsed ->
    get_prop parsed (str "score") = Returned (JNum x) ->
    is_nan x = false.

(** The backtick, three of which open and close a fenced block. *)
Definition backtick : N := 96%N.

Definition fence : jstr := [backtick; backtick; backtick].

(** A fenced JSON block around [body], as models write it. *)
Definition fenced (body : jstr) : jstr := str "```json" ++ [10%N] ++ body ++ [10%N] ++ fence.

(** The details of a parsed reply that has none of the optional fields. *)
Definition bare_details (responseText : jstr) : JsValue :=
  JObj [ (str "reasoning", JStr (str "No reasoning provided"));
         (str "strengths", JArr []);
         (str "improvements", JArr []);
         (str "rawResponse", JStr responseText) ].

End LLMSpec.

Module LinterSpec.
Import Spec Linter Linter.Basic.

(** The lines the checker walks over. *)
Definition lines_of (sourceCode : jstr) : list jstr := split_on 10%N sourceCode.

(** The line an issue points at: line numbers start at 1. *)
Definition line_of (sourceCode : jstr) (i : LintIssue) : option jstr :=
  if line i <? 1 then None else lines_of sourceCode !! Z.to_nat (line i - 1).

Definition rule_semi : jstr := str "semi".
Definition rule_unused : jstr := str "no-unused-vars".
Definition rule_bracket : jstr := str "bracket-match".
Definition rule_syntax : jstr := str "syntax-error".

(** An error the line-by-line pass raises on the line [l] of index [index]. *)
Definition error_at (index : nat) (l : jstr) (i : LintIssue) : Prop :=
  line i = Z.of_nat index + 1
  /\ severity i = SevError
  /\ ruleId i = rule_syntax
  /\ message i = str "Invalid function declaration"
  /\ column i = indexOf l (str "function") + 1
  /\ includes l (str "function") = true
  /\ includes l (str "(") = false
  /\ includes l (str "=>") = false.

(** A warning raised on the line [l] of index [index]: a variable that is
    not used, or, on a line that is not blank and has no line comment, a
    missing semicolon or a bracket mismatch. *)
Definition warning_at (index : nat) (l : jstr) (i : LintIssue) : Prop :=
  line i = Z.of_nat index + 1
  /\ severity i = SevWarning
  /\ (ruleId i = rule_unused
      \/ ((ruleId i = rule_semi \/ ruleId i = rule_bracket)
          /\ includes l (str "//") = false
          /\ trim l <> [])).

(** The error the [Function] constructor adds. *)
Definition ctor_error (msg : jstr) : LintIssue :=
  {| line := 1; column := 1; severity := SevError; message := msg; ruleId := rule_syntax |}.

End LinterSpec.

Module LoggingSpec.
Import Logging.

(** The names the logger itself writes. *)
Definition key_service : jstr := str "service".
Definition key_timestamp : jstr := str "timestamp".
Definition key_level : jstr := str "level".
Definition key_message : jstr := str "message".
Definition key_error : jstr := str "error".

(** The property [k] of the optional argument [data]. *)
Definition data_get (data : option JsObject) (k : jstr) : option JsValue :=
  match data with
  | Some d => d !! k
  | None => None
  end.

End LoggingSpec.

(** ** Concrete requests, environments and handlers *)

Module Examples.
Import Evaluator.

(** 0.4 and 0.6: the binary64 values nearest to 4/10 and 6/10. *)
Definition num_0_4 : number := num_div (num_of_Z 4) (num_of_Z 10).
Definition num_0_6 : number := num_div (num_of_Z 6) (num_of_Z 10).
Definition num_0_5 : number := num_div (num_of_Z 1) (num_of_Z 2).

(** Handlers that resolve to a fixed score or reject, as the unit tests of
    the worker mock them. *)
Definition resolves_with (x : Z) : TestHandler :=
  fun _ _ _ => Returned {| score := num_of_Z x; details := JObj []; error := None |}.

Definition rejects_with (msg : jstr) : TestHandler :=
  fun _ _ _ => Thrown (ThrownError msg).

Definition handlers_100_80 : gmap jstr TestHandler :=
  list_to_map [ (str "linter", resolves_with 100);
                (str "llm_evaluation", resolves_with 80) ].

Definition test_of (ty : jstr) (w : number) : ScorecardTest :=
  {| type := ty; weight := w; config := JObj [] |}.

Definition scorecard_04_06 : Scorecard :=
  {| tests := [ test_of (str "linter") num_0_4;
                test_of (str "llm_evaluation") num_0_6 ] |}.

(** A bucket that holds one artifact, and a model endpoint that is down. *)
Definition env_with_artifact (path text : jstr) : Env :=
  {| R2_BUCKET_get := fun p =>
       Returned (if jstr_eqb p path then Some (Returned text) else None);
     R2_BUCKET_get_undefined := Returned None;
     AI_run := fun _ _ => Thrown (ThrownError (str "AI service unavailable")) |}.

Definition post (path : jstr) (sc : Scorecard) : Request :=
  {| method := str "POST";
     json := Returned {| artifact_path := path; scorecard := sc |} |}.

Definition env_a : Env := env_with_artifact (str "test.ts") (str "mock source code").

(** A runtime whose [JSON.parse] knows the texts of a table and rejects
    every other text, whose [Function] constructor accepts every source and
    whose ESLint finds nothing. *)
Definition globals_with (table : list (jstr * JsValue)) : Globals :=
  {| JSON_parse := fun text => assoc_get text table;
     ToString_other := fun _ => str "[object Object]";
     Function_ctor := fun _ => CtorOk;
     ESLint_lintText := fun _ _ =>
       Returned [ {| errorCount := 0; warningCount := 0; messages := [] |} ] |}.

Definition globals_plain : Globals := globals_with [].

(** The registries of the unit test "should continue with other tests when
    one handler fails", and the same registry with a linter that
    resolves. *)
Definition handlers_linter_fails : gmap jstr TestHandler :=
  list_to_map [ (str "linter", rejects_with (str "Linter failed"));
                (str "llm_evaluation", resolves_with 75) ].

Definition handlers_linter_ok : gmap jstr TestHandler :=
  list_to_map [ (str "linter", resolves_with 90);
                (str "llm_evaluation", resolves_with 75) ].

Definition scorecard_05_05 : Scorecard :=
  {| tests := [ test_of (str "linter") num_0_5;
                test_of (str "llm_evaluation") num_0_5 ] |}.

Definition scorecard_unknown : Scorecard :=
  {| tests := [ test_of (str "unknown_test_type") (num_of_Z 1) ] |}.

(** Two tests of the type __proto__. *)
Definition scorecard_proto_twice : Scorecard :=
  {| tests := [ test_of (str "__proto__") num_0_4; test_of (str "__proto__") num_0_6 ] |}.

(** Two tests of the same type. *)
Definition scorecard_twice : Scorecard :=
  {| tests := [ {| type := str "linter"; weight := num_0_4; config := JObj [] |};
                {| type := str "linter"; weight := num_0_6;
                   config := JObj [ (str "strict", JBool true) ] |} ] |}.

(** A handler whose score depends on its configuration. *)
Definition config_sensitive : TestHandler :=
  fun _ config _ =>
    Returned {| score := match config with
                         | JObj [] => num_of_Z 100
                         | _ => num_of_Z 80
                         end;
                details := config; error := None |}.

Definition handlers_config_sensitive : gmap jstr TestHandler :=
  {[ str "linter" := config_sensitive ]}.

(** The registry with the checker that runs in the Workers runtime. *)
Definition handlers_basic_linter : gmap jstr TestHandler :=
  {[ str "linter" := Linter.Basic.handleLinter globals_plain ]}.

Definition scorecard_linter : Scorecard :=
  {| tests := [ test_of (str "linter") (num_of_Z 1) ] |}.

(** The same bytes under another path, with a model endpoint that answers. *)
Definition env_b : Env :=
  {| R2_BUCKET_get := fun p =>
       Returned (if jstr_eqb p (str "copy.ts") then Some (Returned (str "mock source code"))
                 else None);
     R2_BUCKET_get_undefined := Returned None;
     AI_run := fun _ _ => Returned (JStr (str "Score: 85")) |}.

(** A runtime in which ESLint cannot be loaded. *)
Definition globals_eslint_down : Globals :=
  {| JSON_parse := fun _ => None;
     ToString_other := fun _ => str "[object Object]";
     Function_ctor := fun _ => CtorOk;
     ESLint_lintText := fun _ _ => Thrown (ThrownError (str "Failed to load ESLint")) |}.

(** A runtime whose ESLint reports two errors and three warnings. *)
Definition globals_eslint_2_3 : Globals :=
  {| JSON_parse := fun _ => None;
     ToString_other := fun _ => str "[object Object]";
     Function_ctor := fun _ => CtorOk;
     ESLint_lintText := fun _ _ =>
       Returned [ {| errorCount := 2; warningCount := 3; messages := [] |} ] |}.

(** A model endpoint that always replies [reply]. *)
Definition env_replying (reply : JsValue) : Env :=
  {| R2_BUCKET_get := fun _ => Returned None;
     R2_BUCKET_get_undefined := Returned None;
     AI_run := fun _ _ => Returned reply |}.

(** The reply of the unit test "should clamp scores to valid range" and
    what [JSON.parse] makes of it. *)
Definition reply_150 : jstr := LLM.strq "{'score':150,'reasoning':'Excellent code'}".

Definition parsed_150 : JsValue :=
  JObj [ (str "score", jnum_Z 150); (str "reasoning", JStr (str "Excellent code")) ].

Definition globals_150 : Globals := globals_with [ (reply_150, parsed_150) ].

(** A reply that is JSON cut short. *)
Definition reply_cut_short : jstr := LLM.strq "{'score': 85, 'reasoning': 'Good".

(** *** For the unit tests of the repository *)

Definition handlers_of (linter llm : TestHandler) : gmap jstr TestHandler :=
  list_to_map [ (str "linter", linter); (str "llm_evaluation", llm) ].

Definition num_0_2 : number := num_div (num_of_Z 2) (num_of_Z 10).
Definition num_0_8 : number := num_div (num_of_Z 8) (num_of_Z 10).

Definition two_tests (w1 w2 : number) : Scorecard :=
  {| tests := [ test_of (str "linter") w1; test_of (str "llm_evaluation") w2 ] |}.

Definition score_of (r : Response) : option number := quality_score <$> Spec.evaluation_of r.

Definition llm_score (G : Globals) (reply : JsValue) : option (number * option jstr) :=
  match LLM.handleLLMEvaluation G (str "const x = 1;") (JObj []) (env_replying reply) with
  | Returned r => Some (score r, error r)
  | Thrown _ => None
  end.

Definition text_75 : jstr := LLM.strq "{'score': 75, 'reasoning': 'Decent code'}".
Definition text_negative : jstr := LLM.strq "{'score':-10,'reasoning':'Poor code'}".
Definition text_no_score : jstr := LLM.strq "{'reasoning':'Good code but no score provided'}".
Definition text_excellent : jstr := LLM.strq "{'score':'excellent','reasoning':'Great code'}".

Definition globals_tests : Globals :=
  globals_with
    [ (text_75, JObj [ (str "score", jnum_Z 75); (str "reasoning", JStr (str "Decent code")) ]);
      (text_negative,
       JObj [ (str "score", jnum_Z (-10)); (str "reasoning", JStr (str "Poor code")) ]);
      (text_no_score,
       JObj [ (str "reasoning", JStr (str "Good code but no score provided")) ]);
      (text_excellent,
       JObj [ (str "score", JStr (str "excellent"));
              (str "reasoning", JStr (str "Great code")) ]) ].

End Examples.

Module GeneratorExamples.
Import Generator GeneratorSpec.

Definition payload_with_prompt (meta_prompt : jstr) : list (jstr * JsValue) :=
  [ (str "orchestrator_id", JStr (str "orchestrator-1"));
    (str "artifact_id", JStr (str "w1-a1"));
    (str "meta_prompt", JStr meta_prompt);
    (str "output_r2_path", JStr (str "artifacts/wave-1/w1-a1.html")) ].

Definition payload_valid : list (jstr * JsValue) :=
  payload_with_prompt (str "Generate a landing page").

(** All four fields are there; the meta-prompt is the empty string. *)
Definition payload_empty_prompt : list (jstr * JsValue) := payload_with_prompt [].

(** An environment in which everything works: the model replies with a
    page and its usage. *)
Definition env_ok : Env :=
  {| AI_run := fun _ _ =>
       Returned (JObj [ (str "response", JStr (str "<h1>Content</h1>"));
                        (str "usage", JObj [ (str "prompt_tokens", jnum_Z 8);
                                             (str "completion_tokens", jnum_Z 12) ]) ]);
     R2_BUCKET_put := fun _ _ => Returned tt;
     ORCHESTRATOR_idFromString := fun id => Returned id;
     ORCHESTRATOR_fetch := fun _ _ _ => Returned tt;
     String_of := fun _ => str "[object Object]";
     AI_run_in_call := fun _ _ => false;
     ORCHESTRATOR_fetch_in_call := fun _ _ _ => false |}.

(** The blob store is down, and so is the orchestrator. *)
Definition env_all_down : Env :=
  {| AI_run := AI_run env_ok;
     R2_BUCKET_put := fun _ _ => Thrown (ThrownError (str "R2 storage unavailable"));
     ORCHESTRATOR_idFromString := fun id => Returned id;
     ORCHESTRATOR_fetch := fun _ _ _ => Thrown (ThrownError (str "Orchestrator unreachable"));
     String_of := fun _ => str "[object Object]";
     AI_run_in_call := fun _ _ => false;
     ORCHESTRATOR_fetch_in_call := fun _ _ _ => false |}.

End GeneratorExamples.

(** ** Further concrete inputs *)

Module MoreExamples.
Import Evaluator Examples.

(** Two linter tests and a model test. *)
Definition scorecard_three : Scorecard :=
  {| tests := [ test_of (str "linter") num_0_4;
                test_of (str "llm_evaluation") num_0_6;
                test_of (str "linter") num_0_5 ] |}.

(** An unknown type and a type whose handler rejects. *)
Definition scorecard_failing : Scorecard :=
  {| tests := [ test_of (str "static_analysis") num_0_4;
                test_of (str "linter") num_0_6 ] |}.

End MoreExamples.

Module GeneratorMoreExamples.
Import Generator GeneratorSpec GeneratorExamples.

(** The orchestrator takes failure reports only. *)
Definition env_success_refused : Env :=
  {| AI_run := AI_run env_ok;
     R2_BUCKET_put := fun _ _ => Returned tt;
     ORCHESTRATOR_idFromString := fun id => Returned id;
     ORCHESTRATOR_fetch := fun _ _ report =>
       match status report with
       | SUCCESS => Thrown (ThrownError (str "Orchestrator unreachable"))
       | FAILED => Returned tt
       end;
     String_of := fun _ => str "[object Object]";
     AI_run_in_call := fun _ _ => false;
     ORCHESTRATOR_fetch_in_call := fun _ _ _ => false |}.

(** The identifier of the orchestrator is not a valid one. *)
Definition env_no_stub : Env :=
  {| AI_run := AI_run env_ok;
     R2_BUCKET_put := fun _ _ => Returned tt;
     ORCHESTRATOR_idFromString := fun _ => Thrown (ThrownError (str "Invalid Durable Object ID"));
     ORCHESTRATOR_fetch := fun _ _ _ => Returned tt;
     String_of := fun _ => str "[object Object]";
     AI_run_in_call := fun _ _ => false;
     ORCHESTRATOR_fetch_in_call := fun _ _ _ => false |}.

(** A reply with no text and with a usage that lacks one of its counts. *)
Definition reply_partial : JsValue :=
  JObj [ (str "response", JStr []);
         (str "usage", JObj [ (str "prompt_tokens", jnum_Z 8) ]) ].

Definition usage_8_12 : CostMetrics :=
  {| prompt_tokens := jnum_Z 8; completion_tokens := jnum_Z 12 |}.

End GeneratorMoreExamples.

Module LLMMoreExamples.
Import Examples.

(** A runtime whose [JSON.parse] knows the texts [null] and [42]. *)
Definition globals_atoms : Globals :=
  globals_with [ (str "null", JNull); (str "42", jnum_Z 42) ].

(** A model that is out of capacity, and one that rejects with a value that
    is not an [Error]. *)
Definition env_model_throws (e : JsThrown) : Env :=
  {| R2_BUCKET_get := fun _ => Returned None;
     R2_BUCKET_get_undefined := Returned None;
     AI_run := fun _ _ => Thrown e |}.

End LLMMoreExamples.

Module LinterMoreExamples.
Import Examples.

(** A runtime whose [Function] constructor answers every source with
    [outcome]. *)
Definition globals_ctor (outcome : CtorOutcome) : Globals :=
  {| JSON_parse := fun _ => None;
     ToString_other := fun _ => str "[object Object]";
     Function_ctor := fun _ => outcome;
     ESLint_lintText := fun _ _ =>
       Returned [ {| errorCount := 0; warningCount := 0; messages := [] |} ] |}.

(** A declaration that is never used and lacks its semicolon, a comment,
    and a function without its parameter list. *)
Definition source_three_lines : jstr :=
  str "const unused = 1" ++ [10%N] ++ str "// return x" ++ [10%N] ++ str "function broken {".

End LinterMoreExamples.

Module LoggingExamples.
Import Logging.

(** The context of the unit test of the logger. *)
Definition context_test : JsObject :=
  list_to_map [ (str "projectId", JStr (str "proj-123"));
                (str "waveNumber", jnum_Z 1);
                (str "artifactId", JStr (str "art-456")) ].

Definition logger_test : LoggerInstance :=
  createLogger LowerCase (str "2024-01-01T00:00:00.000Z") (str "test-service")
    (Some context_test).

(** Data that names its own level. *)
Definition data_level : JsObject := {[ str "level" := JStr (str "debug") ]}.

Definition data_extra : JsObject := {[ str "extra" := JStr (str "data") ]}.

End LoggingExamples.

(** * Properties

    ** Numbers *)

Module FloatFacts.
Import Spec.

Lemma iter_pos_nat {A} (f : A -> A) (p : positive) (x : A) :
  SpecFloat.iter_pos f p x = Nat.iter (Pos.to_nat p) f x.
Proof.
  revert x. induction p as [p IH | p IH |]; intros x.
  - rewrite Pos2Nat.inj_xI. cbn [SpecFloat.iter_pos]. rewrite !IH.
    replace (S (2 * Pos.to_nat p))%nat with (Pos.to_nat p + (Pos.to_nat p + 1))%nat by lia.
    rewrite !Nat.iter_add. reflexivity.
  - rewrite Pos2Nat.inj_xO. cbn [SpecFloat.iter_pos]. rewrite !IH.
    replace (2 * Pos.to_nat p)%nat with (Pos.to_nat p + Pos.to_nat p)%nat by lia.
    rewrite Nat.iter_add. reflexivity.
  - reflexivity.
Qed.

(** One right shift of a mantissa with at least two digits keeps it
    positive and removes one digit. *)
Lemma shr_1_digits (mrs : shr_record) (m : positive) :
  shr_m mrs = Zpos m -> (1 < digits2_pos m)%positive ->
  exists m', shr_m (shr_1 mrs) = Zpos m' /\ Pos.succ (digits2_pos m') = digits2_pos m.
Proof.
  destruct mrs as [mm r s]; simpl. intros -> Hd.
  destruct m as [p | p |]; simpl in *; try lia; eauto.
Qed.

Lemma shr_iter_digits (k : nat) (mrs : shr_record) (m : positive) :
  shr_m mrs = Zpos m -> (Z.of_nat k < Zpos (digits2_pos m)) ->
  exists m', shr_m (Nat.iter k shr_1 mrs) = Zpos m'
             /\ Zpos (digits2_pos m') = Zpos (digits2_pos m) - Z.of_nat k.
Proof.
  induction k as [|k IH]; intros Hm Hk.
  - exists m. simpl. split; [assumption | lia].
  - destruct IH as (m1 & H1 & D1); [assumption | lia |].
    destruct (shr_1_digits (Nat.iter k shr_1 mrs) m1 H1) as (m2 & H2 & D2); [lia |].
    exists m2. simpl. split; [assumption | lia].
Qed.

Lemma shr_record_of_loc_m m l : shr_m (shr_record_of_loc m l) = m.
Proof. destruct l as [|[]]; reflexivity. Qed.

(** Rounding a positive mantissa at an exponent that is not below [emin]
    leaves it positive and does not lower the exponent. *)
Lemma shr_fexp_pos (m : positive) (e : Z) (l : location) :
  emin <= e ->
  exists m', shr_m (fst (shr_fexp prec emax (Zpos m) e l)) = Zpos m'
             /\ e <= snd (shr_fexp prec emax (Zpos m) e l).
Proof.
  intros He. unfold shr_fexp, shr.
  destruct (fexp prec emax (Zdigits2 (Z.pos m) + e) - e) as [|p|p] eqn:Hn; simpl.
  - exists m. rewrite shr_record_of_loc_m. split; [reflexivity | lia].
  - rewrite iter_pos_nat.
    destruct (shr_iter_digits (Pos.to_nat p) (shr_record_of_loc (Zpos m) l) m) as (m' & H1 & _).
    + apply shr_record_of_loc_m.
    + rewrite positive_nat_Z. unfold emin, fexp, SpecFloat.emin, prec, emax in *.
      simpl Zdigits2 in Hn. lia.
    + exists m'. split; [assumption | lia].
  - exists m. rewrite shr_record_of_loc_m. split; [reflexivity | lia].
Qed.

Lemma round_nearest_even_pos (m : positive) (l : location) :
  exists m', round_nearest_even (Zpos m) l = Zpos m'.
Proof.
  destruct l as [|[]]; unfold round_nearest_even;
    try destruct (Z.even (Z.pos m)); eexists; reflexivity.
Qed.

Lemma binary_round_aux_pos (m : positive) (e : Z) (l : location) :
  emin <= e -> pos_ok (binary_round_aux prec emax false (Zpos m) e l).
Proof.
  intros He. unfold binary_round_aux.
  destruct (shr_fexp_pos m e l He) as (m1 & H1 & E1).
  destruct (shr_fexp prec emax (Zpos m) e l) as [mrs1 e1]. simpl in H1, E1.
  rewrite H1.
  destruct (round_nearest_even_pos m1 (loc_of_shr_record mrs1)) as (m2 & H2). rewrite H2.
  destruct (shr_fexp_pos m2 e1 loc_Exact) as (m3 & H3 & E3); [lia |].
  destruct (shr_fexp prec emax (Zpos m2) e1 loc_Exact) as [mrs3 e3]. simpl in H3, E3.
  rewrite H3. destruct (e3 <=? emax - prec); simpl; [lia | exact I].
Qed.

Lemma binary_round_pos (m : positive) (e : Z) :
  emin <= e -> pos_ok (binary_round prec emax false m e).
Proof.
  intros He. unfold binary_round, shl_align.
  destruct (fexp prec emax (Z.pos (digits2_pos m) + e) - e) as [|p|p] eqn:Hn;
    apply binary_round_aux_pos; try assumption.
  unfold emin, fexp, SpecFloat.emin, prec, emax in *. lia.
Qed.

Lemma num_add_pos (x y : number) : pos_ok x -> pos_ok y -> pos_ok (num_add x y).
Proof.
  destruct x as [sx|sx| |sx mx ex], y as [sy|sy| |sy my ey];
    try destruct sx; try destruct sy; simpl pos_ok; try tauto;
    intros Hx Hy; unfold num_add, SFadd; try exact I.
  cbv zeta. unfold cond_Zopp. apply binary_round_pos. lia.
Qed.


Lemma positive_weight_pos_ok (w : number) : positive_weight w = true -> pos_ok w.
Proof.
  unfold positive_weight, num_valid, num_gt.
  destruct w as [s|[]| |[] m e]; simpl; try discriminate; try tauto;
    try (rewrite andb_false_r; discriminate).
  rewrite andb_true_r. unfold bounded, canonical_mantissa.
  intros H. apply andb_prop in H as [H _]. apply Z.eqb_eq in H.
  unfold emin, fexp, SpecFloat.emin, prec, emax in *. lia.
Qed.

Lemma pos_ok_gt_zero (x : number) : pos_ok x -> num_gt x (num_of_Z 0) = true.
Proof. destruct x as [s|[]| |[] m e]; simpl; tauto. Qed.

Lemma pos_ok_not_nan (x : number) : pos_ok x -> is_nan x = false.
Proof. destruct x as [s|[]| |[] m e]; simpl; tauto. Qed.

(** An integer that is not negative is never read as NaN. *)
Lemma num_of_Z_not_nan (z : Z) : 0 <= z -> is_nan (num_of_Z z) = false.
Proof.
  intros Hz. destruct z as [|p|p]; [reflexivity | | lia].
  apply pos_ok_not_nan. unfold num_of_Z, binary_normalize.
  apply binary_round_pos. unfold emin, SpecFloat.emin, prec, emax. lia.
Qed.

Lemma SFcompare_swap (a b : number) :
  SFcompare b a = CompOpp <$> SFcompare a b.
Proof.
  destruct a as [sa|sa| |sa ma ea], b as [sb|sb| |sb mb eb]; simpl;
    try destruct sa; try destruct sb; try reflexivity;
    rewrite (Z.compare_antisym ea eb); destruct (ea ?= eb); simpl; try reflexivity;
    rewrite (Pos.compare_cont_antisym ma mb Eq); simpl;
    try rewrite CompOpp_involutive; reflexivity.
Qed.

Lemma num_le_refl (x : number) : is_nan x = false -> num_le x x = true.
Proof.
  unfold num_le, SFleb.
  destruct x as [s|[]| |[] m e]; simpl; try discriminate; try reflexivity; intros _;
    rewrite Z.compare_refl, Pos.compare_cont_refl; reflexivity.
Qed.

Lemma js_max_lower (a x : number) :
  is_nan a = false -> is_nan x = false ->
  num_le a (js_max a x) = true /\ is_nan (js_max a x) = false.
Proof.
  intros Ha Hx. unfold js_max. rewrite Ha, Hx. simpl.
  destruct (SFcompare a x) as [[]|] eqn:Hc.
  - assert (Hr : (match a with S754_zero true => x | _ => a end) = a \/
                 (match a with S754_zero true => x | _ => a end) = x)
      by (destruct a as [[]| | |]; auto).
    destruct Hr as [-> | ->].
    + split; [apply num_le_refl|]; assumption.
    + split; [|assumption]. unfold num_le, SFleb. rewrite Hc. reflexivity.
  - split; [|assumption]. unfold num_le, SFleb. rewrite Hc. reflexivity.
  - split; [apply num_le_refl|]; assumption.
  - destruct a, x; simpl in *; try discriminate;
      repeat match goal with b : bool |- _ => destruct b end; discriminate.
Qed.

Lemma js_min_upper (a x : number) :
  is_nan a = false -> is_nan x = false ->
  num_le (js_min a x) a = true /\ is_nan (js_min a x) = false
  /\ (forall l, num_le l a = true -> num_le l x = true -> num_le l (js_min a x) = true).
Proof.
  intros Ha Hx. unfold js_min. rewrite Ha, Hx. simpl.
  destruct (SFcompare a x) as [[]|] eqn:Hc.
  - assert (Hr : (match a with S754_zero false => x | _ => a end) = a \/
                 (match a with S754_zero false => x | _ => a end) = x)
      by (destruct a as [[]| | |]; auto).
    destruct Hr as [-> | ->].
    + split; [apply num_le_refl; assumption|]. split; [assumption|]. auto.
    + split; [|split; [assumption|auto]].
      unfold num_le, SFleb. rewrite (SFcompare_swap a x), Hc. reflexivity.
  - split; [apply num_le_refl; assumption|]. split; [assumption|]. auto.
  - split; [|split; [assumption|auto]].
    unfold num_le, SFleb. rewrite (SFcompare_swap a x), Hc. reflexivity.
  - destruct a, x; simpl in *; try discriminate;
      repeat match goal with b : bool |- _ => destruct b end; discriminate.
Qed.

End FloatFacts.

(** ** Strings *)

Module StringFacts.
Import Spec.

Lemma jstr_eqb_eq (a b : jstr) : jstr_eqb a b = true <-> a = b.
Proof. unfold jstr_eqb. apply bool_decide_eq_true. Qed.

Lemma jstr_eqb_refl (a : jstr) : jstr_eqb a a = true.
Proof. now apply jstr_eqb_eq. Qed.

Lemma jstr_eqb_neq (a b : jstr) : jstr_eqb a b = false <-> a <> b.
Proof. unfold jstr_eqb. apply bool_decide_eq_false. Qed.

Lemma trimStart_nil (s : jstr) : trimStart s = [] <-> whitespace_only s.
Proof.
  unfold whitespace_only. induction s as [|c s IH]; simpl.
  - split; [constructor | reflexivity].
  - destruct (is_space c) eqn:Hc.
    + rewrite IH. split; [now constructor | now inversion 1].
    + split; [discriminate | inversion 1; congruence].
Qed.

(** What [trimStart] leaves is empty or starts with a unit that is not
    white space. *)
Lemma trimStart_head (s : jstr) :
  trimStart s = [] \/ exists c r, trimStart s = c :: r /\ is_space c = false.
Proof.
  induction s as [|c s IH]; simpl; [now left |].
  destruct (is_space c) eqn:Hc; [exact IH | right; eauto].
Qed.

Lemma whitespace_only_rev (s : jstr) : whitespace_only (rev s) <-> whitespace_only s.
Proof.
  unfold whitespace_only. split; intros H.
  - rewrite <- (rev_involutive s). now apply Forall_rev.
  - now apply Forall_rev.
Qed.

(** [s.trim() === ''] exactly when [s] is white space only. *)
Lemma trim_nil (s : jstr) : trim s = [] <-> whitespace_only s.
Proof.
  unfold trim, trimEnd. split.
  - intros H. apply (f_equal (@rev N)) in H. rewrite rev_involutive in H. simpl in H.
    apply trimStart_nil in H. apply (proj1 (whitespace_only_rev _)) in H.
    destruct (trimStart_head s) as [E | (c & r & E & Hc)].
    + now apply trimStart_nil.
    + rewrite E in H. unfold whitespace_only in H.
      apply Forall_cons in H as [H1 _]. congruence.
  - intros H. apply trimStart_nil in H. rewrite H. reflexivity.
Qed.

Lemma is_blank_spec (s : jstr) : Linter.is_blank s = true <-> whitespace_only s.
Proof.
  unfold Linter.is_blank. rewrite orb_true_iff, !jstr_eqb_eq, trim_nil. split.
  - intros [-> | H]; [constructor | exact H].
  - auto.
Qed.

(** A match leaves a suffix of the input: it never makes the input longer. *)
Lemma star_units_suffix {R} (p : N -> bool) (s : jstr) (k : jstr -> option R) (x : R) :
  star_units p s k = Some x -> exists s', (length s' <= length s)%nat /\ k s' = Some x.
Proof.
  induction s as [|c s IH]; simpl.
  - intros H. exists []. auto.
  - destruct (p c).
    + destruct (star_units p s k) as [y|] eqn:Hs.
      * intros [= ->]. destruct (IH eq_refl) as (s' & Hl & Hk).
        exists s'. split; [simpl; lia | exact Hk].
      * intros H. exists (c :: s). auto.
    + intros H. exists (c :: s). auto.
Qed.

Lemma rmatch_suffix {R} (r : regex) :
  forall (s : jstr) (caps : list jstr) (k : jstr -> list jstr -> option R) (x : R),
    rmatch r s caps k = Some x ->
    exists s' caps', (length s' <= length s)%nat /\ k s' caps' = Some x.
Proof.
  induction r as [p | p | r1 IH1 r2 IH2 | r1 IH1 r2 IH2 | r IH | r IH | |];
    intros s caps k x; simpl.
  - destruct s as [|c s]; [discriminate |]. destruct (p c); [| discriminate].
    intros H. exists s, caps. split; [simpl; lia | exact H].
  - intros H. apply star_units_suffix in H as (s' & Hl & Hk). eauto.
  - intros H. apply IH1 in H as (s1 & c1 & Hl1 & H).
    apply IH2 in H as (s2 & c2 & Hl2 & H). exists s2, c2. split; [lia | exact H].
  - destruct (rmatch r1 s caps k) as [y|] eqn:H1.
    + intros [= ->]. now apply IH1 in H1.
    + apply IH2.
  - destruct (rmatch r s caps k) as [y|] eqn:H1.
    + intros [= ->]. now apply IH in H1.
    + intros H. exists s, caps. auto.
  - intros H. apply IH in H as (s1 & c1 & Hl1 & H). eauto.
  - destruct s; [| discriminate]. intros H. exists [], caps. auto.
  - intros H. exists s, caps. auto.
Qed.

Lemma match_here_suffix (r : regex) (s rest : jstr) (caps : list jstr) :
  match_here r s = Some (rest, caps) -> (length rest <= length s)%nat.
Proof.
  unfold match_here. intros H. apply rmatch_suffix in H as (s' & c' & Hl & [= <- _]).
  exact Hl.
Qed.

(** [remove_all] has all the fuel it needs: more fuel changes nothing. *)
Lemma remove_all_fuel_enough (r : regex) (fuel : nat) (s : jstr) :
  (length s <= fuel)%nat -> remove_all_fuel fuel r s = remove_all r s.
Proof.
  unfold remove_all.
  assert (H : forall n f1 f2 t, (length t <= n)%nat -> (length t <= f1)%nat ->
              (length t <= f2)%nat ->
              remove_all_fuel f1 r t = remove_all_fuel f2 r t).
  { induction n as [|n IH]; intros f1 f2 t Hn H1 H2.
    - destruct t; [| simpl in Hn; lia]. destruct f1, f2; reflexivity.
    - destruct t as [|c t]; [destruct f1, f2; reflexivity |].
      destruct f1 as [|f1]; [simpl in H1; lia |].
      destruct f2 as [|f2]; [simpl in H2; lia |].
      simpl in *. destruct (match_here r (c :: t)) as [[rest caps]|] eqn:Hm.
      + destruct (length rest <? S (length t))%nat eqn:Hlt.
        * apply Nat.ltb_lt in Hlt. apply IH; lia.
        * f_equal. apply IH; lia.
      + f_equal. apply IH; lia. }
  intros Hf. apply (H (length s)); auto.
Qed.

End StringFacts.

(** ** The scoring loop *)

Module LoopFacts.
Import Spec Evaluator FloatFacts.

Lemma partial_sum_ext (f g : nat -> number) (n : nat) :
  (forall i, (i < n)%nat -> f i = g i) -> partial_sum f n = partial_sum g n.
Proof.
  induction n as [|n IH]; intros H; simpl; [reflexivity |].
  rewrite IH, H by (intros; try apply H; lia). reflexivity.
Qed.

Lemma sum_weights_snoc (rs : list RanTest) (t : RanTest) :
  sum_weights (rs ++ [t]) = num_add (sum_weights rs) (ran_weight t).
Proof.
  unfold sum_weights. rewrite length_app, Nat.add_1_r. simpl. f_equal.
  - apply partial_sum_ext. intros i Hi. unfold nth_weight.
    now rewrite lookup_app_l.
  - unfold nth_weight. now rewrite list_lookup_middle.
Qed.

Lemma sum_weighted_scores_snoc (rs : list RanTest) (t : RanTest) :
  sum_weighted_scores (rs ++ [t])
  = num_add (sum_weighted_scores rs) (num_mul (score (ran_result t)) (ran_weight t)).
Proof.
  unfold sum_weighted_scores. rewrite length_app, Nat.add_1_r. simpl. f_equal.
  - apply partial_sum_ext. intros i Hi. unfold nth_weighted_score.
    now rewrite lookup_app_l.
  - unfold nth_weighted_score. now rewrite list_lookup_middle.
Qed.

Lemma last_of_type_snoc (k : jstr) (rs : list RanTest) (t : RanTest) :
  last_of_type k (rs ++ [t])
  = if decide (ran_type t = k) then Some t else last_of_type k rs.
Proof.
  unfold last_of_type. rewrite filter_app, filter_cons, filter_nil.
  destruct (decide (ran_type t = k)); [apply last_snoc | now rewrite app_nil_r].
Qed.

(** The three variables after the loop: the two sums of the formula, and an
    object that holds, under each type, the result of the last test of that
    type. *)
Lemma totals_loop (rs : list RanTest) :
  let acc := fold_left totals_step rs totals_init in
  totalWeight acc = sum_weights rs
  /\ totalWeightedScore acc = sum_weighted_scores rs
  /\ forall k, details_obj acc !! k
               = if decide (k = proto_key) then None
                 else ran_result <$> last_of_type k rs.
Proof.
  induction rs as [|t rs IH] using rev_ind.
  - simpl. split; [reflexivity | split; [reflexivity |]]. intros k.
    rewrite lookup_empty. now destruct (decide (k = proto_key)).
  - destruct IH as (Hw & Hs & Hd). rewrite fold_left_app. simpl.
    rewrite Hw, Hs, sum_weights_snoc, sum_weighted_scores_snoc.
    split; [reflexivity | split; [reflexivity |]].
    intros k. rewrite last_of_type_snoc. unfold assign.
    destruct (jstr_eqb (ran_type t) proto_key) eqn:Hp.
    + apply StringFacts.jstr_eqb_eq in Hp. rewrite Hd.
      destruct (decide (k = proto_key)) as [Hk | Hk]; [reflexivity |].
      destruct (decide (ran_type t = k)); [congruence | reflexivity].
    + apply StringFacts.jstr_eqb_neq in Hp. rewrite lookup_insert.
      destruct (decide (ran_type t = k)) as [<- | Hne].
      * now rewrite decide_False by exact Hp.
      * apply Hd.
Qed.

Lemma num_add_zero_pos (w : number) : pos_ok w -> num_add (num_of_Z 0) w = w.
Proof. destruct w as [s|[]| |[] m e]; simpl; tauto. Qed.

(** The sum of positive weights is positive: the guard of the division
    holds for every scorecard of the data model that has a test. *)
Lemma sum_weights_pos (rs : list RanTest) :
  rs <> [] -> Forall (fun t => positive_weight (ran_weight t) = true) rs ->
  pos_ok (sum_weights rs).
Proof.
  induction rs as [|t rs IH] using rev_ind; [congruence |].
  intros _ Hall. apply Forall_app in Hall as [Hrs Ht].
  inversion Ht as [|? ? Hw _]; subst. apply positive_weight_pos_ok in Hw.
  rewrite sum_weights_snoc. destruct rs as [|r rs'].
  - change (sum_weights []) with (num_of_Z 0). now rewrite num_add_zero_pos.
  - apply num_add_pos; [apply IH; [discriminate | assumption] | assumption].
Qed.

Lemma combine_quality (rs : list RanTest) :
  quality_score (combine rs)
  = if num_gt (sum_weights rs) (num_of_Z 0) then weighted_average rs else num_of_Z 0.
Proof.
  unfold combine, weighted_average. destruct (totals_loop rs) as (-> & -> & _).
  reflexivity.
Qed.

Lemma combine_details (rs : list RanTest) (k : jstr) :
  response_details (combine rs) !! k
  = if decide (k = proto_key) then None else ran_result <$> last_of_type k rs.
Proof. unfold combine. simpl. apply totals_loop. Qed.

Lemma combine_details_ne (rs : list RanTest) (k : jstr) :
  k <> proto_key -> response_details (combine rs) !! k = ran_result <$> last_of_type k rs.
Proof. intros Hk. rewrite combine_details. now rewrite decide_False by exact Hk. Qed.

Lemma combine_details_proto (rs : list RanTest) :
  response_details (combine rs) !! proto_key = None.
Proof. rewrite combine_details. now rewrite decide_True by reflexivity. Qed.

(** Over an array of tests of the declared type every callback resolves. *)
Lemma run_tests_typed handlers sourceCode env (ts : list ScorecardTest) :
  run_tests handlers sourceCode env (Some <$> ts)
  = Returned (map (run_test handlers sourceCode env) ts).
Proof.
  induction ts as [|t ts IH]; [reflexivity |].
  cbn [fmap list_fmap run_tests]. change (list_fmap _ _ Some ts) with (Some <$> ts).
  now rewrite IH.
Qed.

(** The response to a well-formed request for an existing artifact. *)
Lemma fetch_existing handlers request env req sourceCode :
  artifact_exists request env req sourceCode ->
  fetch_with handlers request env
  = {| status := 200; content_type := json_header;
       body := BodyEvaluation (combine (testResults handlers sourceCode env req)) |}.
Proof.
  intros (Hm & Hj & Hr). unfold fetch_with. rewrite Hm, Hj.
  rewrite StringFacts.jstr_eqb_refl.
  cbn [negb mbind outcome_bind typed_body destructure bucket_get tests_array].
  rewrite Hr. cbn [mbind outcome_bind]. rewrite run_tests_typed. reflexivity.
Qed.

End LoopFacts.

(** ** The Evaluator's combination of scores *)

Module EvaluatorClaims.
Import Spec Evaluator FloatFacts LoopFacts Examples.

(** C1. For every evaluation request whose artifact exists the response has
    status 200 and its [quality_score] is the sum of [weight_i * score_i]
    divided by the sum of [weight_i]: for every non-empty scorecard whose
    weights are positive (whatever they sum to), and more generally whenever
    the total weight is greater than zero. For an empty scorecard, and
    whenever the total weight is zero, it is 0. Weights 0.4 and 0.6 with
    scores 100 and 80 give 88. *)
Theorem C1_quality_score_weighted_average
  (handlers : gmap jstr TestHandler) (request : Request) (env : Env)
  (req : EvaluationRequest) (sourceCode : jstr) :
  artifact_exists request env req sourceCode ->
  let rs := testResults handlers sourceCode env req in
  exists resp,
    fetch_with handlers request env
    = {| status := 200; content_type := json_header; body := BodyEvaluation resp |}
    /\ (tests (scorecard req) <> [] ->
        Forall (fun t => positive_weight (weight t) = true) (tests (scorecard req)) ->
        quality_score resp = weighted_average rs)
    /\ (num_gt (sum_weights rs) (num_of_Z 0) = true ->
        quality_score resp = weighted_average rs)
    /\ (tests (scorecard req) = [] -> quality_score resp = num_of_Z 0)
    /\ (sum_weights rs = num_of_Z 0 -> quality_score resp = num_of_Z 0)
    /\ (map (fun t => (ran_weight t, score (ran_result t))) rs
        = [ (num_0_4, num_of_Z 100); (num_0_6, num_of_Z 80) ] ->
        quality_score resp = num_of_Z 88).
Proof.
  intros Hex rs. exists (combine rs). split; [now apply fetch_existing |].
  rewrite combine_quality.
  assert (Hpos : num_gt (sum_weights rs) (num_of_Z 0) = true ->
                 (if num_gt (sum_weights rs) (num_of_Z 0)
                  then weighted_average rs else num_of_Z 0) = weighted_average rs)
    by (intros ->; reflexivity).
  repeat split.
  - intros Hne Hall. apply Hpos, pos_ok_gt_zero, sum_weights_pos.
    + subst rs. unfold testResults. destruct (tests (scorecard req)); [congruence | discriminate].
    + subst rs. unfold testResults. apply Forall_map.
      eapply Forall_impl; [exact Hall |]. intros t Ht. unfold run_test.
      destruct (handlers !! type t) as [h|]; [destruct (h _ _ _) |]; exact Ht.
  - exact Hpos.
  - intros Hnil. subst rs. unfold testResults. rewrite Hnil. reflexivity.
  - intros ->. reflexivity.
  - intros Hmap. destruct rs as [|[ty1 w1 [s1 d1 e1]] [|[ty2 w2 [s2 d2 e2]] [|? ?]]];
      try discriminate.
    simpl in Hmap. injection Hmap as -> -> -> ->. reflexivity.
Qed.

(** The scenario of the specification, run on the worker: a scorecard with
    weights 0.4 and 0.6 whose handlers resolve to 100 and 80. *)
Lemma C1_witness :
  artifact_exists (post (str "test.ts") scorecard_04_06) env_a
    {| artifact_path := str "test.ts"; scorecard := scorecard_04_06 |}
    (str "mock source code")
  /\ exists resp,
       evaluation_of (fetch_with handlers_100_80 (post (str "test.ts") scorecard_04_06) env_a)
       = Some resp
       /\ quality_score resp = num_of_Z 88.
Proof.
  assert (Hex : artifact_exists (post (str "test.ts") scorecard_04_06) env_a
                  {| artifact_path := str "test.ts"; scorecard := scorecard_04_06 |}
                  (str "mock source code"))
    by (repeat split; reflexivity).
  split; [exact Hex |].
  destruct (C1_quality_score_weighted_average handlers_100_80 _ _ _ _ Hex)
    as (resp & Hf & _ & _ & _ & _ & H88).
  exists resp. split.
  - rewrite Hf. reflexivity.
  - apply H88. vm_compute. reflexivity.
Defined.

Lemma run_test_settle handlers sourceCode env test :
  run_test handlers sourceCode env test
  = settle test (handler_call handlers sourceCode env test).
Proof.
  unfold run_test, handler_call, settle.
  destruct (handlers !! type test) as [h|]; simpl; [destruct (h _ _ _) |]; reflexivity.
Qed.

Lemma ran_type_run_test handlers sourceCode env test :
  ran_type (run_test handlers sourceCode env test) = type test.
Proof. now rewrite run_test_settle. Qed.

Lemma ran_weight_run_test handlers sourceCode env test :
  ran_weight (run_test handlers sourceCode env test) = weight test.
Proof. now rewrite run_test_settle. Qed.

Lemma testResults_lookup handlers sourceCode env req (i : nat) :
  testResults handlers sourceCode env req !! i
  = run_test handlers sourceCode env <$> tests (scorecard req) !! i.
Proof. unfold testResults. apply list_lookup_fmap. Qed.

Lemma filter_type_testResults handlers sourceCode env (ts : list ScorecardTest) (k : jstr) :
  filter (fun r => ran_type r = k) (map (run_test handlers sourceCode env) ts)
  = map (run_test handlers sourceCode env) (filter (fun t => type t = k) ts).
Proof.
  induction ts as [|t ts IH]; [reflexivity |].
  simpl map. rewrite !filter_cons, ran_type_run_test, IH.
  destruct (decide (type t = k)); reflexivity.
Qed.

Lemma filter_type_none (ts : list ScorecardTest) (k : jstr) :
  (forall t, t ∈ ts -> type t <> k) -> filter (fun t => type t = k) ts = [].
Proof.
  induction ts as [|t ts IH]; intros H; [reflexivity |].
  rewrite filter_cons. destruct (decide (type t = k)) as [E|_].
  - exfalso. apply (H t); [left | exact E].
  - apply IH. intros t' Hin. apply H. now right.
Qed.

(** Tests of a type whose handler calls have the same outcomes leave the
    same entry in [details]. *)
Lemma last_of_type_agree handlers handlers' sourceCode env req (k : jstr) :
  (forall t, t ∈ tests (scorecard req) -> type t = k ->
     handler_call handlers' sourceCode env t = handler_call handlers sourceCode env t) ->
  last_of_type k (testResults handlers' sourceCode env req)
  = last_of_type k (testResults handlers sourceCode env req).
Proof.
  intros H. unfold last_of_type, testResults. rewrite !filter_type_testResults.
  f_equal. apply map_ext_in. intros t Hin.
  apply list_elem_of_In, list_elem_of_filter in Hin as [Hk Hin].
  rewrite !run_test_settle. f_equal. now apply H.
Qed.

(** C2. When the handler of a test throws, the request is answered with
    status 200, the result of that test is score 0, empty details and the
    message of the exception (['Unknown error'] when what was thrown is not
    an [Error]); and for any other behaviour of the handlers that agrees on
    the calls of the other tests, every other per-test result and every
    entry of [details] under another type are the same. *)
Theorem C2_handler_exception_isolated
  (handlers handlers' : gmap jstr TestHandler) (request : Request) (env : Env)
  (req : EvaluationRequest) (sourceCode : jstr)
  (i : nat) (test : ScorecardTest) (e : JsThrown) :
  artifact_exists request env req sourceCode ->
  tests (scorecard req) !! i = Some test ->
  handler_call handlers sourceCode env test = Some (Thrown e) ->
  (forall j t, j <> i -> tests (scorecard req) !! j = Some t ->
     handler_call handlers' sourceCode env t = handler_call handlers sourceCode env t) ->
  let rs := testResults handlers sourceCode env req in
  let rs' := testResults handlers' sourceCode env req in
  status (fetch_with handlers request env) = 200
  /\ evaluation_of (fetch_with handlers request env) = Some (combine rs)
  /\ rs !! i = Some {| ran_type := type test; ran_weight := weight test;
                       ran_result := failed_result (message_or e (str "Unknown error")) |}
  /\ (forall m, e = ThrownError m ->
        error <$> (ran_result <$> rs !! i) = Some (Some m))
  /\ status (fetch_with handlers' request env) = 200
  /\ evaluation_of (fetch_with handlers' request env) = Some (combine rs')
  /\ (forall j, j <> i -> rs' !! j = rs !! j)
  /\ (forall k, k <> type test ->
        response_details (combine rs') !! k = response_details (combine rs) !! k).
Proof.
  intros Hex Hi Hcall Hsame rs rs'.
  rewrite !(fetch_existing _ _ _ _ _ Hex). fold rs rs'.
  assert (Hrs : rs !! i = Some {| ran_type := type test; ran_weight := weight test;
                  ran_result := failed_result (message_or e (str "Unknown error")) |}).
  { subst rs. rewrite testResults_lookup, Hi. simpl.
    now rewrite run_test_settle, Hcall. }
  repeat match goal with |- _ /\ _ => split end; try reflexivity.
  - exact Hrs.
  - intros m ->. now rewrite Hrs.
  - intros j Hj. subst rs rs'. rewrite !testResults_lookup.
    destruct (tests (scorecard req) !! j) as [t|] eqn:Ht; [simpl | reflexivity].
    now rewrite !run_test_settle, (Hsame j t Hj Ht).
  - intros k Hk. rewrite !combine_details.
    destruct (decide (k = proto_key)); [reflexivity |]. f_equal.
    apply last_of_type_agree. intros t Hin Hty.
    apply list_elem_of_lookup in Hin as [j Hj].
    apply (Hsame j t); [|exact Hj]. intros ->. rewrite Hi in Hj. congruence.
Qed.

(** The unit test of the worker: the linter rejects with "Linter failed",
    the model handler resolves to 75; compared with a run in which the
    linter resolves. *)
Lemma C2_witness :
  status (fetch_with handlers_linter_fails (post (str "test.ts") scorecard_05_05) env_a) = 200
  /\ (error <$> response_details (combine (testResults handlers_linter_fails
               (str "mock source code") env_a
               {| artifact_path := str "test.ts"; scorecard := scorecard_05_05 |}))
             !! str "linter") = Some (Some (str "Linter failed"))
  /\ response_details (combine (testResults handlers_linter_ok
               (str "mock source code") env_a
               {| artifact_path := str "test.ts"; scorecard := scorecard_05_05 |}))
        !! str "llm_evaluation"
      = response_details (combine (testResults handlers_linter_fails
               (str "mock source code") env_a
               {| artifact_path := str "test.ts"; scorecard := scorecard_05_05 |}))
        !! str "llm_evaluation".
Proof.
  assert (Hex : artifact_exists (post (str "test.ts") scorecard_05_05) env_a
                  {| artifact_path := str "test.ts"; scorecard := scorecard_05_05 |}
                  (str "mock source code"))
    by (repeat split; reflexivity).
  assert (Hsame : forall j t, j <> 0%nat ->
            tests scorecard_05_05 !! j = Some t ->
            handler_call handlers_linter_ok (str "mock source code") env_a t
            = handler_call handlers_linter_fails (str "mock source code") env_a t).
  { intros [|[|j]] t Hj Ht; [congruence | | discriminate].
    injection Ht as <-. reflexivity. }
  destruct (C2_handler_exception_isolated handlers_linter_fails handlers_linter_ok
              _ env_a _ _ 0%nat (test_of (str "linter") num_0_5)
              (ThrownError (str "Linter failed")) Hex eq_refl eq_refl Hsame)
    as (H200 & _ & _ & _ & _ & _ & _ & Hdetails).
  split; [exact H200 |]. split; [vm_compute; reflexivity |].
  apply Hdetails. vm_compute. discriminate.
Defined.

Lemma testHandlers_lookup_None (G : Globals) (ty : jstr) :
  testHandlers G !! ty = None <-> ty <> str "linter" /\ ty <> str "llm_evaluation".
Proof.
  unfold testHandlers. simpl. rewrite !lookup_insert_None, lookup_empty.
  intuition congruence.
Qed.

(** C3, as the specification words it, fails: the message names the type. *)
Lemma C3_counterexample :
  error (ran_result (run_test (testHandlers globals_plain) (str "mock source code") env_a
                       (test_of (str "unknown_test_type") (num_of_Z 1))))
  = Some (str "Unknown test type: unknown_test_type")
  /\ error (ran_result (run_test (testHandlers globals_plain) (str "mock source code") env_a
                          (test_of (str "unknown_test_type") (num_of_Z 1))))
     <> Some (str "unknown test type").
Proof. split; [vm_compute; reflexivity | vm_compute; discriminate]. Qed.

(** C3 (amended). A test whose type is neither ['linter'] nor
    ['llm_evaluation'] has no registered handler and produces score 0, empty
    details and the error ["Unknown test type: "] followed by the type; the
    request is answered with status 200, and the weight of the test is a
    term of the total weight that divides the combined score (its weighted
    score being 0 times the weight). *)
Theorem C3_unknown_test_type
  (G : Globals) (request : Request) (env : Env)
  (req : EvaluationRequest) (sourceCode : jstr) (i : nat) (test : ScorecardTest) :
  artifact_exists request env req sourceCode ->
  tests (scorecard req) !! i = Some test ->
  type test <> str "linter" -> type test <> str "llm_evaluation" ->
  let rs := testResults (testHandlers G) sourceCode env req in
  testHandlers G !! type test = None
  /\ rs !! i = Some {| ran_type := type test; ran_weight := weight test;
                       ran_result := failed_result (str "Unknown test type: " ++ type test) |}
  /\ status (fetch G request env) = 200
  /\ evaluation_of (fetch G request env) = Some (combine rs)
  /\ quality_score (combine rs)
     = (if num_gt (sum_weights rs) (num_of_Z 0) then weighted_average rs else num_of_Z 0)
  /\ (i < length rs)%nat
  /\ nth_weight rs i = weight test
  /\ nth_weighted_score rs i = num_mul (num_of_Z 0) (weight test).
Proof.
  intros Hex Hi H1 H2 rs.
  assert (Hnone : testHandlers G !! type test = None)
    by (apply testHandlers_lookup_None; split; assumption).
  assert (Hrs : rs !! i = Some {| ran_type := type test; ran_weight := weight test;
                  ran_result := failed_result (str "Unknown test type: " ++ type test) |}).
  { subst rs. rewrite testResults_lookup, Hi. simpl.
    rewrite run_test_settle. unfold handler_call. now rewrite Hnone. }
  unfold fetch. rewrite (fetch_existing _ _ _ _ _ Hex). fold rs.
  repeat match goal with |- _ /\ _ => split end; try reflexivity; try assumption.
  - apply combine_quality.
  - apply lookup_lt_Some in Hrs. exact Hrs.
  - unfold nth_weight. now rewrite Hrs.
  - unfold nth_weighted_score. now rewrite Hrs.
Qed.

(** The unit test "should handle unknown test types gracefully". *)
Lemma C3_witness :
  status (fetch globals_plain (post (str "test.ts") scorecard_unknown) env_a) = 200
  /\ (ran_result <$> testResults (testHandlers globals_plain) (str "mock source code") env_a
                       {| artifact_path := str "test.ts"; scorecard := scorecard_unknown |}
                     !! 0%nat)
     = Some (failed_result (str "Unknown test type: unknown_test_type")).
Proof.
  assert (Hex : artifact_exists (post (str "test.ts") scorecard_unknown) env_a
                  {| artifact_path := str "test.ts"; scorecard := scorecard_unknown |}
                  (str "mock source code"))
    by (repeat split; reflexivity).
  destruct (C3_unknown_test_type globals_plain _ env_a _ _ 0%nat
              (test_of (str "unknown_test_type") (num_of_Z 1)) Hex eq_refl)
    as (_ & Hrs & H200 & _).
  - vm_compute. discriminate.
  - vm_compute. discriminate.
  - split; [exact H200 |]. rewrite Hrs. reflexivity.
Defined.

(** C8. Two runs on the same artifact bytes and the same scorecard, with
    handlers that are functions of the source text and the configuration,
    give the same response, whatever the paths of the artifact and the rest
    of the two environments. *)
Theorem C8_evaluator_deterministic
  (handlers : gmap jstr TestHandler) (request1 request2 : Request) (env1 env2 : Env)
  (req1 req2 : EvaluationRequest) (bytes : jstr) :
  artifact_exists request1 env1 req1 bytes ->
  artifact_exists request2 env2 req2 bytes ->
  scorecard req1 = scorecard req2 ->
  (forall ty h, handlers !! ty = Some h -> pure_handler h) ->
  fetch_with handlers request1 env1 = fetch_with handlers request2 env2.
Proof.
  intros Hex1 Hex2 Hsc Hpure.
  rewrite (fetch_existing _ _ _ _ _ Hex1), (fetch_existing _ _ _ _ _ Hex2).
  do 3 f_equal. unfold testResults. rewrite Hsc. apply map_ext. intros t.
  unfold run_test. destruct (handlers !! type t) as [h|] eqn:Hh; [|reflexivity].
  now rewrite (Hpure _ _ Hh bytes (config t) env1 env2).
Qed.

(** The same source under two paths, in two environments whose model
    endpoints differ, scored by the built-in checker. *)
Lemma C8_witness :
  fetch_with handlers_basic_linter (post (str "test.ts") scorecard_linter) env_a
  = fetch_with handlers_basic_linter (post (str "copy.ts") scorecard_linter) env_b.
Proof.
  apply (C8_evaluator_deterministic handlers_basic_linter _ _ env_a env_b
           {| artifact_path := str "test.ts"; scorecard := scorecard_linter |}
           {| artifact_path := str "copy.ts"; scorecard := scorecard_linter |}
           (str "mock source code")).
  - repeat split; reflexivity.
  - repeat split; reflexivity.
  - reflexivity.
  - intros ty h Hh. unfold handlers_basic_linter in Hh.
    apply lookup_singleton_Some in Hh as [_ <-].
    intros sourceCode config env env'. reflexivity.
Defined.

(** C9, as the specification words it, fails for one type: an assignment
    under the name __proto__ creates no property, so with two tests of that
    type [details] holds the result of neither and stays empty. *)
Lemma C9_counterexample :
  exists resp,
    evaluation_of (fetch globals_plain (post (str "test.ts") scorecard_proto_twice) env_a)
    = Some resp
    /\ response_details resp !! str "__proto__" = None
    /\ response_details resp = ∅
    /\ (ran_result <$> last_of_type (str "__proto__")
                         (testResults (testHandlers globals_plain) (str "mock source code")
                            env_a {| artifact_path := str "test.ts";
                                     scorecard := scorecard_proto_twice |}))
       = Some (failed_result (str "Unknown test type: __proto__")).
Proof.
  eexists. split; [vm_compute; reflexivity |].
  split; [vm_compute; reflexivity |]. split; vm_compute; reflexivity.
Qed.

(** C9 (amended). When two tests of a scorecard have the same type, each of
    them is a term of both sums of the combined score, with its own weight
    and its own score; [details], keyed by type, holds under every type but
    __proto__ the result of the last test of the type and nothing of the
    earlier ones, and it holds nothing under __proto__. *)
Theorem C9_duplicate_type_last_wins
  (handlers : gmap jstr TestHandler) (request : Request) (env : Env)
  (req : EvaluationRequest) (sourceCode : jstr)
  (i j : nat) (a b : ScorecardTest) :
  artifact_exists request env req sourceCode ->
  tests (scorecard req) !! i = Some a ->
  tests (scorecard req) !! j = Some b ->
  (i < j)%nat ->
  type a = type b ->
  (forall j' t, (j < j')%nat -> tests (scorecard req) !! j' = Some t -> type t <> type b) ->
  let rs := testResults handlers sourceCode env req in
  exists resp,
    evaluation_of (fetch_with handlers request env) = Some resp
    /\ (type b <> proto_key ->
        response_details resp !! type b
        = Some (ran_result (run_test handlers sourceCode env b)))
    /\ (forall k, k <> proto_key ->
          response_details resp !! k = ran_result <$> last_of_type k rs)
    /\ response_details resp !! proto_key = None
    /\ quality_score resp
       = (if num_gt (sum_weights rs) (num_of_Z 0) then weighted_average rs else num_of_Z 0)
    /\ (i < length rs)%nat /\ (j < length rs)%nat
    /\ nth_weight rs i = weight a
    /\ nth_weight rs j = weight b
    /\ nth_weighted_score rs i
       = num_mul (score (ran_result (run_test handlers sourceCode env a))) (weight a)
    /\ nth_weighted_score rs j
       = num_mul (score (ran_result (run_test handlers sourceCode env b))) (weight b).
Proof.
  intros Hex Ha Hb Hij Hty Hlast rs.
  assert (Hra : rs !! i = Some (run_test handlers sourceCode env a))
    by (subst rs; now rewrite testResults_lookup, Ha).
  assert (Hrb : rs !! j = Some (run_test handlers sourceCode env b))
    by (subst rs; now rewrite testResults_lookup, Hb).
  exists (combine rs). rewrite (fetch_existing _ _ _ _ _ Hex). fold rs.
  repeat match goal with |- _ /\ _ => split end.
  - reflexivity.
  - intros Hproto. rewrite combine_details_ne by exact Hproto.
    unfold last_of_type. subst rs. unfold testResults.
    rewrite filter_type_testResults.
    pose proof (take_drop_middle _ _ _ Hb) as Hsplit.
    rewrite <- Hsplit at 1. rewrite filter_app, filter_cons.
    destruct (decide (type b = type b)) as [_|]; [|congruence].
    assert (Hafter : filter (fun t => type t = type b) (drop (S j) (tests (scorecard req))) = []).
    { apply filter_type_none. intros t Hin.
      apply list_elem_of_lookup in Hin as [n Hn]. rewrite lookup_drop in Hn.
      apply (Hlast (S j + n)%nat t); [lia | exact Hn]. }
    rewrite Hafter, map_app. simpl. now rewrite last_snoc.
  - intros k Hk. now apply combine_details_ne.
  - apply combine_details_proto.
  - apply combine_quality.
  - now apply lookup_lt_Some in Hra.
  - now apply lookup_lt_Some in Hrb.
  - unfold nth_weight. rewrite Hra. apply ran_weight_run_test.
  - unfold nth_weight. rewrite Hrb. apply ran_weight_run_test.
  - unfold nth_weighted_score. rewrite Hra. simpl. now rewrite ran_weight_run_test.
  - unfold nth_weighted_score. rewrite Hrb. simpl. now rewrite ran_weight_run_test.
Qed.

(** Two linter tests with different configurations: the second result is
    the one reported. *)
Lemma C9_witness :
  exists resp,
    evaluation_of (fetch_with handlers_config_sensitive
                     (post (str "test.ts") scorecard_twice) env_a) = Some resp
    /\ (score <$> response_details resp !! str "linter") = Some (num_of_Z 80)
    /\ quality_score resp = num_of_Z 88.
Proof.
  assert (Hex : artifact_exists (post (str "test.ts") scorecard_twice) env_a
                  {| artifact_path := str "test.ts"; scorecard := scorecard_twice |}
                  (str "mock source code"))
    by (repeat split; reflexivity).
  destruct (C9_duplicate_type_last_wins handlers_config_sensitive _ env_a _ _
              0%nat 1%nat _ _ Hex eq_refl eq_refl)
    as (resp & Hresp & Hlast & _ & _ & Hq & _).
  - lia.
  - reflexivity.
  - intros [|[|j']] t Hj Ht; [lia | lia | discriminate].
  - exists resp. split; [exact Hresp |]. split.
    + cbn [type] in Hlast. rewrite Hlast by (vm_compute; discriminate).
      vm_compute. reflexivity.
    + rewrite Hq. vm_compute. reflexivity.
Defined.

End EvaluatorClaims.

(** ** The linter handler *)

Module LinterClaims.
Import Spec Linter StringFacts Examples.

Lemma lint_score_formula (e w : Z) : lint_score e w = Z.max 0 (100 - 10 * e - 2 * w).
Proof. unfold lint_score. f_equal. lia. Qed.

Lemma lint_score_range (e w : Z) : 0 <= e -> 0 <= w -> 0 <= lint_score e w <= 100.
Proof. unfold lint_score. lia. Qed.

Lemma is_blank_false (s : jstr) : is_blank s = false <-> ~ whitespace_only s.
Proof.
  rewrite <- is_blank_spec. destruct (is_blank s); split; congruence.
Qed.

(** C4, as the specification words it, fails for the ESLint-based handler:
    when ESLint throws, the result reports no error and no warning and its
    score is 0, not 100. *)
Lemma C4_counterexample :
  ESLintBased.handleLinter globals_eslint_down (str "const x = 1;") (JObj []) env_a
  = Returned {| score := num_of_Z 0;
                details := lint_details 0 0 0 [];
                error := Some (str "Failed to load ESLint") |}
  /\ num_of_Z 0 <> num_of_Z (Z.max 0 (100 - 10 * 0 - 2 * 0)).
Proof. split; [vm_compute; reflexivity | vm_compute; discriminate]. Qed.

(** C4 (amended). Whenever linting completes, the score is
    [max(0, 100 - 10 * errorCount - 2 * warningCount)]; the checker that
    runs in the Workers runtime completes on every source text and
    configuration, the ESLint-based handler whenever ESLint returns, and
    when ESLint throws its result is score 0 with the message of the
    exception. Every result has a score between 0 and 100, and white space
    only (or empty) input gives exactly 100 with zero errors and zero
    warnings. *)
Theorem C4_linter_score (G : Globals) (sourceCode : jstr) (config : JsValue) (env : Env) :
  (exists r,
     Basic.handleLinter G sourceCode config env = Returned r
     /\ error r = None
     /\ (exists z, score r = num_of_Z z /\ 0 <= z <= 100)
     /\ (whitespace_only sourceCode -> r = empty_source_result)
     /\ (~ whitespace_only sourceCode ->
         let errorCount := Z.of_nat (length (fst (Basic.performBasicLinting G sourceCode))) in
         let warningCount := Z.of_nat (length (snd (Basic.performBasicLinting G sourceCode))) in
         score r = num_of_Z (Z.max 0 (100 - 10 * errorCount - 2 * warningCount))
         /\ detail r (str "errors") = jnum_Z errorCount
         /\ detail r (str "warnings") = jnum_Z warningCount))
  /\ (exists r,
       ESLintBased.handleLinter G sourceCode config env = Returned r
       /\ (exists z, score r = num_of_Z z /\ 0 <= z <= 100)
       /\ (whitespace_only sourceCode -> r = empty_source_result)
       /\ (~ whitespace_only sourceCode ->
           forall rules results,
             get_prop config (str "rules") = Returned rules ->
             ESLint_lintText G rules sourceCode = Returned results ->
             let errorCount := Z.of_nat (from_option errorCount 0%nat (head results)) in
             let warningCount := Z.of_nat (from_option warningCount 0%nat (head results)) in
             score r = num_of_Z (Z.max 0 (100 - 10 * errorCount - 2 * warningCount))
             /\ error r = None
             /\ detail r (str "errors") = jnum_Z errorCount
             /\ detail r (str "warnings") = jnum_Z warningCount)
       /\ (~ whitespace_only sourceCode ->
           forall rules e,
             get_prop config (str "rules") = Returned rules ->
             ESLint_lintText G rules sourceCode = Thrown e ->
             r = caught_result e))
  /\ score empty_source_result = num_of_Z 100
  /\ detail empty_source_result (str "errors") = jnum_Z 0
  /\ detail empty_source_result (str "warnings") = jnum_Z 0.
Proof.
  split; [| split; [| repeat split; reflexivity]].
  - (* the built-in checker *)
    unfold Basic.handleLinter. destruct (is_blank sourceCode) eqn:Hb.
    + apply is_blank_spec in Hb. exists empty_source_result. simpl.
      repeat match goal with |- _ /\ _ => split end; try reflexivity.
      * exists 100. split; [reflexivity | lia].
      * tauto.
    + apply is_blank_false in Hb.
      destruct (Basic.performBasicLinting G sourceCode) as [errors warnings]. simpl.
      eexists. split; [reflexivity |]. simpl.
      repeat match goal with |- _ /\ _ => split end; try reflexivity.
      * eexists. split; [reflexivity | apply lint_score_range; lia].
      * tauto.
      * intros _. now rewrite lint_score_formula.
  - (* the ESLint-based handler *)
    unfold ESLintBased.handleLinter. destruct (is_blank sourceCode) eqn:Hb.
    + apply is_blank_spec in Hb. exists empty_source_result. simpl.
      repeat match goal with |- _ /\ _ => split end; try reflexivity; try tauto.
      exists 100. split; [reflexivity | lia].
    + apply is_blank_false in Hb.
      destruct (get_prop config (str "rules")) as [rules | e0] eqn:Hrules; simpl.
      * destruct (ESLint_lintText G rules sourceCode) as [results | e1] eqn:Hlint; simpl.
        -- eexists. split; [reflexivity |]. simpl.
           repeat match goal with |- _ /\ _ => split end.
           ++ eexists. split; [reflexivity | apply lint_score_range; lia].
           ++ tauto.
           ++ intros _ rules' results' [= <-] Hl. rewrite Hlint in Hl.
              injection Hl as <-. rewrite lint_score_formula.
              repeat split; reflexivity.
           ++ intros _ rules' e [= <-] Hl. congruence.
        -- exists (caught_result e1). repeat match goal with |- _ /\ _ => split end.
           ++ reflexivity.
           ++ exists 0. split; [reflexivity | lia].
           ++ tauto.
           ++ intros _ rules' results' [= <-] Hl. congruence.
           ++ intros _ rules' e [= <-] Hl. congruence.
      * exists (caught_result e0). repeat match goal with |- _ /\ _ => split end.
        -- reflexivity.
        -- exists 0. split; [reflexivity | lia].
        -- tauto.
        -- intros _ rules' results' [=].
        -- intros _ rules' e [=].
Qed.

(** Two errors and three warnings cost 26 points; the white space only
    source of the unit test scores 100. *)
Lemma C4_witness :
  (exists r,
     ESLintBased.handleLinter globals_eslint_2_3 (str "const x = 1") (JObj []) env_a
     = Returned r
     /\ score r = num_of_Z 74)
  /\ Basic.handleLinter globals_plain [32; 32; 10; 9; 32]%N (JObj []) env_a
     = Returned empty_source_result.
Proof.
  destruct (C4_linter_score globals_eslint_2_3 (str "const x = 1") (JObj []) env_a)
    as (_ & (r & Hr & _ & _ & Hscore & _) & _).
  destruct (C4_linter_score globals_plain [32; 32; 10; 9; 32]%N (JObj []) env_a)
    as ((r' & Hr' & _ & _ & Hblank & _) & _).
  split.
  - exists r. split; [exact Hr |].
    destruct (Hscore) with (rules := JUndefined)
      (results := [ {| errorCount := 2%nat; warningCount := 3%nat; messages := [] |} ])
      as (Hs & _).
    + rewrite <- is_blank_false. reflexivity.
    + reflexivity.
    + reflexivity.
    + exact Hs.
  - rewrite Hr'. f_equal. apply Hblank.
    repeat constructor.
Defined.

End LinterClaims.

(** ** The model handler *)

Module LLMClaims.
Import Spec LLM FloatFacts StringFacts Examples.

Lemma decimal_value_nonneg (ds : jstr) : 0 <= decimal_value ds.
Proof.
  unfold decimal_value.
  assert (H : forall acc, 0 <= acc ->
            0 <= fold_left (fun acc c => 10 * acc + digit_value c) ds acc).
  { induction ds as [|d ds IH]; intros acc Hacc; simpl; [exact Hacc |].
    apply IH. unfold digit_value. lia. }
  apply H. lia.
Qed.

(** [Math.min(100, Math.max(0, x))] is between 0 and 100 for every number
    but NaN. *)
Lemma clamp_score_range (x : number) :
  is_nan x = false ->
  num_le (num_of_Z 0) (clamp_score x) = true
  /\ num_le (clamp_score x) (num_of_Z 100) = true.
Proof.
  intros Hx. unfold clamp_score.
  destruct (js_max_lower (num_of_Z 0) x eq_refl Hx) as (Hlow & Hnan).
  destruct (js_min_upper (num_of_Z 100) (js_max (num_of_Z 0) x) eq_refl Hnan)
    as (Hup & _ & Hmin).
  split; [apply Hmin; [reflexivity | exact Hlow] | exact Hup].
Qed.

Lemma fallback_score_range (re : regex) (text : jstr) :
  num_le (num_of_Z 0) (fallback_score_with re text) = true
  /\ num_le (fallback_score_with re text) (num_of_Z 100) = true.
Proof.
  unfold fallback_score_with. destruct (match_first re text) as [groups|].
  - apply clamp_score_range, num_of_Z_not_nan, decimal_value_nonneg.
  - split; reflexivity.
Qed.

Lemma fallback_result_score (text : jstr) :
  score (fallback_result text) = fallback_score_with score_re text.
Proof.
  unfold fallback_result, fallback_score_with. simpl.
  destruct (match_first score_re text); reflexivity.
Qed.

Lemma extract_reply_text (response : JsValue) (text : jstr) :
  reply_text response text -> extract_text response = Returned (JStr text).
Proof.
  intros [-> | (props & -> & Hp)]; [reflexivity |].
  unfold extract_text, has_own, get_prop. rewrite Hp.
  rewrite bool_decide_eq_true_2 by eauto. reflexivity.
Qed.

(** C5, as the specification words it, fails: the expression of the code
    also accepts quotes around the key, a missing colon and another letter
    case. On a reply that is JSON cut short (an object with the score 85
    that ends in the middle of its reasoning), the handler returns 85, where
    the expression of the specification finds no score and would give 50. *)
Lemma C5_counterexample :
  (exists r,
     handleLLMEvaluation globals_plain (str "const x = 1;") (JObj [])
       (env_replying (JStr reply_cut_short)) = Returned r
     /\ score r = num_of_Z 85)
  /\ JSON_parse globals_plain (cleanResponse reply_cut_short) = None
  /\ fallback_score_with spec_score_re reply_cut_short = num_of_Z 50.
Proof.
  split; [eexists; split; vm_compute; reflexivity |].
  split; vm_compute; reflexivity.
Qed.

(** C5 (amended). The handler never throws, on any reply. When the model
    replies with a text, fenced code markers are stripped and the text is
    parsed as JSON; a numeric [score] of the parsed reply is clamped to
    [0, 100]. When parsing fails, the score is read off the raw text with
    [/score[Q\s]*:?\s*(\d+)/i] (Q the double quote) and limited to 100, it is
    50 when that finds nothing, it lies between 0 and 100, and the details
    carry a [parseError]. *)
Theorem C5_llm_layered_fallback
  (G : Globals) (sourceCode : jstr) (config : JsValue) (env : Env) :
  (exists r, handleLLMEvaluation G sourceCode config env = Returned r)
  /\ forall cprops response text,
       config = JObj cprops ->
       model_call G env cprops sourceCode = Returned response ->
       reply_text response text ->
       (forall parsed x,
          JSON_parse G (cleanResponse text) = Some parsed ->
          get_prop parsed (str "score") = Returned (JNum x) ->
          is_nan x = false ->
          exists r,
            handleLLMEvaluation G sourceCode config env = Returned r
            /\ score r = clamp_score x
            /\ num_le (num_of_Z 0) (score r) = true
            /\ num_le (score r) (num_of_Z 100) = true
            /\ error r = None)
       /\ (JSON_parse G (cleanResponse text) = None ->
           exists r,
             handleLLMEvaluation G sourceCode config env = Returned r
             /\ score r = fallback_score_with score_re text
             /\ (match_first score_re text = None -> score r = num_of_Z 50)
             /\ num_le (num_of_Z 0) (score r) = true
             /\ num_le (score r) (num_of_Z 100) = true
             /\ detail r (str "parseError") = JStr (str "Failed to parse JSON response")
             /\ error r = None).
Proof.
  split.
  - unfold handleLLMEvaluation, try_catch.
    match goal with |- exists r, match ?b with _ => _ end = _ => destruct b end; eauto.
  - intros cprops response text -> Hcall Hreply.
    assert (Hrun : handleLLMEvaluation G sourceCode (JObj cprops) env
              = try_catch
                  (match JSON_parse G (cleanResponse text) with
                   | None => Returned (fallback_result text)
                   | Some parsedResponse => parsed_result parsedResponse text
                   end)
                  (fun e =>
                     Returned {| score := num_of_Z 0; details := JObj [];
                                 error := Some (message_or e (str "LLM evaluation failed")) |})).
    { unfold handleLLMEvaluation. simpl.
      unfold model_call, field in Hcall. rewrite Hcall. simpl.
      rewrite (extract_reply_text _ _ Hreply). reflexivity. }
    split.
    + intros parsed x Hparse Hscore Hx. rewrite Hrun, Hparse.
      assert (Hobj : exists pprops, parsed = JObj pprops).
      { destruct parsed; simpl in Hscore; try discriminate. eauto. }
      destruct Hobj as (pprops & ->).
      unfold parsed_result. rewrite Hscore. simpl.
      eexists. split; [reflexivity |]. simpl.
      destruct (clamp_score_range x Hx) as (H0 & H100).
      repeat split; assumption.
    + intros Hparse. rewrite Hrun, Hparse. simpl.
      exists (fallback_result text). split; [reflexivity |].
      rewrite fallback_result_score.
      destruct (fallback_score_range score_re text) as (H0 & H100).
      repeat match goal with |- _ /\ _ => split end; try assumption; try reflexivity.
      intros Hnone. unfold fallback_score_with. now rewrite Hnone.
Qed.

(** The unit tests of the handler: a reply whose score is 150 is clamped to
    100; a reply that is not JSON and contains "score: 65" gives 65, one
    without a score gives 50; and the markers of a fenced block are
    removed. *)
Lemma C5_witness :
  (exists r,
     handleLLMEvaluation globals_150 (str "const x = 1;") (JObj [])
       (env_replying (JObj [ (str "response", JStr reply_150) ])) = Returned r
     /\ score r = num_of_Z 100)
  /\ (exists r,
       handleLLMEvaluation globals_plain (str "const x = 1;") (JObj [])
         (env_replying (JStr (str "I would give it a score: 65 out of 100."))) = Returned r
       /\ score r = num_of_Z 65)
  /\ (exists r,
       handleLLMEvaluation globals_plain (str "const x = 1;") (JObj [])
         (env_replying (JStr (str "I cannot provide a numerical score."))) = Returned r
       /\ score r = num_of_Z 50)
  /\ cleanResponse (str "```json" ++ [10%N] ++ reply_150 ++ [10%N] ++ str "```") = reply_150.
Proof.
  split; [| split; [| split]].
  - destruct (C5_llm_layered_fallback globals_150 (str "const x = 1;") (JObj [])
                (env_replying (JObj [ (str "response", JStr reply_150) ]))) as (_ & H).
    destruct (H [] (JObj [ (str "response", JStr reply_150) ]) reply_150 eq_refl eq_refl)
      as (Hjson & _).
    { right. eexists. split; reflexivity. }
    destruct (Hjson parsed_150 (num_of_Z 150)) as (r & Hr & Hs & _).
    + vm_compute. reflexivity.
    + reflexivity.
    + reflexivity.
    + exists r. split; [exact Hr |]. rewrite Hs. vm_compute. reflexivity.
  - destruct (C5_llm_layered_fallback globals_plain (str "const x = 1;") (JObj [])
                (env_replying (JStr (str "I would give it a score: 65 out of 100."))))
      as (_ & H).
    destruct (H [] _ (str "I would give it a score: 65 out of 100.") eq_refl eq_refl)
      as (_ & Hfall).
    { now left. }
    destruct Hfall as (r & Hr & Hs & _); [reflexivity |].
    exists r. split; [exact Hr |]. rewrite Hs. vm_compute. reflexivity.
  - destruct (C5_llm_layered_fallback globals_plain (str "const x = 1;") (JObj [])
                (env_replying (JStr (str "I cannot provide a numerical score."))))
      as (_ & H).
    destruct (H [] _ (str "I cannot provide a numerical score.") eq_refl eq_refl)
      as (_ & Hfall).
    { now left. }
    destruct Hfall as (r & Hr & _ & H50 & _); [reflexivity |].
    exists r. split; [exact Hr |]. apply H50. vm_compute. reflexivity.
  - vm_compute. reflexivity.
Defined.

End LLMClaims.

(** ** The Generator *)

Module GeneratorClaims.
Import Spec Generator GeneratorSpec GeneratorExamples StringFacts.

Lemma missing_required_object (props : list (jstr * JsValue)) :
  missing_required (JObj props) = Returned (negb (all_usable props)).
Proof.
  unfold missing_required, all_usable, required_fields, usable. simpl.
  fold (field props (str "orchestrator_id")) (field props (str "artifact_id"))
       (field props (str "meta_prompt")) (field props (str "output_r2_path")).
  destruct (truthy (field props (str "orchestrator_id"))); [simpl | reflexivity].
  destruct (truthy (field props (str "artifact_id"))); [simpl | reflexivity].
  destruct (truthy (field props (str "meta_prompt"))); [simpl | reflexivity].
  now rewrite andb_true_r.
Qed.

Lemma all_usable_false (props : list (jstr * JsValue)) (k : jstr) :
  k ∈ required_fields -> usable props k = false -> all_usable props = false.
Proof.
  intros Hin Hk. unfold all_usable.
  destruct (forallb (usable props) required_fields) eqn:Hall; [| reflexivity].
  rewrite forallb_forall in Hall. apply list_elem_of_In in Hin. rewrite Hall in Hk; congruence.
Qed.

Lemma assoc_get_without (k : jstr) (props : list (jstr * JsValue)) :
  assoc_get k (without k props) = None.
Proof.
  unfold without. induction props as [|[k' v] props IH]; [reflexivity |].
  rewrite filter_cons. simpl. destruct (decide (k' <> k)) as [Hne|_]; [| exact IH].
  simpl. rewrite (proj2 (jstr_eqb_neq k k')) by congruence. exact IH.
Qed.

Lemma touch_length_truthy (v : JsValue) : truthy v = true -> touch_length v = Returned tt.
Proof. destruct v; simpl; congruence. Qed.

Lemma get_prop_truthy (v : JsValue) (k : jstr) :
  truthy v = true -> exists x, get_prop v k = Returned x.
Proof. destruct v; simpl; try discriminate; eauto. Qed.

Lemma touch_length_content (env : Env) (reply content : JsValue) (usage : CostMetrics) :
  extract_content env reply = Returned (content, usage) -> touch_length content = Returned tt.
Proof.
  assert (Hor : forall r s, touch_length (js_or r (JStr s)) = Returned tt).
  { intros r s. unfold js_or. destruct (truthy r) eqn:Hr; [| reflexivity].
    now apply touch_length_truthy. }
  unfold extract_content. destruct reply as [| | | | s | xs | ps]; try discriminate.
  - intros Heq. inversion Heq. reflexivity.
  - simpl. intros Heq. inversion Heq. reflexivity.
  - simpl. destruct (truthy _) eqn:Hu.
    + destruct (get_prop_truthy _ (str "prompt_tokens") Hu) as [pt ->].
      destruct (get_prop_truthy _ (str "completion_tokens") Hu) as [ct ->].
      simpl. intros Heq. inversion Heq. apply Hor.
    + intros Heq. inversion Heq. apply Hor.
Qed.

(** The deferred job of an accepted request, step by step, once the
    orchestrator stub is found. *)
Lemma handleGeneration_steps (env : Env) (props : list (jstr * JsValue)) (stub : JsValue) :
  all_usable props = true ->
  ORCHESTRATOR_idFromString env (field props (str "orchestrator_id")) = Returned stub ->
  let meta_prompt := field props (str "meta_prompt") in
  let path := field props (str "output_r2_path") in
  let tr0 := [ Log (str "INFO") (str "Starting generation task");
               AiRun model_name meta_prompt ] in
  run (handleGeneration (JObj props) env)
  = match AI_run env model_name meta_prompt with
    | Thrown _ => report_failure env props stub tr0
    | Returned reply =>
        match extract_content env reply with
        | Thrown _ => report_failure env props stub tr0
        | Returned (content, usage) =>
            let tr1 := tr0 ++ [ Log (str "INFO") (str "AI generation completed");
                                R2Put path content ] in
            match R2_BUCKET_put env path content with
            | Thrown _ => report_failure env props stub tr1
            | Returned _ =>
                let tr2 := tr1 ++ [ Log (str "INFO") (str "Artifact written to R2");
                                    OrchestratorFetch stub url_report
                                      (success_report props usage) ] in
                match ORCHESTRATOR_fetch env stub url_report (success_report props usage) with
                | Thrown _ => report_failure env props stub tr2
                | Returned _ =>
                    (Returned tt,
                     tr2 ++ [ Log (str "INFO") (str "Success reported to orchestrator") ])
                end
            end
        end
    end.
Proof.
  intros Hacc Hid meta_prompt path tr0. subst meta_prompt path tr0.
  assert (Hprompt : touch_length (field props (str "meta_prompt")) = Returned tt).
  { apply touch_length_truthy. unfold all_usable, required_fields in Hacc.
    simpl in Hacc. unfold usable in Hacc.
    repeat (apply andb_prop in Hacc as [? Hacc]). assumption. }
  cbv beta iota zeta delta [run handleGeneration report_failure success_report field
    bind lift try_catch_M call emit info log_error get_prop].
  destruct (ORCHESTRATOR_idFromString env _) as [a | e0] eqn:E.
  2: { discriminate Hid. }
  injection Hid as ->. clear E. cbn beta iota.
  destruct (touch_length _) as [[] | e0]; [| discriminate Hprompt]. cbn beta iota.
  destruct (AI_run env model_name _) as [reply | e1]; cbn beta iota.
  2: { destruct (ORCHESTRATOR_fetch env stub url_report _) as [[]|]; reflexivity. }
  destruct (extract_content env reply) as [[content usage] | e2] eqn:Hex; cbn beta iota.
  2: { destruct (ORCHESTRATOR_fetch env stub url_report _) as [[]|]; reflexivity. }
  rewrite (touch_length_content _ _ _ _ Hex). cbn beta iota.
  destruct (R2_BUCKET_put env _ content) as [[] | e3]; cbn beta iota.
  2: { destruct (ORCHESTRATOR_fetch env stub url_report _) as [[]|]; reflexivity. }
  destruct (ORCHESTRATOR_fetch env stub url_report
              {| artifact_id := _; r2_path := _; status := SUCCESS; cost_metrics := usage |})
    as [[] | e4]; cbn beta iota.
  - reflexivity.
  - destruct (ORCHESTRATOR_fetch env stub url_report _) as [[]|]; reflexivity.
Qed.

Lemma report_failure_spec (env : Env) (props : list (jstr * JsValue)) (stub : JsValue)
  (tr : list Event) :
  exists tr',
    report_failure env props stub tr = (Returned tt, tr')
    /\ last (orchestrator_posts tr') = Some (failure_report (field props (str "artifact_id")))
    /\ OrchestratorFetch stub url_report (failure_report (field props (str "artifact_id")))
         ∈ tr'
    /\ (forall e, ORCHESTRATOR_fetch env stub url_report
                    (failure_report (field props (str "artifact_id"))) = Thrown e ->
         last tr' = Some (Log (str "ERROR") (str "Failed to report failure to orchestrator"))).
Proof.
  unfold report_failure.
  destruct (ORCHESTRATOR_fetch env stub url_report _) as [u | e] eqn:Hf;
    eexists; (split; [reflexivity |]); (split; [| split]).
  - unfold orchestrator_posts. rewrite !omap_app. simpl. rewrite app_nil_r. apply last_snoc.
  - rewrite !elem_of_app. left. right. repeat constructor.
  - intros e'. discriminate.
  - unfold orchestrator_posts. rewrite !omap_app. simpl. rewrite app_nil_r. apply last_snoc.
  - rewrite !elem_of_app. left. right. repeat constructor.
  - intros e' _. apply last_snoc.
Qed.

Lemma all_usable_prompt (props : list (jstr * JsValue)) :
  all_usable props = true -> touch_length (field props (str "meta_prompt")) = Returned tt.
Proof.
  intros Hacc. apply touch_length_truthy. unfold all_usable, required_fields in Hacc.
  simpl in Hacc. unfold usable in Hacc.
  repeat (apply andb_prop in Hacc as [? Hacc]). assumption.
Qed.

(** The start of an accepted job, event by event. *)
Lemma handleGeneration_sync_start (env : Env) (props : list (jstr * JsValue)) :
  all_usable props = true ->
  snd (run (handleGeneration_sync (JObj props) env)) = job_start env props.
Proof.
  intros Hacc. pose proof (all_usable_prompt props Hacc) as Hlen.
  unfold handleGeneration_sync, job_start, run.
  cbv [bind lift try_catch_M call_then_suspend emit info log_error get_prop].
  fold (field props (str "orchestrator_id")) (field props (str "artifact_id"))
       (field props (str "meta_prompt")) (field props (str "output_r2_path")).
  destruct (ORCHESTRATOR_idFromString env (field props (str "orchestrator_id")))
    as [stub|e0]; [| reflexivity].
  rewrite Hlen. cbn [fst snd app].
  destruct (AI_run env model_name (field props (str "meta_prompt"))) as [reply|e1];
    [reflexivity |].
  destruct (AI_run_in_call env model_name (field props (str "meta_prompt")));
    [| reflexivity].
  cbn [fst snd app].
  destruct (ORCHESTRATOR_fetch env stub url_report
              (failure_report (field props (str "artifact_id")))) as [[]|e2];
    [reflexivity |].
  destruct (ORCHESTRATOR_fetch_in_call env stub url_report
              (failure_report (field props (str "artifact_id")))); reflexivity.
Qed.


Lemma job_start_early (env : Env) (props : list (jstr * JsValue)) :
  Forall early_event (job_start env props).
Proof.
  unfold job_start.
  destruct (ORCHESTRATOR_idFromString env _) as [stub|e0]; [| repeat constructor].
  destruct (AI_run env model_name _) as [reply|e1]; [repeat constructor |].
  destruct (AI_run_in_call env model_name _); [| repeat constructor].
  destruct (ORCHESTRATOR_fetch env stub url_report _) as [[]|e2];
    [repeat constructor |].
  destruct (ORCHESTRATOR_fetch_in_call env stub url_report _); repeat constructor.
Qed.

Lemma fetch_object (request : Request) (env : Env) (props : list (jstr * JsValue)) :
  method request = str "POST" -> json request = Returned (JObj props) ->
  run (fetch request env)
  = if all_usable props
    then (Returned response_202, job_start env props ++ [WaitUntil (JObj props)])
    else (Returned response_missing, []).
Proof.
  intros Hm Hj. unfold fetch, run. rewrite Hm, jstr_eqb_refl. cbn [negb].
  unfold try_catch_M, bind, lift. rewrite Hj, missing_required_object.
  destruct (all_usable props) eqn:Hacc; [| reflexivity].
  cbn [negb]. unfold async_call, emit, ret. cbn [fst snd].
  change (handleGeneration_sync (JObj props) env [])
    with (run (handleGeneration_sync (JObj props) env)).
  now rewrite (handleGeneration_sync_start env props Hacc).
Qed.




(** C10. A POST whose JSON body has one of the four required fields with a
    falsy value is answered with 400 "Missing required fields", without
    deferring any work: the very answer the same body without that field
    gets. *)
Theorem C10_falsy_field_rejected
  (request : Request) (env : Env) (props : list (jstr * JsValue)) (k : jstr) (v : JsValue) :
  method request = str "POST" ->
  json request = Returned (JObj props) ->
  k ∈ required_fields ->
  assoc_get k props = Some v ->
  truthy v = false ->
  run (fetch request env) = (Returned response_missing, [])
  /\ assoc_get k (without k props) = None
  /\ run (fetch (post_body (JObj (without k props))) env) = run (fetch request env).
Proof.
  intros Hm Hj Hin Hk Hv.
  assert (H1 : run (fetch request env) = (Returned response_missing, [])).
  { rewrite (fetch_object _ _ _ Hm Hj), (all_usable_false props k Hin); [reflexivity |].
    unfold usable, field. now rewrite Hk. }
  split; [exact H1 |]. split; [apply assoc_get_without |].
  rewrite H1, (fetch_object (post_body (JObj (without k props))) env (without k props) eq_refl eq_refl).
  rewrite (all_usable_false _ k Hin); [reflexivity |].
  unfold usable, field. now rewrite assoc_get_without.
Qed.

(** An empty meta-prompt. *)
Lemma C10_witness :
  run (fetch (post_body (JObj payload_empty_prompt)) env_ok) = (Returned response_missing, [])
  /\ run (fetch (post_body (JObj (without (str "meta_prompt") payload_empty_prompt))) env_ok)
     = run (fetch (post_body (JObj payload_empty_prompt)) env_ok).
Proof.
  destruct (C10_falsy_field_rejected (post_body (JObj payload_empty_prompt)) env_ok
              payload_empty_prompt (str "meta_prompt") (JStr []) eq_refl eq_refl)
    as (H1 & _ & H2).
  - unfold required_fields. repeat constructor.
  - vm_compute. reflexivity.
  - reflexivity.
  - split; assumption.
Defined.

(** C7. For an accepted job (its four fields are truthy), when the model
    call, the blob write or the success callback fails, the job posts to the
    orchestrator, as its last report, the failure report: status FAILED, a
    null [r2_path], zero prompt and completion tokens. The job itself does
    not fail: when posting that report throws, the exception is logged and
    swallowed. *)
Theorem C7_failure_report
  (env : Env) (props : list (jstr * JsValue)) (stub : JsValue) :
  all_usable props = true ->
  step_fails env props stub ->
  let report := failure_report (field props (str "artifact_id")) in
  exists tr,
    run (handleGeneration (JObj props) env) = (Returned tt, tr)
    /\ last (orchestrator_posts tr) = Some report
    /\ OrchestratorFetch stub url_report report ∈ tr
    /\ (forall e, ORCHESTRATOR_fetch env stub url_report report = Thrown e ->
         last tr = Some (Log (str "ERROR") (str "Failed to report failure to orchestrator")))
    /\ status report = FAILED
    /\ r2_path report = JNull
    /\ cost_metrics report
       = {| prompt_tokens := jnum_Z 0; completion_tokens := jnum_Z 0 |}.
Proof.
  intros Hacc Hfail report.
  assert (Hid : ORCHESTRATOR_idFromString env (field props (str "orchestrator_id"))
                = Returned stub) by (destruct Hfail; assumption).
  rewrite (handleGeneration_steps env props stub Hacc Hid).
  assert (Hrf : forall tr0, exists tr,
            report_failure env props stub tr0 = (Returned tt, tr)
            /\ last (orchestrator_posts tr) = Some report
            /\ OrchestratorFetch stub url_report report ∈ tr
            /\ (forall e, ORCHESTRATOR_fetch env stub url_report report = Thrown e ->
                 last tr = Some (Log (str "ERROR")
                                   (str "Failed to report failure to orchestrator")))
            /\ status report = FAILED
            /\ r2_path report = JNull
            /\ cost_metrics report
               = {| prompt_tokens := jnum_Z 0; completion_tokens := jnum_Z 0 |}).
  { intros tr0. destruct (report_failure_spec env props stub tr0) as (tr & H1 & H2 & H3 & H4).
    exists tr. repeat split; assumption. }
  destruct Hfail as [e _ H1 | reply e _ H1 H2 | reply content usage e _ H1 H2 H3
                    | reply content usage e _ H1 H2 H3 H4].
  - rewrite H1. apply Hrf.
  - rewrite H1, H2. apply Hrf.
  - rewrite H1, H2, H3. apply Hrf.
  - rewrite H1, H2, H3. cbv zeta. rewrite H4. apply Hrf.
Qed.

(** The blob write fails and so does the post of the failure report: the
    job still ends normally, after having tried to post the report. *)
Lemma C7_witness :
  exists tr,
    run (handleGeneration (JObj payload_valid) env_all_down) = (Returned tt, tr)
    /\ OrchestratorFetch (JStr (str "orchestrator-1")) url_report
         (failure_report (JStr (str "w1-a1"))) ∈ tr
    /\ last tr = Some (Log (str "ERROR") (str "Failed to report failure to orchestrator")).
Proof.
  destruct (C7_failure_report env_all_down payload_valid (JStr (str "orchestrator-1"))
              eq_refl)
    as (tr & Hrun & _ & Hin & Hlast & _).
  - eapply blob_write_throws; reflexivity.
  - exists tr. split; [exact Hrun |]. split; [exact Hin |].
    eapply Hlast. reflexivity.
Defined.

End GeneratorClaims.

(** ** The unit tests of the repository, replayed on the model *)

Module UnitTests.
Import Spec Evaluator Examples.

(** "should reject GET requests with 405" *)
Example evaluator_get_405 :
  fetch globals_plain {| method := str "GET"; json := Thrown (ThrownError []) |} env_a
  = {| status := 405; content_type := None; body := BodyText (str "Method not allowed") |}.
Proof. reflexivity. Qed.

(** "should handle invalid JSON with 500 error" *)
Example evaluator_invalid_json_500 :
  status (fetch globals_plain
            {| method := str "POST"; json := Thrown (ThrownError (str "Unexpected token")) |}
            env_a) = 500.
Proof. reflexivity. Qed.

(** "should return 404 when artifact not found in R2" *)
Example evaluator_missing_artifact_404 :
  fetch globals_plain (post (str "nonexistent.ts") {| tests := [] |}) env_a
  = {| status := 404; content_type := json_header;
       body := BodyNotFound (str "Artifact not found: nonexistent.ts") |}.
Proof. vm_compute. reflexivity. Qed.

(** "should execute multiple tests in parallel": (90 * 0.4) + (85 * 0.6) = 87 *)
Example evaluator_weighted_87 :
  score_of (fetch_with (handlers_of (resolves_with 90) (resolves_with 85))
              (post (str "test.ts") (two_tests num_0_4 num_0_6)) env_a)
  = Some (num_of_Z 87).
Proof. vm_compute. reflexivity. Qed.

(** "should calculate weighted average correctly": (20 + 64) / (0.2 + 0.8) = 84 *)
Example evaluator_weighted_84 :
  score_of (fetch_with (handlers_of (resolves_with 100) (resolves_with 80))
              (post (str "test.ts") (two_tests num_0_2 num_0_8)) env_a)
  = Some (num_of_Z 84).
Proof. vm_compute. reflexivity. Qed.

(** "should handle zero total weight gracefully" *)
Example evaluator_empty_scorecard :
  evaluation_of (fetch globals_plain (post (str "test.ts") {| tests := [] |}) env_a)
  = Some {| quality_score := num_of_Z 0; response_details := ∅ |}.
Proof. vm_compute. reflexivity. Qed.

(** "should continue with other tests when one handler fails":
    (0 * 0.5) + (75 * 0.5) = 37.5 *)
Example evaluator_partial_failure_37_5 :
  score_of (fetch_with handlers_linter_fails (post (str "test.ts") scorecard_05_05) env_a)
  = Some (num_div (num_of_Z 75) (num_of_Z 2)).
Proof. vm_compute. reflexivity. Qed.

(** "should handle R2 read errors" *)
Example evaluator_r2_read_error_500 :
  fetch globals_plain (post (str "test.ts") {| tests := [] |})
    {| R2_BUCKET_get := fun _ => Returned (Some (Thrown (ThrownError (str "R2 read failed"))));
       R2_BUCKET_get_undefined := Returned None;
       AI_run := fun _ _ => Returned JNull |}
  = {| status := 500; content_type := json_header;
       body := BodyFailure (str "Evaluation failed for artifact") (str "R2 read failed") |}.
Proof. vm_compute. reflexivity. Qed.

(** "should handle missing scorecard in request body" *)
Example evaluator_missing_scorecard_500 :
  fetch globals_plain
    {| method := str "POST";
       json := Returned (JsonFields (Some (str "test.ts")) ScorecardUndefined) |} env_a
  = {| status := 500; content_type := json_header;
       body := BodyFailure (str "Evaluation failed for artifact")
                 (str "Cannot read properties of undefined (reading 'tests')") |}.
Proof. vm_compute. reflexivity. Qed.

(** A scorecard one test of which is [null]. *)
Example evaluator_null_test_500 :
  status (fetch globals_plain
            {| method := str "POST";
               json := Returned (JsonFields (Some (str "test.ts"))
                                   (ScorecardValue
                                      (TestsArray [ Some (test_of (str "linter") num_0_4);
                                                    None ]))) |} env_a)
  = 500.
Proof. vm_compute. reflexivity. Qed.

(** The linter on the whitespace-only source of its unit test. *)
Example linter_whitespace_only :
  Linter.Basic.handleLinter globals_plain
    (str "   " ++ [10%N] ++ str "  " ++ [9%N] ++ str "  " ++ [10%N] ++ str "  ")
    (JObj []) env_a
  = Returned Linter.empty_source_result.
Proof. vm_compute. reflexivity. Qed.

(** A missing semicolon and an unused variable cost two points each. *)
Example linter_two_warnings :
  score <$> (match Linter.Basic.handleLinter globals_plain (str "const unused = 5")
                     (JObj []) env_a with
             | Returned r => Some r
             | Thrown _ => None
             end)
  = Some (num_of_Z 96).
Proof. vm_compute. reflexivity. Qed.

Import LLM.

(** "should handle JSON response wrapped in markdown code blocks" *)
Example llm_fenced_75 :
  llm_score globals_tests
    (JObj [ (str "response", JStr (str "```json" ++ [10%N] ++ text_75 ++ [10%N] ++ str "```")) ])
  = Some (num_of_Z 75, None).
Proof. vm_compute. reflexivity. Qed.

(** "should clamp negative scores to 0" *)
Example llm_negative_clamped :
  llm_score globals_tests (JObj [ (str "response", JStr text_negative) ])
  = Some (num_of_Z 0, None).
Proof. vm_compute. reflexivity. Qed.

(** "should handle response with missing score field" and "... with
    non-numeric score" *)
Example llm_no_numeric_score_50 :
  llm_score globals_tests (JObj [ (str "response", JStr text_no_score) ])
  = Some (num_of_Z 50, None)
  /\ llm_score globals_tests (JObj [ (str "response", JStr text_excellent) ])
     = Some (num_of_Z 50, None).
Proof. split; vm_compute; reflexivity. Qed.

(** "should handle unexpected response formats" and "should handle
    null/undefined response" *)
Example llm_unexpected_formats :
  llm_score globals_tests (JStr (str "unexpected string response"))
  = Some (num_of_Z 50, None)
  /\ llm_score globals_tests JNull
     = Some (num_of_Z 0, Some (str "Unexpected response format from AI model")).
Proof. split; vm_compute; reflexivity. Qed.

(** "should handle AI service errors gracefully" *)
Example llm_service_error :
  handleLLMEvaluation globals_tests (str "const x = 1;") (JObj []) env_a
  = Returned {| score := num_of_Z 0; details := JObj [];
                error := Some (str "AI service unavailable") |}.
Proof. vm_compute. reflexivity. Qed.

Import Generator GeneratorSpec GeneratorExamples.

(** "should return 400 for malformed JSON payloads": the body "null" *)
Example generator_null_body :
  fst (run (Generator.fetch (post_body JNull) env_ok)) = Returned response_invalid.
Proof. vm_compute. reflexivity. Qed.

(** "should execute complete generation workflow via waitUntil": the report
    carries the path and the usage of the model. *)
Example generator_success_report :
  orchestrator_posts (snd (run (handleGeneration (JObj payload_valid) env_ok)))
  = [ {| artifact_id := JStr (str "w1-a1");
         r2_path := JStr (str "artifacts/wave-1/w1-a1.html");
         status := SUCCESS;
         cost_metrics := {| prompt_tokens := jnum_Z 8; completion_tokens := jnum_Z 12 |} |} ].
Proof. vm_compute. reflexivity. Qed.

(** "should handle malformed AI response object": the model resolves to 42 *)
Example generator_malformed_reply :
  orchestrator_posts
    (snd (run (handleGeneration (JObj payload_valid)
                 {| AI_run := fun _ _ => Returned (jnum_Z 42);
                    R2_BUCKET_put := R2_BUCKET_put env_ok;
                    ORCHESTRATOR_idFromString := ORCHESTRATOR_idFromString env_ok;
                    ORCHESTRATOR_fetch := ORCHESTRATOR_fetch env_ok;
                    String_of := String_of env_ok;
                    AI_run_in_call := AI_run_in_call env_ok;
                    ORCHESTRATOR_fetch_in_call := ORCHESTRATOR_fetch_in_call env_ok |})))
  = [ failure_report (JStr (str "w1-a1")) ].
Proof. vm_compute. reflexivity. Qed.

End UnitTests.

(** ** More about the Evaluator worker *)

Module EvaluatorMore.
Import Spec Evaluator EvaluatorSpec FloatFacts LoopFacts StringFacts Examples MoreExamples.








Lemma last_of_type_is_Some (k : jstr) (rs : list RanTest) :
  is_Some (last_of_type k rs) <-> k ∈ ran_type <$> rs.
Proof.
  unfold last_of_type. rewrite list_elem_of_fmap. split.
  - intros [t Ht]. apply last_Some in Ht as [l Hl].
    assert (Hin : t ∈ filter (fun t => ran_type t = k) rs)
      by (rewrite Hl; apply elem_of_app; right; left).
    apply list_elem_of_filter in Hin as [Hk Hin]. eauto.
  - intros (t & -> & Hin).
    destruct (last (filter (fun t0 => ran_type t0 = ran_type t) rs)) as [x|] eqn:Hl; [eauto |].
    apply last_None in Hl. exfalso.
    now apply (filter_nil_not_elem_of _ _ t Hl).
Qed.

Lemma size_list_to_set_le (l : list jstr) :
  (size (list_to_set l : gset jstr) <= length l)%nat.
Proof.
  induction l as [|x l IH]; simpl.
  - change (size (∅ : gset jstr) <= 0)%nat. now rewrite size_empty.
  - change (size ({[x]} ∪ list_to_set l : gset jstr) <= S (length l))%nat.
    rewrite size_union_alt, size_singleton.
    assert (size (list_to_set l ∖ {[x]} : gset jstr) <= size (list_to_set l : gset jstr))%nat
      by (apply subseteq_size, subseteq_difference_l; reflexivity).
    lia.
Qed.

(** X2. For a request whose artifact exists, the keys of [details] are exactly
    the test types the scorecard names, the name __proto__ apart, which is
    never a key: whatever the handlers do, a type other than __proto__ has
    an entry as soon as one test of that type is listed, and [details]
    never has more entries than the scorecard has tests. *)
Theorem X2_details_keys_are_scorecard_types
  (handlers : gmap jstr TestHandler) (request : Request) (env : Env)
  (req : EvaluationRequest) (sourceCode : jstr) :
  artifact_exists request env req sourceCode ->
  exists resp,
    evaluation_of (fetch_with handlers request env) = Some resp
    /\ dom (response_details resp) = scorecard_types (scorecard req) ∖ {[ proto_key ]}
    /\ (forall k, is_Some (response_details resp !! k)
                  <-> k <> proto_key
                      /\ exists t, t ∈ tests (scorecard req) /\ type t = k)
    /\ (size (response_details resp) <= length (tests (scorecard req)))%nat.
Proof.
  intros Hex. rewrite (fetch_existing _ _ _ _ _ Hex).
  set (rs := testResults handlers sourceCode env req).
  exists (combine rs). split; [reflexivity |].
  assert (Htypes : ran_type <$> rs = type <$> tests (scorecard req)).
  { subst rs. unfold testResults. rewrite <- list_fmap_compose.
    apply list_fmap_ext. intros i t _. simpl.
    unfold run_test. destruct (handlers !! type t) as [h|]; [destruct (h _ _ _) |]; reflexivity. }
  assert (Hkey : forall k, is_Some (response_details (combine rs) !! k)
                           <-> k <> proto_key /\ k ∈ type <$> tests (scorecard req)).
  { intros k. rewrite combine_details, <- Htypes, <- last_of_type_is_Some.
    destruct (decide (k = proto_key)) as [Hk | Hk].
    - split; [intros [x Hx]; discriminate Hx | intros [Hne _]; contradiction].
    - destruct (last_of_type k rs); simpl; split.
      + intros _. split; [exact Hk | eauto].
      + intros _. eauto.
      + intros [x Hx]. discriminate Hx.
      + intros [_ [x Hx]]. discriminate Hx. }
  assert (Hdom : dom (response_details (combine rs))
                 = scorecard_types (scorecard req) ∖ {[ proto_key ]}).
  { apply set_eq. intros k. rewrite elem_of_dom, Hkey, elem_of_difference.
    unfold scorecard_types. rewrite elem_of_list_to_set, elem_of_singleton. tauto. }
  split; [exact Hdom |]. split.
  - intros k. rewrite Hkey, list_elem_of_fmap. split.
    + intros (Hk & t & -> & Hin). split; [exact Hk | eauto].
    + intros (Hk & t & Hin & <-). split; [exact Hk | eauto].
  - rewrite <- size_dom, Hdom. unfold scorecard_types.
    etransitivity; [apply subseteq_size, subseteq_difference_l; reflexivity |].
    etransitivity; [apply size_list_to_set_le |]. now rewrite length_fmap.
Qed.

(** Two linter tests and one model test leave two entries; two tests of
    the type __proto__ leave none. *)
Lemma X2_witness :
  (exists resp,
     evaluation_of (fetch_with handlers_100_80 (post (str "test.ts") scorecard_three) env_a)
     = Some resp
     /\ (size (response_details resp) <= 3)%nat
     /\ is_Some (response_details resp !! str "linter"))
  /\ (exists resp,
       evaluation_of (fetch_with handlers_100_80
                        (post (str "test.ts") scorecard_proto_twice) env_a)
       = Some resp
       /\ dom (response_details resp) = ∅).
Proof.
  split.
  - destruct (X2_details_keys_are_scorecard_types handlers_100_80
                (post (str "test.ts") scorecard_three) env_a
                {| artifact_path := str "test.ts"; scorecard := scorecard_three |}
                (str "mock source code"))
      as (resp & Hr & _ & Hk & Hs).
    + repeat split; reflexivity.
    + exists resp. split; [exact Hr |]. split; [exact Hs |].
      apply Hk. split; [vm_compute; discriminate |].
      eexists. split; [left | reflexivity].
  - destruct (X2_details_keys_are_scorecard_types handlers_100_80
                (post (str "test.ts") scorecard_proto_twice) env_a
                {| artifact_path := str "test.ts"; scorecard := scorecard_proto_twice |}
                (str "mock source code"))
      as (resp & Hr & Hd & _).
    + repeat split; reflexivity.
    + exists resp. split; [exact Hr |]. rewrite Hd. vm_compute. reflexivity.
Defined.

Lemma num_mul_zero_finite (w : number) :
  pos_ok w -> is_finite w = true -> num_mul (num_of_Z 0) w = num_of_Z 0.
Proof. destruct w as [s|[]| |[] m e]; simpl; try tauto; discriminate. Qed.

Lemma num_div_zero_pos (x : number) : pos_ok x -> num_div (num_of_Z 0) x = num_of_Z 0.
Proof. destruct x as [s|[]| |[] m e]; simpl; tauto. Qed.

Lemma sum_weighted_scores_zero (rs : list RanTest) :
  Forall (fun t => score (ran_result t) = num_of_Z 0
                   /\ positive_weight (ran_weight t) = true
                   /\ is_finite (ran_weight t) = true) rs ->
  sum_weighted_scores rs = num_of_Z 0.
Proof.
  induction rs as [|t rs IH] using rev_ind; [reflexivity |].
  intros Hall. apply Forall_app in Hall as [Hrs Ht].
  apply Forall_inv in Ht as (Hs & Hp & Hf).
  apply positive_weight_pos_ok in Hp.
  rewrite sum_weighted_scores_snoc, IH, Hs, num_mul_zero_finite by assumption.
  reflexivity.
Qed.

(** X3. When every test of a request fails (its type has no handler, or its
    handler throws) and the weights are positive and finite, the response
    is still a 200 and its [quality_score] is 0: a total failure of the
    handlers scores zero, it does not give NaN nor an error. *)
Theorem X3_all_tests_failing_scores_zero
  (handlers : gmap jstr TestHandler) (request : Request) (env : Env)
  (req : EvaluationRequest) (sourceCode : jstr) :
  artifact_exists request env req sourceCode ->
  Forall (fun t => positive_weight (weight t) = true /\ is_finite (weight t) = true
                   /\ call_fails (handler_call handlers sourceCode env t))
         (tests (scorecard req)) ->
  exists resp,
    fetch_with handlers request env
    = {| status := 200; content_type := json_header; body := BodyEvaluation resp |}
    /\ quality_score resp = num_of_Z 0
    /\ (forall k r, response_details resp !! k = Some r ->
          score r = num_of_Z 0 /\ is_Some (error r)).
Proof.
  intros Hex Hall. rewrite (fetch_existing _ _ _ _ _ Hex).
  set (rs := testResults handlers sourceCode env req).
  assert (Hrs : Forall (fun t => score (ran_result t) = num_of_Z 0
                          /\ is_Some (error (ran_result t))
                          /\ positive_weight (ran_weight t) = true
                          /\ is_finite (ran_weight t) = true) rs).
  { subst rs. unfold testResults. apply Forall_map.
    eapply Forall_impl; [exact Hall |]. intros t (Hw & Hf & Hc). simpl.
    unfold handler_call in Hc. unfold run_test.
    destruct (handlers !! type t) as [h|]; simpl in *;
      [destruct (h sourceCode (config t) env); [contradiction |] |];
      simpl; (split; [reflexivity |]); (split; [eauto |]);
      (split; [exact Hw | exact Hf]). }
  exists (combine rs). split; [reflexivity |]. split.
  - rewrite combine_quality. unfold weighted_average.
    rewrite sum_weighted_scores_zero.
    2: { eapply Forall_impl; [exact Hrs |]. intros t (? & ? & ? & ?). auto. }
    destruct (num_gt (sum_weights rs) (num_of_Z 0)) eqn:Hgt; [| reflexivity].
    destruct rs as [|r0 rs'] eqn:Hrs0; [discriminate Hgt |].
    apply num_div_zero_pos, sum_weights_pos; [discriminate |].
    eapply Forall_impl; [exact Hrs |]. intros t (_ & _ & Hp & _). exact Hp.
  - intros k r Hk. rewrite combine_details in Hk.
    destruct (decide (k = proto_key)); [discriminate Hk |].
    destruct (last_of_type k rs) as [t|] eqn:Hl; [| discriminate].
    injection Hk as <-. unfold last_of_type in Hl. apply last_Some in Hl as [l Hl].
    assert (Hin : t ∈ filter (fun t => ran_type t = k) rs)
      by (rewrite Hl; apply elem_of_app; right; left).
    apply list_elem_of_filter in Hin as [_ Hin].
    rewrite Forall_forall in Hrs. destruct (Hrs t Hin) as (? & ? & _). auto.
Qed.

(** One test of an unregistered type and one whose handler rejects. *)
Lemma X3_witness :
  exists resp,
    fetch_with handlers_linter_fails (post (str "test.ts") scorecard_failing) env_a
    = {| status := 200; content_type := json_header; body := BodyEvaluation resp |}
    /\ quality_score resp = num_of_Z 0
    /\ (forall k r, response_details resp !! k = Some r ->
          score r = num_of_Z 0 /\ is_Some (error r)).
Proof.
  apply (X3_all_tests_failing_scores_zero handlers_linter_fails
           (post (str "test.ts") scorecard_failing) env_a
           {| artifact_path := str "test.ts"; scorecard := scorecard_failing |}
           (str "mock source code")).
  - repeat split; reflexivity.
  - repeat constructor; vm_compute; trivial.
Defined.

End EvaluatorMore.

Module GeneratorMore.
Import Spec Generator GeneratorSpec GeneratorTrace StringFacts.
Import GeneratorExamples GeneratorMoreExamples.

Lemma job_start_bounds (env : Env) (props : list (jstr * JsValue)) :
  blob_writes (job_start env props) = []
  /\ deferred (job_start env props) = []
  /\ (length (model_calls (job_start env props)) <= 1)%nat
  /\ (length (orchestrator_posts (job_start env props)) <= 1)%nat.
Proof.
  unfold job_start.
  destruct (ORCHESTRATOR_idFromString env _) as [stub|e0];
    [| repeat split; simpl; lia].
  destruct (AI_run env model_name _) as [reply|e1]; [repeat split; simpl; lia |].
  destruct (AI_run_in_call env model_name _); [| repeat split; simpl; lia].
  destruct (ORCHESTRATOR_fetch env stub url_report _) as [[]|e2];
    [repeat split; simpl; lia |].
  destruct (ORCHESTRATOR_fetch_in_call env stub url_report _); repeat split; simpl; lia.
Qed.

Lemma trace_then_deferred (pre : list Event) (payload : JsValue) :
  blob_writes (pre ++ [WaitUntil payload]) = blob_writes pre
  /\ model_calls (pre ++ [WaitUntil payload]) = model_calls pre
  /\ orchestrator_posts (pre ++ [WaitUntil payload]) = orchestrator_posts pre.
Proof.
  unfold blob_writes, model_calls, orchestrator_posts.
  rewrite !omap_app. simpl. now rewrite !app_nil_r.
Qed.

(** A request that is refused: the answer and the little that was done. *)
Ltac refused :=
  do 2 eexists; (split; [reflexivity |]);
  cbn [response_status body];
  repeat match goal with
         | |- _ /\ _ => split
         | |- _ <-> _ => split
         end;
  try reflexivity; try (now auto); try (intros H; discriminate H);
  try (simpl; lia);
  try (intros (_ & ? & H & _); discriminate H);
  try (intros _; repeat split; reflexivity).

(** X4. The Generator's [fetch] answers every request: it never throws, its
    status is 202, 400 or 405, and it is 202 exactly for a POST whose body
    is a JSON object with the four required fields truthy. Only then is a
    job handed to [waitUntil], with the body as it was received, after the
    job has run up to its first suspension. A request that is refused
    reaches neither the model nor the orchestrator. Before it answers, the
    handler never writes a blob and never reports a success; it calls the
    model at most once and the orchestrator at most once. *)
Theorem X4_fetch_always_answers (request : Request) (env : Env) :
  exists r tr,
    run (fetch request env) = (Returned r, tr)
    /\ (response_status r = 202 \/ response_status r = 400 \/ response_status r = 405)
    /\ (response_status r = 202 <->
        method request = str "POST"
        /\ exists props, json request = Returned (JObj props) /\ all_usable props = true)
    /\ (response_status r = 202 ->
        body r = None
        /\ exists payload,
             json request = Returned payload
             /\ tr = snd (run (handleGeneration_sync payload env)) ++ [WaitUntil payload]
             /\ Forall early_event (snd (run (handleGeneration_sync payload env))))
    /\ (response_status r <> 202 ->
        deferred tr = [] /\ model_calls tr = [] /\ orchestrator_posts tr = [])
    /\ blob_writes tr = []
    /\ (length (model_calls tr) <= 1)%nat
    /\ (length (orchestrator_posts tr) <= 1)%nat.
Proof.
  destruct (decide (method request = str "POST")) as [Hm | Hm].
  2: { unfold fetch, run. rewrite (proj2 (jstr_eqb_neq _ _) Hm). cbn [negb]. unfold ret.
       refused. }
  destruct (json request) as [payload|e] eqn:Hj.
  2: { unfold fetch, run. rewrite Hm, jstr_eqb_refl. cbn [negb].
       unfold try_catch_M, bind, lift. rewrite Hj.
       cbv [log_error emit ret app]. refused. }
  destruct payload as [| |b|n|s|xs|props];
    try (unfold fetch, run; rewrite Hm, jstr_eqb_refl; cbn [negb];
         unfold try_catch_M, bind, lift; rewrite Hj;
         cbv [missing_required get_prop mbind outcome_bind truthy negb
              log_error emit ret app];
         refused; fail).
  rewrite (GeneratorClaims.fetch_object request env props Hm Hj).
  destruct (all_usable props) eqn:Hacc.
  - destruct (job_start_bounds env props) as (Hblob & Hdef & Hmodel & Hposts).
    destruct (trace_then_deferred (job_start env props) (JObj props)) as (Eb & Em & Ep).
    do 2 eexists. split; [reflexivity |]. cbn [response_status body response_202].
    rewrite Eb, Em, Ep.
    repeat match goal with |- _ /\ _ => split end; try assumption; try reflexivity.
    + now left.
    + split; [intros _; split; [exact Hm | eauto] | reflexivity].
    + intros _. split; [reflexivity |]. exists (JObj props).
      rewrite (GeneratorClaims.handleGeneration_sync_start env props Hacc).
      split; [reflexivity |]. split; [reflexivity |]. apply GeneratorClaims.job_start_early.
    + intros Hne. now contradict Hne.
  - refused. intros (_ & props' & Hp & Hacc'). injection Hp as <-. congruence.
Qed.

(** X5. A POST whose JSON body is not an object is refused with 400, in one
    of two ways: the body [null] makes the validation itself throw, which is
    logged and answered with "Invalid request body"; a number, a string, a
    boolean or an array has none of the fields and is answered with
    "Missing required fields", without a log entry. *)
Theorem X5_non_object_body (request : Request) (env : Env) (payload : JsValue) :
  method request = str "POST" ->
  json request = Returned payload ->
  (forall props, payload <> JObj props) ->
  run (fetch request env)
  = if nullish payload
    then (Returned response_invalid, [Log (str "ERROR") (str "Invalid request body")])
    else (Returned response_missing, []).
Proof.
  intros Hm Hj Hobj. unfold fetch, run. rewrite Hm, jstr_eqb_refl. simpl.
  unfold try_catch_M, bind, lift. rewrite Hj.
  destruct payload; try reflexivity. exfalso. now eapply Hobj.
Qed.

Lemma X5_witness :
  run (fetch (post_body JNull) env_ok)
  = (Returned response_invalid, [Log (str "ERROR") (str "Invalid request body")])
  /\ run (fetch (post_body (JArr [JStr (str "orchestrator_id")])) env_ok)
     = (Returned response_missing, []).
Proof.
  split.
  - apply (X5_non_object_body (post_body JNull) env_ok JNull); [reflexivity .. |].
    intros props. discriminate.
  - apply (X5_non_object_body (post_body (JArr [JStr (str "orchestrator_id")])) env_ok
             (JArr [JStr (str "orchestrator_id")])); [reflexivity .. |].
    intros props. discriminate.
Defined.

(** X6. When every step of an accepted job works, the job runs the model
    once on the meta-prompt, writes the extracted content once under the
    requested path, and then posts exactly one report: status SUCCESS, the
    requested path as [r2_path], the artifact's id and the usage extracted
    from the reply. No failure report is posted. *)
Theorem X6_success_report
  (env : Env) (props : list (jstr * JsValue)) (stub reply content : JsValue)
  (usage : CostMetrics) :
  all_usable props = true ->
  ORCHESTRATOR_idFromString env (field props (str "orchestrator_id")) = Returned stub ->
  AI_run env model_name (field props (str "meta_prompt")) = Returned reply ->
  extract_content env reply = Returned (content, usage) ->
  R2_BUCKET_put env (field props (str "output_r2_path")) content = Returned tt ->
  ORCHESTRATOR_fetch env stub url_report (success_report props usage) = Returned tt ->
  exists tr,
    run (handleGeneration (JObj props) env) = (Returned tt, tr)
    /\ model_calls tr = [field props (str "meta_prompt")]
    /\ blob_writes tr = [(field props (str "output_r2_path"), content)]
    /\ orchestrator_posts tr
       = [ {| artifact_id := field props (str "artifact_id");
              r2_path := field props (str "output_r2_path");
              status := SUCCESS;
              cost_metrics := usage |} ]
    /\ last tr = Some (Log (str "INFO") (str "Success reported to orchestrator")).
Proof.
  intros Hacc Hid Hai Hex Hput Hpost.
  rewrite (GeneratorClaims.handleGeneration_steps env props stub Hacc Hid).
  cbv zeta. rewrite Hai, Hex, Hput, Hpost.
  eexists. split; [reflexivity |]. repeat split.
Qed.

Lemma X6_witness :
  exists tr,
    run (handleGeneration (JObj payload_valid) env_ok) = (Returned tt, tr)
    /\ orchestrator_posts tr
       = [ {| artifact_id := JStr (str "w1-a1");
              r2_path := JStr (str "artifacts/wave-1/w1-a1.html");
              status := SUCCESS;
              cost_metrics := usage_8_12 |} ].
Proof.
  destruct (X6_success_report env_ok payload_valid (JStr (str "orchestrator-1"))
              (JObj [ (str "response", JStr (str "<h1>Content</h1>"));
                      (str "usage", JObj [ (str "prompt_tokens", jnum_Z 8);
                                           (str "completion_tokens", jnum_Z 12) ]) ])
              (JStr (str "<h1>Content</h1>")) usage_8_12)
    as (tr & Hrun & _ & _ & Hposts & _); try reflexivity.
  exists tr. split; [exact Hrun | exact Hposts].
Defined.

Ltac failure_reported env stub :=
  unfold report_failure;
  destruct (ORCHESTRATOR_fetch env stub url_report (failure_report _)) as [[]|];
  eexists; (split; [reflexivity |]);
  unfold failure_report; cbn -[str all_usable field url_report model_name num_of_Z].

(** X7. An accepted job whose orchestrator stub is found always ends
    normally, whatever the model, the bucket and the orchestrator do. It
    runs the model exactly once and writes at most one blob. It posts one
    report or two, each about the artifact of the request; the second one
    is only there when the post of a SUCCESS report threw, and is then the
    failure report. A SUCCESS report is only posted after the blob was
    written under the path the report gives. *)
Theorem X7_job_invariants
  (env : Env) (props : list (jstr * JsValue)) (stub : JsValue) :
  all_usable props = true ->
  ORCHESTRATOR_idFromString env (field props (str "orchestrator_id")) = Returned stub ->
  exists tr,
    run (handleGeneration (JObj props) env) = (Returned tt, tr)
    /\ model_calls tr = [field props (str "meta_prompt")]
    /\ (length (blob_writes tr) <= 1)%nat
    /\ Forall (fun w => fst w = field props (str "output_r2_path")) (blob_writes tr)
    /\ Forall (fun r => artifact_id r = field props (str "artifact_id"))
              (orchestrator_posts tr)
    /\ ((exists r, orchestrator_posts tr = [r])
        \/ (exists usage e,
              ORCHESTRATOR_fetch env stub url_report (success_report props usage) = Thrown e
              /\ orchestrator_posts tr
                 = [ success_report props usage;
                     failure_report (field props (str "artifact_id")) ]))
    /\ (forall r, r ∈ orchestrator_posts tr -> status r = SUCCESS ->
          exists content, blob_writes tr = [(r2_path r, content)]
                          /\ R2_BUCKET_put env (r2_path r) content = Returned tt).
Proof.
  intros Hacc Hid.
  rewrite (GeneratorClaims.handleGeneration_steps env props stub Hacc Hid). cbv zeta.
  destruct (AI_run env model_name _) as [reply|e1].
  2: { failure_reported env stub; repeat split; auto; try (repeat constructor; fail);
       try (left; eauto; fail);
       intros r Hr Hs; apply list_elem_of_singleton in Hr; subst r; discriminate Hs. }
  destruct (extract_content env reply) as [[content usage]|e2].
  2: { failure_reported env stub; repeat split; auto; try (repeat constructor; fail);
       try (left; eauto; fail);
       intros r Hr Hs; apply list_elem_of_singleton in Hr; subst r; discriminate Hs. }
  destruct (R2_BUCKET_put env _ content) as [[]|e3] eqn:Hput.
  2: { failure_reported env stub; repeat split; auto; try (repeat constructor; fail);
       try (left; eauto; fail);
       intros r Hr Hs; apply list_elem_of_singleton in Hr; subst r; discriminate Hs. }
  destruct (ORCHESTRATOR_fetch env stub url_report (success_report props usage))
    as [[]|e4] eqn:Hpost.
  - eexists. split; [reflexivity |].
    cbn -[str all_usable field url_report model_name num_of_Z].
    repeat split; auto; try (repeat constructor; fail); try (left; eauto; fail).
    intros r Hr Hs. apply list_elem_of_singleton in Hr. subst r. eauto.
  - failure_reported env stub; repeat split; auto; try (repeat constructor; fail);
      try (right; eauto; fail);
      intros r Hr Hs;
      (apply elem_of_cons in Hr as [-> | Hr];
       [eauto | apply list_elem_of_singleton in Hr; subst r; discriminate Hs]).
Qed.

(** The blob is written, the SUCCESS report is refused, the failure report
    goes through. *)
Lemma X7_witness :
  exists tr,
    run (handleGeneration (JObj payload_valid) env_success_refused) = (Returned tt, tr)
    /\ model_calls tr = [JStr (str "Generate a landing page")]
    /\ (length (blob_writes tr) <= 1)%nat
    /\ Forall (fun r => artifact_id r = JStr (str "w1-a1")) (orchestrator_posts tr).
Proof.
  destruct (X7_job_invariants env_success_refused payload_valid (JStr (str "orchestrator-1")))
    as (tr & Hrun & Hm & Hb & _ & Hp & _); try reflexivity.
  exists tr. repeat split; assumption.
Defined.

(** X8. When the orchestrator's identifier cannot be turned into a stub,
    the job does nothing outside: the model is not run, nothing is written
    and no report is posted, not even the failure report, since looking up
    the stub fails again in the handler of the failure. The job logs the
    two errors and ends normally. *)
Theorem X8_no_stub_no_report
  (env : Env) (props : list (jstr * JsValue)) (e : JsThrown) :
  ORCHESTRATOR_idFromString env (field props (str "orchestrator_id")) = Thrown e ->
  run (handleGeneration (JObj props) env)
  = (Returned tt, [ Log (str "ERROR") (str "Generation failed");
                    Log (str "ERROR") (str "Failed to report failure to orchestrator") ]).
Proof.
  intros Hid. unfold handleGeneration, run.
  cbv [bind lift try_catch_M get_prop log_error emit].
  fold (field props (str "orchestrator_id")). rewrite Hid. reflexivity.
Qed.

Lemma X8_witness :
  run (handleGeneration (JObj payload_valid) env_no_stub)
  = (Returned tt, [ Log (str "ERROR") (str "Generation failed");
                    Log (str "ERROR") (str "Failed to report failure to orchestrator") ]).
Proof.
  apply (X8_no_stub_no_report env_no_stub payload_valid
           (ThrownError (str "Invalid Durable Object ID"))).
  reflexivity.
Defined.

(** X9. What the job takes out of the model's reply. A reply that is
    neither a string nor an object is refused with "Unexpected AI response
    format"; every other reply is accepted. A string reply is the content
    as it is, with zero usage. Of an object, the content is its [response]
    when that is truthy and [String(reply)] otherwise, so the content is
    never [null] nor [undefined]; each token count is a truthy value or 0. *)
Theorem X9_extract_content (env : Env) (reply : JsValue) :
  (reply_usable reply = false ->
     extract_content env reply = Thrown (ThrownError (str "Unexpected AI response format")))
  /\ (reply_usable reply = true ->
      exists content usage,
        extract_content env reply = Returned (content, usage)
        /\ nullish content = false
        /\ count_or_zero (prompt_tokens usage)
        /\ count_or_zero (completion_tokens usage)
        /\ (forall s, reply = JStr s -> content = reply /\ usage = zero_usage)
        /\ (forall ps, reply = JObj ps ->
              content = (if truthy (field ps (str "response"))
                         then field ps (str "response")
                         else JStr (String_of env reply))
              /\ (truthy (field ps (str "usage")) = false -> usage = zero_usage))).
Proof.
  assert (Hzero : count_or_zero (jnum_Z 0)) by (right; reflexivity).
  assert (Hor : forall v, count_or_zero (js_or v (jnum_Z 0))).
  { intros v. unfold js_or, count_or_zero. destruct (truthy v) eqn:Hv; auto. }
  assert (Hcontent : forall r s, nullish (js_or r (JStr s)) = false).
  { intros r s. unfold js_or. destruct (truthy r) eqn:Hr; [| reflexivity].
    destruct r; simpl in *; congruence. }
  split; [destruct reply; simpl; congruence |].
  destruct reply as [| |b|n|s|xs|ps]; try discriminate; intros _.
  - do 2 eexists. split; [reflexivity |]. repeat split; auto; try discriminate; congruence.
  - cbn -[str num_of_Z]. do 2 eexists. split; [reflexivity |].
    repeat split; auto; discriminate.
  - unfold extract_content. cbn [get_prop mbind outcome_bind]. fold (field ps (str "response")).
    fold (field ps (str "usage")).
    destruct (truthy (field ps (str "usage"))) eqn:Hu.
    + destruct (GeneratorClaims.get_prop_truthy _ (str "prompt_tokens") Hu) as [pt ->].
      destruct (GeneratorClaims.get_prop_truthy _ (str "completion_tokens") Hu) as [ct ->].
      cbn [mbind outcome_bind]. do 2 eexists. split; [reflexivity |].
      repeat match goal with |- _ /\ _ => split end; auto; try discriminate;
        try apply Hor.
      intros ps' [= <-]. split; [reflexivity | congruence].
    + do 2 eexists. split; [reflexivity |].
      repeat match goal with |- _ /\ _ => split end; auto; try discriminate.
      intros ps' [= <-]. split; reflexivity.
Qed.

(** A reply without text and with half a usage: the content is the
    rendering of the reply, the missing count is 0. *)
Lemma X9_witness :
  extract_content env_ok (JNum (num_of_Z 7))
  = Thrown (ThrownError (str "Unexpected AI response format"))
  /\ exists content usage,
       extract_content env_ok reply_partial = Returned (content, usage)
       /\ content = JStr (str "[object Object]")
       /\ count_or_zero (completion_tokens usage).
Proof.
  destruct (X9_extract_content env_ok (JNum (num_of_Z 7))) as [Hbad _].
  destruct (X9_extract_content env_ok reply_partial) as [_ Hgood].
  split; [apply Hbad; reflexivity |].
  destruct (Hgood eq_refl) as (content & usage & Hex & _ & _ & Hct & _ & Hobj).
  exists content, usage. split; [exact Hex |]. split; [| exact Hct].
  apply (Hobj _ eq_refl).
Defined.

End GeneratorMore.

Module LLMMore.
Import Spec LLM LLMSpec FloatFacts StringFacts Examples LLMMoreExamples.

Lemma clamp_in_range (x : number) : is_nan x = false -> in_range (clamp_score x).
Proof.
  intros Hx. unfold in_range, clamp_score.
  destruct (js_max_lower (num_of_Z 0) x eq_refl Hx) as (Hlow & Hnan).
  destruct (js_min_upper (num_of_Z 100) (js_max (num_of_Z 0) x) eq_refl Hnan)
    as (Hup & _ & Hmin).
  split; [apply Hmin; [reflexivity | exact Hlow] | exact Hup].
Qed.

Lemma decimal_value_not_negative (ds : jstr) : 0 <= decimal_value ds.
Proof.
  unfold decimal_value.
  assert (H : forall acc, 0 <= acc ->
            0 <= fold_left (fun acc c => 10 * acc + digit_value c) ds acc).
  { induction ds as [|d ds IH]; intros acc Hacc; simpl; [exact Hacc |].
    apply IH. unfold digit_value. lia. }
  apply H. lia.
Qed.

Lemma fallback_in_range (text : jstr) : in_range (score (fallback_result text)).
Proof.
  unfold fallback_result. cbn [score].
  destruct (match_first score_re text) as [groups|].
  - apply clamp_in_range, num_of_Z_not_nan, decimal_value_not_negative.
  - split; reflexivity.
Qed.

Lemma parsed_result_cases (parsed : JsValue) (text : jstr) :
  match parsed_result parsed text with
  | Thrown _ => nullish parsed = true
  | Returned r =>
      nullish parsed = false
      /\ error r = None
      /\ detail r (str "rawResponse") = JStr text
      /\ score r = match get_prop parsed (str "score") with
                   | Returned (JNum x) => clamp_score x
                   | _ => num_of_Z 50
                   end
  end.
Proof.
  destruct parsed as [| |b|n|s|xs|props]; try reflexivity;
    unfold parsed_result; cbn [get_prop mbind outcome_bind];
    repeat split; reflexivity.
Qed.

(** X10. Whatever the configuration, the model and its reply, the model
    handler returns a result whose score lies between 0 and 100. When the
    result carries an [error], its score is 0 and its details are empty;
    when it carries none, the model was called, replied with a text, and
    that text is the [rawResponse] of the details. *)
Theorem X10_llm_result_invariant
  (G : Globals) (sourceCode : jstr) (config : JsValue) (env : Env) :
  parses_no_nan G ->
  exists r,
    handleLLMEvaluation G sourceCode config env = Returned r
    /\ in_range (score r)
    /\ (is_Some (error r) -> score r = num_of_Z 0 /\ details r = JObj [])
    /\ (error r = None ->
        exists model messages response text,
          AI_run env model messages = Returned response
          /\ reply_text response text
          /\ detail r (str "rawResponse") = JStr text).
Proof.
  intros Hparse.
  assert (Hfail : forall msg,
            exists r,
              Returned (failed_result msg) = Returned r
              /\ in_range (score r)
              /\ (is_Some (error r) -> score r = num_of_Z 0 /\ details r = JObj [])
              /\ (error r = None ->
                  exists model messages response text,
                    AI_run env model messages = Returned response
                    /\ reply_text response text
                    /\ detail r (str "rawResponse") = JStr text)).
  { intros msg. eexists. split; [reflexivity |]. split; [split; reflexivity |].
    split; [intros _; split; reflexivity | discriminate]. }
  unfold handleLLMEvaluation.
  destruct (get_prop config (str "prompt")) as [p|e] eqn:Hp;
    cbn [mbind outcome_bind try_catch]; [| apply Hfail].
  destruct (get_prop config (str "model")) as [m|e] eqn:Hm;
    cbn [mbind outcome_bind try_catch]; [| apply Hfail].
  destruct (AI_run env _ _) as [response|e] eqn:Hai;
    cbn [mbind outcome_bind try_catch]; [| apply Hfail].
  destruct (extract_text response) as [responseText|e] eqn:Htext;
    cbn [mbind outcome_bind try_catch]; [| apply Hfail].
  destruct responseText as [| |b|n|text|xs|ps]; try apply Hfail.
  assert (Hreply : reply_text response text).
  { unfold extract_text in Htext. destruct response as [| |b|n|s|xs|props]; try discriminate.
    - left. congruence.
    - right. exists props. split; [reflexivity |].
      destruct (has_own (str "response") props) eqn:Hown; [| discriminate].
      unfold has_own in Hown. apply bool_decide_eq_true in Hown as [v Hv].
      unfold get_prop in Htext. rewrite Hv in Htext. congruence. }
  destruct (JSON_parse G (cleanResponse text)) as [parsed|] eqn:Hjson.
  - pose proof (parsed_result_cases parsed text) as Hcases.
    destruct (parsed_result parsed text) as [r|e]; cbn [try_catch]; [| apply Hfail].
    destruct Hcases as (_ & Herr & Hraw & Hscore).
    exists r. split; [reflexivity |]. split; [| split].
    + rewrite Hscore. destruct (get_prop parsed (str "score")) as [[]|] eqn:Hs;
        try (split; reflexivity).
      apply clamp_in_range. eapply Hparse; eassumption.
    + rewrite Herr. intros [x Hx]. discriminate Hx.
    + intros _. eauto 10.
  - cbn [try_catch]. eexists. split; [reflexivity |]. split; [apply fallback_in_range |].
    split; [intros [x Hx]; cbv [fallback_result error] in Hx; discriminate Hx |].
    intros _. exists (js_or m (JStr default_model)). eauto 10.
Qed.

Lemma parses_no_nan_150 : parses_no_nan globals_150.
Proof.
  intros text parsed x Hparse Hscore.
  unfold globals_150, globals_with in Hparse. cbn [JSON_parse assoc_get] in Hparse.
  destruct (jstr_eqb text reply_150); [| discriminate].
  injection Hparse as <-. vm_compute in Hscore. injection Hscore as <-. reflexivity.
Qed.

(** A reply whose score is 150. *)
Lemma X10_witness :
  exists r,
    handleLLMEvaluation globals_150 (str "const x = 1;") (JObj [])
      (env_replying (JObj [ (str "response", JStr reply_150) ])) = Returned r
    /\ in_range (score r).
Proof.
  destruct (X10_llm_result_invariant globals_150 (str "const x = 1;") (JObj [])
              (env_replying (JObj [ (str "response", JStr reply_150) ])) parses_no_nan_150)
    as (r & Hr & Hrange & _).
  exists r. split; assumption.
Defined.

(** What the handler does once the model has replied with a text. *)
Lemma handle_reply_text
  (G : Globals) (sourceCode : jstr) (cprops : list (jstr * JsValue)) (env : Env)
  (response : JsValue) (text : jstr) :
  model_call G env cprops sourceCode = Returned response ->
  reply_text response text ->
  handleLLMEvaluation G sourceCode (JObj cprops) env
  = try_catch
      (match JSON_parse G (cleanResponse text) with
       | None => Returned (fallback_result text)
       | Some parsedResponse => parsed_result parsedResponse text
       end)
      (fun e => Returned (failed_result (message_or e (str "LLM evaluation failed")))).
Proof.
  intros Hcall Hreply. unfold handleLLMEvaluation. cbn [get_prop mbind outcome_bind].
  unfold model_call, field in Hcall. rewrite Hcall. cbn [mbind outcome_bind].
  assert (Htext : extract_text response = Returned (JStr text)).
  { destruct Hreply as [-> | (props & -> & Hp)]; [reflexivity |].
    unfold extract_text, has_own, get_prop. rewrite Hp.
    rewrite bool_decide_eq_true_2 by eauto. reflexivity. }
  rewrite Htext. reflexivity.
Qed.

(** X11. A reply that is JSON but carries no numeric score. When the
    reply parses to [null], reading its score throws and the result is the
    error result, score 0. When it parses to a number, a string, a boolean
    or an array, the score is 50 and the details are the default ones.
    When it parses to an object whose [score] is not a number (a string of
    digits, for one), the score is 50 as well. *)
Theorem X11_llm_json_without_score
  (G : Globals) (sourceCode : jstr) (cprops : list (jstr * JsValue)) (env : Env)
  (response parsed : JsValue) (text : jstr) :
  model_call G env cprops sourceCode = Returned response ->
  reply_text response text ->
  JSON_parse G (cleanResponse text) = Some parsed ->
  (parsed = JNull ->
     handleLLMEvaluation G sourceCode (JObj cprops) env
     = Returned (failed_result (str "Cannot read properties of null (reading 'score')")))
  /\ (nullish parsed = false -> (forall props, parsed <> JObj props) ->
      handleLLMEvaluation G sourceCode (JObj cprops) env
      = Returned {| score := num_of_Z 50; details := bare_details text; error := None |})
  /\ (forall props, parsed = JObj props -> is_number (field props (str "score")) = false ->
      exists r,
        handleLLMEvaluation G sourceCode (JObj cprops) env = Returned r
        /\ score r = num_of_Z 50
        /\ error r = None
        /\ detail r (str "reasoning")
           = js_or (field props (str "reasoning")) (JStr (str "No reasoning provided"))).
Proof.
  intros Hcall Hreply Hjson.
  rewrite (handle_reply_text G sourceCode cprops env response text Hcall Hreply), Hjson.
  split; [| split].
  - intros ->. reflexivity.
  - intros Hnull Hobj. destruct parsed as [| |b|n|s|xs|props]; try discriminate;
      try reflexivity.
    exfalso. now eapply Hobj.
  - intros props -> Hnum. unfold parsed_result. cbn [get_prop mbind outcome_bind try_catch].
    fold (field props (str "score")) (field props (str "reasoning")).
    eexists. split; [reflexivity |]. split; [| split; reflexivity].
    cbn [score]. destruct (field props (str "score")); try reflexivity. discriminate Hnum.
Qed.

(** The model answers [null], and the model answers [42]. *)
Lemma X11_witness :
  handleLLMEvaluation globals_atoms (str "const x = 1;") (JObj [])
    (env_replying (JStr (str "null")))
  = Returned (failed_result (str "Cannot read properties of null (reading 'score')"))
  /\ handleLLMEvaluation globals_atoms (str "const x = 1;") (JObj [])
       (env_replying (JStr (str " 42 ")))
     = Returned {| score := num_of_Z 50; details := bare_details (str " 42 "); error := None |}.
Proof.
  split.
  - apply (X11_llm_json_without_score globals_atoms (str "const x = 1;") []
             (env_replying (JStr (str "null"))) (JStr (str "null")) JNull (str "null"));
      [reflexivity | now left | vm_compute; reflexivity | reflexivity].
  - apply (X11_llm_json_without_score globals_atoms (str "const x = 1;") []
             (env_replying (JStr (str " 42 "))) (JStr (str " 42 ")) (jnum_Z 42) (str " 42 "));
      [reflexivity | now left | vm_compute; reflexivity | reflexivity | discriminate].
Defined.

(** X12. When no text can be had from the model, the handler returns the
    error result, score 0 and empty details. A model call that throws an
    [Error] gives its message; one that throws anything else gives "LLM
    evaluation failed". A reply that is neither a string nor an object
    with a [response] gives "Unexpected response format from AI model". A
    configuration that is [null] gives the message of the TypeError, and
    the model is not asked: the result is the same for every model. *)
Theorem X12_llm_error_results
  (G : Globals) (sourceCode : jstr) (env : Env) :
  (forall cprops e,
     model_call G env cprops sourceCode = Thrown e ->
     handleLLMEvaluation G sourceCode (JObj cprops) env
     = Returned (failed_result (message_or e (str "LLM evaluation failed"))))
  /\ (forall cprops response,
        model_call G env cprops sourceCode = Returned response ->
        (forall s, response <> JStr s) ->
        (forall props, response = JObj props -> assoc_get (str "response") props = None) ->
        handleLLMEvaluation G sourceCode (JObj cprops) env
        = Returned (failed_result (str "Unexpected response format from AI model")))
  /\ handleLLMEvaluation G sourceCode JNull env
     = Returned (failed_result (str "Cannot read properties of null (reading 'prompt')")).
Proof.
  split; [| split].
  - intros cprops e Hcall. unfold handleLLMEvaluation. cbn [get_prop mbind outcome_bind].
    unfold model_call, field in Hcall. rewrite Hcall. reflexivity.
  - intros cprops response Hcall Hstr Hobj. unfold handleLLMEvaluation.
    cbn [get_prop mbind outcome_bind].
    unfold model_call, field in Hcall. rewrite Hcall. cbn [mbind outcome_bind].
    destruct response as [| |b|n|s|xs|props]; try reflexivity.
    + exfalso. now eapply Hstr.
    + unfold extract_text, has_own. rewrite (Hobj props eq_refl).
      rewrite bool_decide_eq_false_2 by (intros [x Hx]; discriminate Hx). reflexivity.
  - reflexivity.
Qed.

(** The third case of X12: a model that rejects with a string. *)
Lemma X12_witness :
  handleLLMEvaluation globals_plain (str "const x = 1;") (JObj [])
    (env_model_throws (ThrownValue (JStr (str "capacity exceeded"))))
  = Returned (failed_result (str "LLM evaluation failed"))
  /\ handleLLMEvaluation globals_plain (str "const x = 1;") (JObj [])
       (env_replying (JNum (num_of_Z 7)))
     = Returned (failed_result (str "Unexpected response format from AI model")).
Proof.
  split.
  - apply (proj1 (X12_llm_error_results globals_plain (str "const x = 1;")
                    (env_model_throws (ThrownValue (JStr (str "capacity exceeded")))))
             [] (ThrownValue (JStr (str "capacity exceeded")))).
    reflexivity.
  - apply (proj1 (proj2 (X12_llm_error_results globals_plain (str "const x = 1;")
                           (env_replying (JNum (num_of_Z 7)))))
             [] (JNum (num_of_Z 7))); [reflexivity | discriminate | discriminate].
Defined.

(** *** Stripping the fences *)

Lemma startsWith_app (p q s : jstr) : startsWith (p ++ q) s = true -> startsWith p s = true.
Proof.
  revert s. induction p as [|a p IH]; intros s; [reflexivity |].
  destruct s as [|b s]; simpl; [discriminate |].
  intros H. apply andb_prop in H as [Hab H]. rewrite Hab. simpl. now apply IH.
Qed.

Lemma includes_app (s p q : jstr) : includes s p = false -> includes s (p ++ q) = false.
Proof.
  induction s as [|c s IH].
  - simpl. rewrite !orb_false_r. intros H.
    destruct (startsWith (p ++ q) []) eqn:Hs; [| reflexivity].
    apply startsWith_app in Hs. congruence.
  - cbn [includes]. intros H. apply orb_false_elim in H as [H1 H2].
    rewrite (IH H2), orb_false_r.
    destruct (startsWith (p ++ q) (c :: s)) eqn:Hs; [| reflexivity].
    apply startsWith_app in Hs. congruence.
Qed.

(** An expression that begins with a literal only matches where the
    literal is. *)
Lemma rmatch_literal {R} (p : jstr) (r : regex) (s : jstr) (caps : list jstr)
  (k : jstr -> list jstr -> option R) :
  startsWith p s = false -> rmatch (RSeq (RLit p) r) s caps k = None.
Proof.
  cbn [rmatch]. revert s. induction p as [|a p IH]; intros s; [discriminate |].
  destruct s as [|b s]; [reflexivity |]. cbn [startsWith RLit fold_right rmatch].
  unfold is_unit at 1. rewrite (N.eqb_sym a b).
  destruct (b =? a)%N; [| reflexivity]. cbn [andb]. apply IH.
Qed.

Lemma remove_all_cons_None (r : regex) (c : N) (s : jstr) :
  match_here r (c :: s) = None -> remove_all r (c :: s) = c :: remove_all r s.
Proof. intros H. unfold remove_all. cbn [length remove_all_fuel]. now rewrite H. Qed.

Lemma remove_all_cons_Some (r : regex) (c : N) (s rest : jstr) (caps : list jstr) :
  match_here r (c :: s) = Some (rest, caps) -> (length rest <= length s)%nat ->
  remove_all r (c :: s) = remove_all r rest.
Proof.
  intros H Hlen. unfold remove_all at 1. cbn [length remove_all_fuel]. rewrite H.
  destruct (Nat.ltb_spec (length rest) (S (length s))) as [_ | Hge]; [| lia].
  now apply remove_all_fuel_enough.
Qed.

Lemma remove_all_absent (p : jstr) (r : regex) (s : jstr) :
  includes s p = false -> remove_all (RSeq (RLit p) r) s = s.
Proof.
  induction s as [|c s IH]; [reflexivity |].
  cbn [includes]. intros H. apply orb_false_elim in H as [H1 H2].
  rewrite remove_all_cons_None by (unfold match_here; now apply rmatch_literal).
  now rewrite IH.
Qed.

Lemma trimStart_app (s t : jstr) : trimStart s <> [] -> trimStart (s ++ t) = trimStart s ++ t.
Proof.
  induction s as [|c s IH]; simpl; [congruence |].
  destruct (is_space c); [exact IH | reflexivity].
Qed.

Lemma trim_snoc_space (s : jstr) (c : N) : is_space c = true -> trim (s ++ [c]) = trim s.
Proof.
  intros Hc. unfold trim, trimEnd.
  destruct (trimStart s) as [|d r] eqn:Hs.
  - assert (Hall : whitespace_only (s ++ [c])).
    { apply trimStart_nil in Hs. unfold whitespace_only in *.
      apply Forall_app. split; [exact Hs | repeat constructor; exact Hc]. }
    apply trimStart_nil in Hall. now rewrite Hall.
  - rewrite trimStart_app by congruence. rewrite Hs, rev_app_distr. simpl. now rewrite Hc.
Qed.

Lemma includes_no_backtick (body p tail : jstr) :
  Forall (fun c => c <> backtick) body ->
  includes tail (backtick :: p) = false ->
  includes (body ++ tail) (backtick :: p) = false.
Proof.
  intros Hbody Htail. induction Hbody as [|c body Hc _ IH]; [exact Htail |].
  cbn [app includes startsWith]. rewrite IH, orb_false_r.
  destruct (N.eqb_spec backtick c) as [<- | _]; [contradiction | reflexivity].
Qed.

Lemma remove_fence_tail (body : jstr) :
  Forall (fun c => c <> backtick) body ->
  remove_all fence_re (body ++ [10%N] ++ fence) = body ++ [10%N].
Proof.
  intros Hbody. induction Hbody as [|c body Hc _ IH]; [vm_compute; reflexivity |].
  cbn [app]. rewrite remove_all_cons_None; [now rewrite <- IH |].
  unfold match_here, fence_re. change (str "```") with fence.
  apply rmatch_literal. unfold fence at 1. cbn [startsWith].
  destruct (N.eqb_spec backtick c) as [<- | _]; [contradiction | reflexivity].
Qed.

(** X13. What reaches [JSON.parse]. A reply without three backticks in a
    row is parsed as it is, with the white space around it removed. A
    reply that is a fenced block, opened by the fence with the word json and
    a line feed and closed by a line feed and the fence, around a body
    without backticks, is parsed as that body, trimmed. *)
Theorem X13_clean_response (text : jstr) :
  (includes text fence = false -> cleanResponse text = trim text)
  /\ (Forall (fun c => c <> backtick) text -> cleanResponse (fenced text) = trim text).
Proof.
  split.
  - intros Hnone. unfold cleanResponse, fence_json_re, fence_re.
    rewrite (remove_all_absent (str "```json")).
    2: { change (str "```json") with (fence ++ str "json"). now apply includes_app. }
    now rewrite (remove_all_absent (str "```")).
  - intros Hbody. unfold cleanResponse.
    assert (H1 : remove_all fence_json_re (fenced text)
                 = remove_all fence_json_re (text ++ [10%N] ++ fence)).
    { apply (remove_all_cons_Some fence_json_re backtick
               ([backtick; backtick] ++ str "json" ++ [10%N] ++ text ++ [10%N] ++ fence)
               (text ++ [10%N] ++ fence) []); [reflexivity |].
      rewrite !length_app. simpl. lia. }
    assert (H2 : remove_all fence_json_re (text ++ [10%N] ++ fence)
                 = text ++ [10%N] ++ fence).
    { apply remove_all_absent.
      change (str "```json") with (backtick :: [backtick; backtick] ++ str "json").
      apply includes_no_backtick; [exact Hbody | vm_compute; reflexivity]. }
    rewrite H1, H2, remove_fence_tail by exact Hbody. now apply trim_snoc_space.
Qed.

(** The fenced reply of the unit test of the handler. *)
Lemma X13_witness :
  cleanResponse (str "no fences here ") = str "no fences here"
  /\ cleanResponse (fenced reply_150) = reply_150.
Proof.
  split.
  - apply (proj1 (X13_clean_response (str "no fences here "))). vm_compute. reflexivity.
  - apply (proj2 (X13_clean_response reply_150)).
    vm_compute. repeat constructor; discriminate.
Defined.

End LLMMore.

Module LinterMore.
Import Spec Linter Linter.Basic LinterSpec StringFacts Examples LinterMoreExamples.

Ltac new_issues :=
  do 2 eexists;
  split; [f_equal; first [reflexivity | symmetry; apply app_nil_r] |].

(** What one line adds to the two lists. *)
Lemma lint_line_inv (index : nat) (l : jstr) (rest : list jstr)
  (errors warnings : list LintIssue) :
  exists es ws,
    lint_line index l rest errors warnings = (errors ++ es, warnings ++ ws)
    /\ (length es <= 1)%nat /\ (length ws <= 3)%nat
    /\ Forall (error_at index l) es /\ Forall (warning_at index l) ws.
Proof.
  unfold lint_line, push. cbv zeta.
  set (c1 := bool_decide (is_Some (match_anchored missing_semicolon_re (trim l)))
             && negb (includes l (str "//"))).
  set (c3 := includes l (str "function") && negb (includes l (str "("))
             && negb (includes l (str "=>"))).
  set (c4 := negb (count_units (is_unit 123%N) l =? count_units (is_unit 125%N) l)
             && negb (jstr_eqb (trim l) []) && negb (includes l (str "//"))).
  assert (F1 : c1 = true -> includes l (str "//") = false /\ trim l <> []).
  { subst c1. intros H. apply andb_prop in H as [Hm Hc].
    apply negb_true_iff in Hc. split; [exact Hc |].
    intros Ht. rewrite Ht in Hm. vm_compute in Hm. discriminate Hm. }
  assert (F3 : c3 = true -> includes l (str "function") = true
                            /\ includes l (str "(") = false
                            /\ includes l (str "=>") = false).
  { subst c3. intros H. apply andb_prop in H as [H Hc]. apply andb_prop in H as [Ha Hb].
    apply negb_true_iff in Hb, Hc. auto. }
  assert (F4 : c4 = true -> includes l (str "//") = false /\ trim l <> []).
  { subst c4. intros H. apply andb_prop in H as [H Hc]. apply andb_prop in H as [_ Hb].
    apply negb_true_iff in Hb, Hc. apply jstr_eqb_neq in Hb. auto. }
  assert (Hs : c1 = true -> forall col msg,
             warning_at index l
               {| line := Z.of_nat index + 1; column := col; severity := SevWarning;
                  message := msg; ruleId := str "semi" |}).
  { intros Hc col msg. unfold warning_at. cbn.
    split; [reflexivity |]. split; [reflexivity |]. right. split; [now left | auto]. }
  assert (Hbr : c4 = true -> forall col msg,
             warning_at index l
               {| line := Z.of_nat index + 1; column := col; severity := SevWarning;
                  message := msg; ruleId := str "bracket-match" |}).
  { intros Hc col msg. unfold warning_at. cbn.
    split; [reflexivity |]. split; [reflexivity |]. right. split; [now right | auto]. }
  assert (Hu : forall col msg,
             warning_at index l
               {| line := Z.of_nat index + 1; column := col; severity := SevWarning;
                  message := msg; ruleId := str "no-unused-vars" |}).
  { intros col msg. unfold warning_at. cbn. split; [reflexivity |]. split; [reflexivity |].
    now left. }
  assert (He : c3 = true ->
             error_at index l
               {| line := Z.of_nat index + 1; column := indexOf l (str "function") + 1;
                  severity := SevError; message := str "Invalid function declaration";
                  ruleId := str "syntax-error" |}).
  { intros Hc. destruct (F3 Hc) as (Ha & Hb & Hd). unfold error_at. cbn.
    repeat split; assumption. }
  clear F1 F3 F4. clearbody c1 c3 c4.
  destruct c1 eqn:H1;
    (destruct (match_anchored declaration_re l) as [m|];
     [destruct (negb (includes (join [10%N] rest) (nth 1 m []))) |]);
    destruct c3 eqn:H3;
    (destruct c4 eqn:H4;
     [destruct (0 <? Z.abs (count_units (is_unit 123%N) l - count_units (is_unit 125%N) l)) |]);
    rewrite <- ?app_assoc; new_issues;
    (split; [simpl; lia |]); (split; [simpl; lia |]);
    (split; repeat (constructor; [now auto |]); constructor).
Qed.

(** What the walk over the lines adds. *)
Lemma lint_lines_inv (lines : list jstr) :
  forall (index : nat) (errors warnings : list LintIssue),
  exists es ws,
    lint_lines index lines errors warnings = (errors ++ es, warnings ++ ws)
    /\ (length es <= length lines)%nat
    /\ (length ws <= 3 * length lines)%nat
    /\ Forall (fun i => exists k l, lines !! k = Some l /\ error_at (index + k) l i) es
    /\ Forall (fun i => exists k l, lines !! k = Some l /\ warning_at (index + k) l i) ws.
Proof.
  induction lines as [|l rest IH]; intros index errors warnings.
  - exists [], []. rewrite !app_nil_r. repeat split; auto.
  - cbn [lint_lines].
    destruct (lint_line_inv index l rest errors warnings)
      as (es1 & ws1 & -> & Hle1 & Hlw1 & He1 & Hw1).
    destruct (IH (S index) (errors ++ es1) (warnings ++ ws1))
      as (es2 & ws2 & -> & Hle2 & Hlw2 & He2 & Hw2).
    exists (es1 ++ es2), (ws1 ++ ws2). rewrite !app_assoc.
    split; [reflexivity |]. rewrite !length_app. cbn [length].
    split; [lia |]. split; [lia |]. split; apply Forall_app; split.
    + eapply Forall_impl; [exact He1 |]. intros i Hi. exists 0%nat, l.
      rewrite Nat.add_0_r. split; [reflexivity | exact Hi].
    + eapply Forall_impl; [exact He2 |]. intros i (k & l' & Hk & Hi). exists (S k), l'.
      rewrite Nat.add_succ_r. split; [exact Hk | exact Hi].
    + eapply Forall_impl; [exact Hw1 |]. intros i Hi. exists 0%nat, l.
      rewrite Nat.add_0_r. split; [reflexivity | exact Hi].
    + eapply Forall_impl; [exact Hw2 |]. intros i (k & l' & Hk & Hi). exists (S k), l'.
      rewrite Nat.add_succ_r. split; [exact Hk | exact Hi].
Qed.

Lemma split_on_length (sep : N) (s : jstr) : (1 <= length (split_on sep s))%nat.
Proof.
  induction s as [|c s IH]; simpl; [lia |].
  destruct (c =? sep)%N; [simpl; lia |].
  destruct (split_on sep s); simpl in *; lia.
Qed.

Lemma line_of_at (sourceCode : jstr) (i : LintIssue) (k : nat) (l : jstr) :
  lines_of sourceCode !! k = Some l -> line i = Z.of_nat (0 + k) + 1 ->
  line_of sourceCode i = Some l
  /\ 1 <= line i <= Z.of_nat (length (lines_of sourceCode)).
Proof.
  intros Hk Hline. unfold line_of. rewrite Hline.
  destruct (Z.ltb_spec (Z.of_nat (0 + k) + 1) 1) as [Hlt | _]; [lia |].
  replace (Z.to_nat (Z.of_nat (0 + k) + 1 - 1)) with k by lia.
  apply lookup_lt_Some in Hk as Hlen. split; [exact Hk | lia].
Qed.

(** X14. The issues of the built-in checker. Every issue points at a line
    of the source (between 1 and the number of lines); the errors all have
    severity error and the rule syntax-error, the warnings severity warning
    and one of the rules semi, no-unused-vars and bracket-match. There is at
    most one error per line, plus the one of the [Function] constructor, and
    at most three warnings per line. *)
Theorem X14_basic_linting_issues (G : Globals) (sourceCode : jstr) :
  let n := length (lines_of sourceCode) in
  let errors := fst (performBasicLinting G sourceCode) in
  let warnings := snd (performBasicLinting G sourceCode) in
  (1 <= n)%nat
  /\ (length errors <= n + 1)%nat
  /\ (length warnings <= 3 * n)%nat
  /\ Forall (fun i => 1 <= line i <= Z.of_nat n
                      /\ severity i = SevError /\ ruleId i = rule_syntax) errors
  /\ Forall (fun i => 1 <= line i <= Z.of_nat n
                      /\ severity i = SevWarning
                      /\ ruleId i ∈ [rule_semi; rule_unused; rule_bracket]) warnings.
Proof.
  cbv zeta. unfold performBasicLinting. fold (lines_of sourceCode).
  pose proof (split_on_length 10%N sourceCode) as Hn. fold (lines_of sourceCode) in Hn.
  destruct (lint_lines_inv (lines_of sourceCode) 0 [] [])
    as (es & ws & -> & Hle & Hlw & He & Hw).
  cbn [app fst snd].
  assert (He' : Forall (fun i => 1 <= line i <= Z.of_nat (length (lines_of sourceCode))
                                 /\ severity i = SevError /\ ruleId i = rule_syntax) es).
  { eapply Forall_impl; [exact He |]. intros i (k & l & Hk & Hi).
    destruct Hi as (Hline & Hsev & Hrule & _).
    destruct (line_of_at sourceCode i k l Hk Hline) as (_ & Hrange). auto. }
  split; [exact Hn |]. split; [| split; [exact Hlw |]; split].
  - destruct (Function_ctor G sourceCode); unfold push; rewrite ?length_app; simpl; lia.
  - destruct (Function_ctor G sourceCode); unfold push; try exact He'.
    apply Forall_app. split; [exact He' |]. repeat constructor; simpl; lia.
  - eapply Forall_impl; [exact Hw |]. intros i (k & l & Hk & Hi).
    destruct Hi as (Hline & Hsev & Hrule).
    destruct (line_of_at sourceCode i k l Hk Hline) as (_ & Hrange).
    split; [exact Hrange |]. split; [exact Hsev |].
    destruct Hrule as [-> | [[-> | ->] _]].
    + apply list_elem_of_further, list_elem_of_here.
    + apply list_elem_of_here.
    + do 2 apply list_elem_of_further. apply list_elem_of_here.
Qed.

Lemma indexOf_from_bounds (p s : jstr) (i : Z) :
  p <> [] -> includes s p = true -> i <= indexOf_from i s p < i + Z.of_nat (length s).
Proof.
  intros Hp. revert i. induction s as [|c s IH]; intros i.
  - destruct p; [congruence | discriminate].
  - cbn [includes indexOf_from length]. destruct (startsWith p (c :: s)); [lia |].
    cbn [orb]. intros H. specialize (IH (i + 1) H). lia.
Qed.

Lemma elem_of_lint_errors (G : Globals) (sourceCode : jstr) (e : LintIssue) :
  e ∈ fst (performBasicLinting G sourceCode) ->
  (exists msg, Function_ctor G sourceCode = CtorSyntaxError msg /\ e = ctor_error msg)
  \/ (exists k l, lines_of sourceCode !! k = Some l /\ error_at (0 + k) l e).
Proof.
  unfold performBasicLinting. fold (lines_of sourceCode).
  destruct (lint_lines_inv (lines_of sourceCode) 0 [] [])
    as (es & ws & -> & _ & _ & He & _).
  cbn [app fst]. rewrite Forall_forall in He.
  destruct (Function_ctor G sourceCode) as [|msg|]; unfold push.
  - intros Hin. right. apply He, Hin.
  - intros Hin. apply elem_of_app in Hin as [Hin | Hin].
    + right. apply He, Hin.
    + left. apply list_elem_of_singleton in Hin. eauto.
  - intros Hin. right. apply He, Hin.
Qed.

(** X15. Why the built-in checker raised an issue. A warning for a missing
    semicolon or a bracket mismatch is only raised on a line that is not
    blank and contains no line comment. An error is either the one the
    [Function] constructor reported, at line 1 and column 1, or points at a
    line that contains the word function and neither a parenthesis nor an
    arrow, with the position of that word on the line as its column. *)
Theorem X15_basic_linting_causes (G : Globals) (sourceCode : jstr) :
  (forall w, w ∈ snd (performBasicLinting G sourceCode) ->
     ruleId w = rule_semi \/ ruleId w = rule_bracket ->
     exists l, line_of sourceCode w = Some l
               /\ includes l (str "//") = false /\ trim l <> [])
  /\ (forall e, e ∈ fst (performBasicLinting G sourceCode) ->
       (exists msg, Function_ctor G sourceCode = CtorSyntaxError msg /\ e = ctor_error msg)
       \/ (exists l, line_of sourceCode e = Some l
                     /\ includes l (str "function") = true
                     /\ includes l (str "(") = false
                     /\ includes l (str "=>") = false
                     /\ column e = indexOf l (str "function") + 1
                     /\ 1 <= column e <= Z.of_nat (length l))).
Proof.
  split.
  - unfold performBasicLinting. fold (lines_of sourceCode).
    destruct (lint_lines_inv (lines_of sourceCode) 0 [] [])
      as (es & ws & -> & _ & _ & _ & Hw).
    cbn [app snd]. rewrite Forall_forall in Hw.
    intros w Hin Hrule. apply Hw in Hin as (k & l & Hk & Hi).
    destruct Hi as (Hline & _ & Hcause).
    destruct (line_of_at sourceCode w k l Hk Hline) as (Hl & _).
    exists l. split; [exact Hl |].
    destruct Hcause as [Hu | (_ & Hc & Ht)]; [| auto].
    exfalso. rewrite Hu in Hrule. destruct Hrule as [H | H]; vm_compute in H; discriminate H.
  - intros e Hin. destruct (elem_of_lint_errors G sourceCode e Hin)
      as [Hctor | (k & l & Hk & Hi)]; [now left | right].
    destruct Hi as (Hline & _ & _ & _ & Hcol & Hf & Hp & Ha).
    destruct (line_of_at sourceCode e k l Hk Hline) as (Hl & _).
    exists l. repeat match goal with |- _ /\ _ => split end; try assumption.
    + pose proof (indexOf_from_bounds (str "function") l 0 ltac:(discriminate) Hf) as Hb.
      unfold indexOf in Hcol. lia.
    + pose proof (indexOf_from_bounds (str "function") l 0 ltac:(discriminate) Hf) as Hb.
      unfold indexOf in Hcol. lia.
Qed.

(** X16. The [Function] constructor in the built-in checker. When it
    rejects the source with a SyntaxError, the handler lists that error
    last among the errors and the score is at most 90. When it throws
    anything else (as a runtime that forbids code generation does), the
    throw is swallowed and the result is the one of a source that
    compiles. *)
Theorem X16_function_constructor
  (G G' : Globals) (sourceCode : jstr) (config : JsValue) (env : Env) :
  Function_ctor G' sourceCode = CtorOk ->
  (forall msg, Function_ctor G sourceCode = CtorSyntaxError msg ->
     last (fst (performBasicLinting G sourceCode)) = Some (ctor_error msg)
     /\ fst (performBasicLinting G sourceCode)
        = fst (performBasicLinting G' sourceCode) ++ [ctor_error msg]
     /\ (is_blank sourceCode = false ->
         exists r z, handleLinter G sourceCode config env = Returned r
                     /\ score r = num_of_Z z /\ 0 <= z <= 90))
  /\ (Function_ctor G sourceCode = CtorOtherThrow ->
      handleLinter G sourceCode config env = handleLinter G' sourceCode config env).
Proof.
  intros Hok. split.
  - intros msg Hctor. unfold handleLinter, performBasicLinting. rewrite Hctor, Hok.
    destruct (lint_lines 0 (split_on 10%N sourceCode) [] []) as [errors warnings].
    unfold push. cbn [fst]. split; [apply last_snoc |]. split; [reflexivity |].
    intros ->. cbn [try_catch]. do 2 eexists. split; [reflexivity |].
    split; [reflexivity |]. rewrite length_app. cbn [length]. unfold lint_score. lia.
  - intros Hctor. unfold handleLinter, performBasicLinting. rewrite Hctor, Hok. reflexivity.
Qed.

(** X20. The ESLint-based handler reads the first result of ESLint only.
    With no result at all the source counts as clean and scores 100; with
    results, the counters and the messages of the first one make the score
    and the details, and the others are ignored. A configuration that is
    [null] makes the handler fail, with score 0 and the message of the
    TypeError, on every source that is not blank. *)
Theorem X20_eslint_first_result
  (G : Globals) (sourceCode : jstr) (config : JsValue) (env : Env) :
  is_blank sourceCode = false ->
  (forall rules results,
     get_prop config (str "rules") = Returned rules ->
     ESLint_lintText G rules sourceCode = Returned results ->
     ESLintBased.handleLinter G sourceCode config env
     = Returned
         match results with
         | [] => {| score := num_of_Z 100; details := lint_details 0 0 0 []; error := None |}
         | first :: _ =>
             let e := Z.of_nat (errorCount first) in
             let w := Z.of_nat (warningCount first) in
             {| score := num_of_Z (Z.max 0 (100 - 10 * e - 2 * w));
                details := lint_details e w (e + w)
                             (map ESLintBased.message_to_js (messages first));
                error := None |}
         end)
  /\ (config = JNull ->
      ESLintBased.handleLinter G sourceCode config env
      = Returned (caught_result
                    (ThrownError (str "Cannot read properties of null (reading 'rules')")))).
Proof.
  intros Hb. unfold ESLintBased.handleLinter. rewrite Hb. split.
  - intros rules results Hrules Hlint. rewrite Hrules. cbn [mbind outcome_bind].
    rewrite Hlint. cbn [mbind outcome_bind try_catch].
    destruct results as [|first others]; [reflexivity |].
    cbn [head from_option]. cbv zeta. unfold lint_score. do 3 f_equal. lia.
  - intros ->. reflexivity.
Qed.

Lemma X20_witness :
  ESLintBased.handleLinter globals_eslint_2_3 (str "const x = 1") JNull env_a
  = Returned (caught_result
                (ThrownError (str "Cannot read properties of null (reading 'rules')"))).
Proof.
  apply (X20_eslint_first_result globals_eslint_2_3 (str "const x = 1") JNull env_a);
    reflexivity.
Defined.

(** A source the constructor rejects: the score drops by ten more points. *)
Lemma X16_witness :
  last (fst (performBasicLinting (globals_ctor (CtorSyntaxError (str "Unexpected token")))
               source_three_lines))
  = Some (ctor_error (str "Unexpected token"))
  /\ handleLinter (globals_ctor CtorOtherThrow) source_three_lines (JObj []) env_a
     = handleLinter (globals_ctor CtorOk) source_three_lines (JObj []) env_a.
Proof.
  destruct (X16_function_constructor (globals_ctor (CtorSyntaxError (str "Unexpected token")))
              (globals_ctor CtorOk) source_three_lines (JObj []) env_a eq_refl)
    as (Hsyntax & _).
  destruct (X16_function_constructor (globals_ctor CtorOtherThrow)
              (globals_ctor CtorOk) source_three_lines (JObj []) env_a eq_refl)
    as (_ & Hother).
  split; [apply (Hsyntax (str "Unexpected token") eq_refl) | apply Hother; reflexivity].
Defined.

End LinterMore.

Module LoggingMore.
Import Logging LoggingSpec LoggingExamples.

Lemma spread_opt_lookup (a : JsObject) (data : option JsObject) (k : jstr) :
  spread_opt a data !! k
  = match data_get data k with
    | Some v => Some v
    | None => a !! k
    end.
Proof.
  destruct data as [d|]; cbn [spread_opt data_get]; [| reflexivity].
  unfold spread. rewrite lookup_union.
  destruct (d !! k), (a !! k); reflexivity.
Qed.

Lemma baseLog_lookup (sp : Spelling) (now serviceName : jstr) (context : option JsObject)
  (k : jstr) :
  baseLog (createLogger sp now serviceName context) !! k
  = match data_get context k with
    | Some v => Some v
    | None => if decide (k = key_timestamp) then Some (JStr now)
              else if decide (k = key_service) then Some (JStr serviceName)
              else None
    end.
Proof.
  cbn [createLogger baseLog]. unfold spread.
  assert (Hd : default ∅ context !! k = data_get context k).
  { destruct context; [reflexivity | apply lookup_empty]. }
  rewrite <- Hd. destruct (default ∅ context !! k) as [v|] eqn:Hc.
  { now apply lookup_union_Some_l. }
  rewrite lookup_union_r by exact Hc.
  destruct (decide (k = key_timestamp)) as [-> | Hts].
  - apply lookup_insert_eq.
  - rewrite lookup_insert_ne by (unfold key_timestamp in Hts; congruence).
    destruct (decide (k = key_service)) as [-> | Hsv].
    + apply lookup_insert_eq.
    + rewrite lookup_insert_ne by (unfold key_service in Hsv; congruence). apply lookup_empty.
Qed.

Lemma entry_lookup (logger : LoggerInstance) (lv : Level) (msg k : jstr) :
  entry logger lv msg !! k
  = if decide (k = key_message) then Some (JStr msg)
    else if decide (k = key_level) then Some (JStr (level_name (spelling logger) lv))
    else baseLog logger !! k.
Proof.
  unfold entry. destruct (decide (k = key_message)) as [-> | Hm].
  - apply lookup_insert_eq.
  - rewrite lookup_insert_ne by (unfold key_message in Hm; congruence).
    destruct (decide (k = key_level)) as [-> | Hl].
    + apply lookup_insert_eq.
    + now rewrite lookup_insert_ne by (unfold key_level in Hl; congruence).
Qed.

(** The value the logger itself gives to the name [k], for a level. *)
Lemma logged_lookup (sp : Spelling) (now serviceName msg : jstr) (lv : Level)
  (context data : option JsObject) (k : jstr) :
  spread_opt (entry (createLogger sp now serviceName context) lv msg) data !! k
  = match data_get data k with
    | Some v => Some v
    | None =>
        if decide (k = key_message) then Some (JStr msg)
        else if decide (k = key_level) then Some (JStr (level_name sp lv))
        else match data_get context k with
             | Some v => Some v
             | None =>
                 if decide (k = key_timestamp) then Some (JStr now)
                 else if decide (k = key_service) then Some (JStr serviceName)
                 else None
             end
    end.
Proof. rewrite spread_opt_lookup, entry_lookup, baseLog_lookup. reflexivity. Qed.

Lemma printed_lookup (o : JsObject) (k : jstr) :
  printed o !! k = match o !! k with
                   | Some v => if is_undefined v then None else Some (json_value v)
                   | None => None
                   end.
Proof. unfold printed. rewrite lookup_omap. now destruct (o !! k). Qed.

(** X17. Who wins in an entry of [info] and [warn]. A property of [data]
    is written as it is, even under the names level, message, service and
    timestamp. Where [data] is silent, level and message are the logger's
    own, whatever the context says; every other name is taken from the
    context, and the service name and the time the logger was created stand
    under service and timestamp only when the context has no property of
    that name. No other property is written, and two entries of one logger
    carry the same timestamp. *)
Theorem X17_log_entry_precedence
  (sp : Spelling) (now serviceName : jstr) (context : option JsObject) :
  let logger := createLogger sp now serviceName context in
  (forall msg data k v, data_get data k = Some v ->
     info logger msg data !! k = Some v /\ warn logger msg data !! k = Some v)
  /\ (forall msg data, data_get data key_level = None ->
       info logger msg data !! key_level = Some (JStr (level_name sp INFO))
       /\ warn logger msg data !! key_level = Some (JStr (level_name sp WARN)))
  /\ (forall msg data, data_get data key_message = None ->
       info logger msg data !! key_message = Some (JStr msg)
       /\ warn logger msg data !! key_message = Some (JStr msg))
  /\ (forall msg data k, data_get data k = None -> k <> key_level -> k <> key_message ->
       info logger msg data !! k = baseLog logger !! k
       /\ warn logger msg data !! k = baseLog logger !! k)
  /\ (forall k, baseLog logger !! k
                = match data_get context k with
                  | Some v => Some v
                  | None => if decide (k = key_timestamp) then Some (JStr now)
                            else if decide (k = key_service) then Some (JStr serviceName)
                            else None
                  end)
  /\ (forall msg msg' data data',
       data_get data key_timestamp = None -> data_get data' key_timestamp = None ->
       info logger msg data !! key_timestamp = warn logger msg' data' !! key_timestamp).
Proof.
  cbv zeta. unfold info, warn.
  split; [| split; [| split; [| split; [| split]]]].
  - intros msg data k v Hd. rewrite !spread_opt_lookup, Hd. auto.
  - intros msg data Hd. rewrite !logged_lookup, Hd. auto.
  - intros msg data Hd. rewrite !logged_lookup, Hd. auto.
  - intros msg data k Hd Hl Hm. rewrite !spread_opt_lookup, Hd, !entry_lookup.
    rewrite !decide_False by assumption. auto.
  - intros k. apply baseLog_lookup.
  - intros msg msg' data data' Hd Hd'. rewrite !logged_lookup, Hd, Hd'. reflexivity.
Qed.

(** X18. The entry of [error]. Apart from the name error it is the entry
    of a message at the error level. Without an [Error] the line written
    has no error property, unless [data] brings one. With an [Error] the
    line has, under error, what [JSON.stringify] writes of its name,
    message and stack: all three when they are strings, and no stack when
    the stack is [undefined]; unless [data] says otherwise. A property
    whose value is [undefined] never reaches the line, at any depth: a
    context that sets service to [undefined] removes the service name
    from it. *)
Theorem X18_log_error_entry
  (sp : Spelling) (now serviceName msg : jstr) (context data : option JsObject) :
  let logger := createLogger sp now serviceName context in
  (forall err k, k <> key_error ->
     error logger msg err data !! k = spread_opt (entry logger ERROR msg) data !! k)
  /\ (data_get data key_error = None ->
      printed (error logger msg None data) !! key_error = None
      /\ (forall e, printed (error logger msg (Some e) data) !! key_error
                    = Some (json_value (JObj [ (str "name", err_name e);
                                               (str "message", err_message e);
                                               (str "stack", err_stack e) ])))
      /\ (forall n m s,
            printed (error logger msg
                       (Some {| err_name := JStr n; err_message := JStr m;
                                err_stack := JStr s |}) data) !! key_error
            = Some (JObj [ (str "name", JStr n); (str "message", JStr m);
                           (str "stack", JStr s) ]))
      /\ (forall n m,
            printed (error logger msg
                       (Some {| err_name := JStr n; err_message := JStr m;
                                err_stack := JUndefined |}) data) !! key_error
            = Some (JObj [ (str "name", JStr n); (str "message", JStr m) ])))
  /\ (forall err v, data_get data key_error = Some v ->
       error logger msg err data !! key_error = Some v)
  /\ (data_get context key_service = Some JUndefined ->
      data_get data key_service = None ->
      forall err, printed (error logger msg err data) !! key_service = None).
Proof.
  cbv zeta. unfold error. split; [| split; [| split]].
  - intros err k Hk. rewrite !spread_opt_lookup.
    destruct (data_get data k); [reflexivity |].
    apply lookup_insert_ne. unfold key_error in Hk. congruence.
  - intros Hd.
    assert (Herr : forall e,
              printed (spread_opt
                         (<[str "error" := JObj [ (str "name", err_name e);
                                                  (str "message", err_message e);
                                                  (str "stack", err_stack e) ]]>
                            (entry (createLogger sp now serviceName context) ERROR msg))
                         data) !! key_error
              = Some (json_value (JObj [ (str "name", err_name e);
                                         (str "message", err_message e);
                                         (str "stack", err_stack e) ]))).
    { intros e. rewrite printed_lookup, spread_opt_lookup, Hd.
      unfold key_error. now rewrite lookup_insert_eq. }
    split; [| split; [| split]].
    + rewrite printed_lookup, spread_opt_lookup, Hd.
      unfold key_error. now rewrite lookup_insert_eq.
    + exact Herr.
    + intros n m s. apply (Herr {| err_name := JStr n; err_message := JStr m;
                                   err_stack := JStr s |}).
    + intros n m. apply (Herr {| err_name := JStr n; err_message := JStr m;
                                 err_stack := JUndefined |}).
  - intros err v Hd. now rewrite spread_opt_lookup, Hd.
  - intros Hc Hd err. rewrite printed_lookup, spread_opt_lookup, Hd.
    rewrite lookup_insert_ne by discriminate.
    rewrite entry_lookup, baseLog_lookup, Hc. reflexivity.
Qed.

(** The logger of the unit tests, with data that names its own level, and
    the same logger given an [Error]. *)
Lemma X17_witness :
  info logger_test (str "test message") (Some data_level) !! key_level
  = Some (JStr (str "debug"))
  /\ info logger_test (str "test message") (Some data_extra) !! key_level
     = Some (JStr (str "info")).
Proof.
  destruct (X17_log_entry_precedence LowerCase (str "2024-01-01T00:00:00.000Z")
              (str "test-service") (Some context_test)) as (Hdata & Hlevel & _).
  split.
  - apply (Hdata (str "test message") (Some data_level) key_level (JStr (str "debug"))).
    vm_compute. reflexivity.
  - apply (Hlevel (str "test message") (Some data_extra)). vm_compute. reflexivity.
Defined.

Lemma X18_witness :
  printed (error logger_test (str "failed") None (Some data_extra)) !! key_error = None
  /\ printed (error logger_test (str "failed")
                (Some {| err_name := JStr (str "TypeError");
                         err_message := JStr (str "failed");
                         err_stack := JUndefined |})
                (Some data_extra)) !! key_error
     = Some (JObj [ (str "name", JStr (str "TypeError"));
                    (str "message", JStr (str "failed")) ]).
Proof.
  destruct (X18_log_error_entry LowerCase (str "2024-01-01T00:00:00.000Z")
              (str "test-service") (str "failed") (Some context_test) (Some data_extra))
    as (_ & Hnone & _).
  assert (Hsilent : data_get (Some data_extra) key_error = None)
    by (vm_compute; reflexivity).
  split; [exact (proj1 (Hnone Hsilent)) |].
  exact (proj2 (proj2 (proj2 (Hnone Hsilent))) (str "TypeError") (str "failed")).
Defined.

(** X19. The two versions of the logger write the same entry but for the
    level: they agree on every other name, they agree on the level as well
    when [data] names one, and otherwise their levels differ, the one in
    capitals and the other in small letters. *)
Theorem X19_log_versions
  (now serviceName msg : jstr) (lv : Level) (context data : option JsObject) (k : jstr) :
  let upper := createLogger UpperCase now serviceName context in
  let lower := createLogger LowerCase now serviceName context in
  baseLog upper = baseLog lower
  /\ (k <> key_level \/ is_Some (data_get data key_level) ->
      spread_opt (entry upper lv msg) data !! k = spread_opt (entry lower lv msg) data !! k)
  /\ (data_get data key_level = None ->
      spread_opt (entry upper lv msg) data !! key_level
      <> spread_opt (entry lower lv msg) data !! key_level)
  /\ level_name LowerCase lv = map (fun c => if is_upper c then (c + 32)%N else c)
                                   (level_name UpperCase lv).
Proof.
  cbv zeta. split; [reflexivity |]. split; [| split].
  - intros Hk. rewrite !logged_lookup.
    destruct (data_get data k) eqn:Hd; [reflexivity |].
    destruct (decide (k = key_message)); [reflexivity |].
    destruct (decide (k = key_level)) as [-> | Hl]; [| reflexivity].
    destruct Hk as [Hk | [v Hv]]; [contradiction | congruence].
  - intros Hd. rewrite !logged_lookup, Hd. destruct lv; vm_compute; discriminate.
  - destruct lv; vm_compute; reflexivity.
Qed.

Lemma X19_witness :
  spread_opt (entry (createLogger UpperCase (str "2024-01-01T00:00:00.000Z")
                       (str "test-service") None) WARN (str "slow")) (Some data_level)
    !! key_level
  = spread_opt (entry (createLogger LowerCase (str "2024-01-01T00:00:00.000Z")
                         (str "test-service") None) WARN (str "slow")) (Some data_level)
      !! key_level.
Proof.
  apply (X19_log_versions (str "2024-01-01T00:00:00.000Z") (str "test-service")
           (str "slow") WARN None (Some data_level) key_level).
  right. exists (JStr (str "debug")). vm_compute. reflexivity.
Defined.

End LoggingMore.
